(** * GRIME2 (gaugecam): calibration model and bowtie-target search

    A shallow embedding of [Calib] (calib.cpp) and [FindCalibGrid]
    (findcalibgrid.cpp), with the properties of their specification.

    Numeric conventions of the embedding
    - [int] is a [Z]; arithmetic that can leave the 32-bit range is written
      with its two's-complement wrap-around ([Int.wrap]); [size_t] wraps
      modulo 2^64 ([SizeT.wrap]).
    - [double] and [float] are idealised as exact rationals ([Q]): rounding
      error, NaN and infinities are outside the model.  Where the source
      divides by a quantity that can be zero, the theorems that depend on the
      quotient carry a non-zero hypothesis.
    - a read of a [std::vector] or of a [cv::Mat] outside its bounds is
      undefined behaviour in the source; the embedding returns [None] for it,
      so every function that indexes lives in the [option] monad.
    - OpenCV itself is not part of the repository: its entry points are the
      fields of the class [OpenCV]; a thrown [cv::Exception] is [None]. *)

From Stdlib Require Import ZArith QArith Qround Qabs List Bool Lia Lqa.
From Stdlib Require Import String Permutation Sorted.
Import ListNotations.
Open Scope Z_scope.

(** ** Machine integers *)

Module Int.
Definition min_int : Z := - 2 ^ 31.
Definition max_int : Z := 2 ^ 31 - 1.
Definition in_range (z : Z) : Prop := min_int <= z <= max_int.
Definition wrap (z : Z) : Z := (z + 2 ^ 31) mod 2 ^ 32 - 2 ^ 31.
Definition add (a b : Z) : Z := wrap (a + b).
Definition sub (a b : Z) : Z := wrap (a - b).
Definition mul (a b : Z) : Z := wrap (a * b).
(** [a >> n] on a signed int: arithmetic shift. *)
Definition shr (a n : Z) : Z := Z.shiftr a n.
End Int.

Module SizeT.
Definition wrap (z : Z) : Z := z mod 2 ^ 64.
Definition sub (a b : Z) : Z := wrap (a - b).
Definition mul (a b : Z) : Z := wrap (a * b).
End SizeT.

(** [static_cast< int >( n )] of a [size_t] and
    [static_cast< size_t >( i )] of an [int]. *)
Definition int_of_size (n : Z) : Z := Int.wrap n.
Definition size_of_int (i : Z) : Z := SizeT.wrap i.

(** [v.size()] and [v[ i ]] for a [std::vector]. *)
Definition vsize {A} (v : list A) : Z := Z.of_nat (List.length v).
Definition vat {A} (v : list A) (i : Z) : option A :=
  if (0 <=? i) then nth_error v (Z.to_nat i) else None.

(** ** Doubles *)

Definition Qlt_bool (a b : Q) : bool := negb (Qle_bool b a).
Definition fmin (a b : Q) : Q := if Qlt_bool b a then b else a.
Definition fmax (a b : Q) : Q := if Qlt_bool a b then b else a.

(** Nearest integer, ties to even (the default rounding mode). *)
Definition round_half_even (q : Q) : Z :=
  let f := Qfloor q in
  match Qcompare (q - inject_Z f) (1 # 2) with
  | Lt => f
  | Gt => f + 1
  | Eq => if Z.even f then f else f + 1
  end.

(** [cvRound]: a value outside the [int] range converts to [INT_MIN]. *)
Definition cvRound (q : Q) : Z :=
  let r := round_half_even q in
  if (Int.min_int <=? r) && (r <=? Int.max_int) then r else Int.min_int.

(** ** OpenCV value types *)

Record Point := mkPoint { p_x : Z; p_y : Z }.
Record Point2d := mkPoint2d { d_x : Q; d_y : Q }.
Record Size := mkSize { width : Z; height : Z }.
Record Rect := mkRect { r_x : Z; r_y : Z; r_width : Z; r_height : Z }.

Inductive MatType := CV_8UC1 | CV_8UC3 | CV_32FC1 | CV_64FC1.

(** A matrix header with its element buffer in row-major order. *)
Record Mat := mkMat
  { rows : Z; cols : Z; mtype : MatType; elems : list Q }.

Definition Mat_new : Mat := mkMat 0 0 CV_8UC1 [].
Definition Mat_empty (m : Mat) : bool :=
  (rows m <=? 0) || (cols m <=? 0) || match elems m with [] => true | _ => false end.
Definition Mat_size (m : Mat) : Size := mkSize (cols m) (rows m).

Definition MatType_eqb (a b : MatType) : bool :=
  match a, b with
  | CV_8UC1, CV_8UC1 | CV_8UC3, CV_8UC3
  | CV_32FC1, CV_32FC1 | CV_64FC1, CV_64FC1 => true
  | _, _ => false
  end.

Definition in_bounds (m : Mat) (col row : Z) : bool :=
  (0 <=? col) && (col <? cols m) && (0 <=? row) && (row <? rows m).

(** [m.at< T >( Point( col, row ) )]. *)
Definition Mat_at (m : Mat) (col row : Z) : option Q :=
  if in_bounds m col row then nth_error (elems m) (Z.to_nat (row * cols m + col))
  else None.

(** ** Status codes (gc_types.h) *)

Inductive GC_STATUS := GC_OK | GC_ERR | GC_EXCEPT | GC_WARN.

Definition GC_STATUS_eqb (a b : GC_STATUS) : bool :=
  match a, b with
  | GC_OK, GC_OK | GC_ERR, GC_ERR | GC_EXCEPT, GC_EXCEPT | GC_WARN, GC_WARN => true
  | _, _ => false
  end.

(** ** The option monad of defined behaviour *)

Definition bind {A B} (o : option A) (k : A -> option B) : option B :=
  match o with Some a => k a | None => None end.

Declare Scope ub_scope.
Notation "x <- e ;; k" := (bind e (fun x => k))
  (at level 61, e at next level, right associativity) : ub_scope.
Notation "' p <- e ;; k" := (bind e (fun x => let p := x in k))
  (at level 61, p pattern, e at next level, right associativity) : ub_scope.
Open Scope ub_scope.

(** ** What the repository takes from elsewhere *)

(** The OpenCV entry points the two classes call.  [None] is a thrown
    [cv::Exception]. *)
Class OpenCV := {
  (** [cv::findHomography( src, dst )] *)
  findHomography : list Point2d -> list Point2d -> option Mat;
  (** [cv::matchTemplate( img, templ, result, TM_CCOEFF_NORMED )]: the
      freshly written [result]. *)
  matchTemplate : Mat -> Mat -> option Mat;
  (** [cv::circle( m, center, radius, Scalar( value ), FILLED )] *)
  circle : Mat -> Point -> Z -> Q -> Mat;
}.

Record LineEnds := mkLineEnds { top : Point; bot : Point }.

Record CalibModel := mkCalibModel
  { gridSize : Size;
    pixelPoints : list Point2d;
    worldPoints : list Point2d;
    moveSearchRegionLft : Rect;
    moveSearchRegionRgt : Rect;
    searchLines : list LineEnds }.

(** The constants and the one method of gc_types.h / findcalibgrid.h that the
    two translation units use; the headers are not among the sources, so they
    are parameters of the development. *)
Class GcTypes := {
  GC_BOWTIE_TEMPLATE_DIM : Z;
  TEMPLATE_COUNT : Z;
  TARGET_COUNT : Z;
  CALIB_POINT_ROW_COUNT : nat;
  CALIB_POINT_COL_COUNT : nat;
  TEMPLATE_MATCH_MIN_SCORE : Q;
  (** [CalibModel::clear()] *)
  CalibModel_clear : CalibModel -> CalibModel;
}.

(** ** Calib *)

Record Calib := mkCalib
  { m_model : CalibModel;
    m_imgSize : Size;
    m_matHomogPixToWorld : Mat;
    m_matHomogWorldToPix : Mat }.

Definition with_model (c : Calib) (m : CalibModel) : Calib :=
  mkCalib m (m_imgSize c) (m_matHomogPixToWorld c) (m_matHomogWorldToPix c).
Definition with_imgSize (c : Calib) (s : Size) : Calib :=
  mkCalib (m_model c) s (m_matHomogPixToWorld c) (m_matHomogWorldToPix c).
Definition with_pixToWorld (c : Calib) (h : Mat) : Calib :=
  mkCalib (m_model c) (m_imgSize c) h (m_matHomogWorldToPix c).
Definition with_worldToPix (c : Calib) (h : Mat) : Calib :=
  mkCalib (m_model c) (m_imgSize c) (m_matHomogPixToWorld c) h.

Definition set_gridSize (m : CalibModel) (g : Size) : CalibModel :=
  mkCalibModel g (pixelPoints m) (worldPoints m)
    (moveSearchRegionLft m) (moveSearchRegionRgt m) (searchLines m).
Definition set_points (m : CalibModel) (pp wp : list Point2d) : CalibModel :=
  mkCalibModel (gridSize m) pp wp
    (moveSearchRegionLft m) (moveSearchRegionRgt m) (searchLines m).
Definition set_moveSearchRegionLft (m : CalibModel) (r : Rect) : CalibModel :=
  mkCalibModel (gridSize m) (pixelPoints m) (worldPoints m)
    r (moveSearchRegionRgt m) (searchLines m).
Definition set_moveSearchRegionRgt (m : CalibModel) (r : Rect) : CalibModel :=
  mkCalibModel (gridSize m) (pixelPoints m) (worldPoints m)
    (moveSearchRegionLft m) r (searchLines m).
Definition set_searchLines (m : CalibModel) (l : list LineEnds) : CalibModel :=
  mkCalibModel (gridSize m) (pixelPoints m) (worldPoints m)
    (moveSearchRegionLft m) (moveSearchRegionRgt m) l.

Definition isnil {A} (l : list A) : bool :=
  match l with [] => true | _ => false end.

(** The quantities [CalcSearchSwaths] derives from the grid before its loop. *)
Record SwathGeometry := mkSwathGeometry
  { sw_widthTop : Z; sw_widthBot : Q; sw_height : Z;
    sw_topLftX : Q; sw_topLftY : Q; sw_botLftX : Q; sw_botLftY : Q;
    sw_xInc : Q; sw_xIncBot : Q; sw_yInc : Q }.

Definition swath_geometry (c : Calib) : option SwathGeometry :=
  let m := m_model c in
  let pp := pixelPoints m in
  let w := width (gridSize m) in
  let h := height (gridSize m) in
  let imgHeight := height (m_imgSize c) in
  pTopRgt <- vat pp (SizeT.sub (size_of_int w) 1) ;;
  p0 <- vat pp 0 ;;
  let widthTop := cvRound ((d_x pTopRgt - d_x p0) / 3)%Q in
  pBotRgt <- vat pp (SizeT.sub (size_of_int (Int.mul w h)) 1) ;;
  pBotLft <- vat pp (size_of_int (Int.mul w (Int.sub h 1))) ;;
  let widthBot := ((d_x pBotRgt - d_x pBotLft) / 3)%Q in
  let height := cvRound ((d_y pBotLft - d_y p0) * (5 # 4))%Q in
  let topLftX := (d_x p0 + inject_Z widthTop)%Q in
  let topLftY :=
    (d_y p0 - inject_Z height / 8 + inject_Z (Int.shr height 4))%Q in
  let botLftX := (d_x pBotLft + widthBot)%Q in
  let botLftY :=
    (d_y pBotLft + inject_Z height / 8 + inject_Z (Int.shr height 4))%Q in
  let botLftY := fmin botLftY (inject_Z (Int.sub imgHeight 1)) in
  let xInc := 1%Q in
  let xIncBot := (widthBot / inject_Z widthTop)%Q in
  let yInc := ((d_y pTopRgt - d_y p0) / (inject_Z height * 3))%Q in
  Some (mkSwathGeometry widthTop widthBot height topLftX topLftY botLftX botLftY
          xInc xIncBot yInc).

(** The loop [for ( int i = 0; i <= widthTop; ++i )], [n] iterations left. *)
Fixpoint swath_loop (n : nat) (ptTop ptBot : Point2d) (xInc xIncBot yInc : Q)
  : list LineEnds :=
  match n with
  | O => []
  | S n' =>
      mkLineEnds (mkPoint (cvRound (d_x ptTop)) (cvRound (d_y ptTop)))
                 (mkPoint (cvRound (d_x ptBot)) (cvRound (d_y ptBot)))
      :: swath_loop n'
           (mkPoint2d (d_x ptTop + xInc)%Q (d_y ptTop + yInc)%Q)
           (mkPoint2d (d_x ptBot + xIncBot)%Q (d_y ptBot + yInc)%Q)
           xInc xIncBot yInc
  end.

Definition CalcSearchSwaths_invalid (c : Calib) : bool :=
  let m := m_model c in
  isnil (pixelPoints m) || isnil (worldPoints m)
  || negb (vsize (pixelPoints m) =? vsize (worldPoints m))
  || (width (gridSize m) <? 2) || (height (gridSize m) <? 4).

Definition CalcSearchSwaths (c : Calib) : option (GC_STATUS * Calib) :=
  if CalcSearchSwaths_invalid c then Some (GC_ERR, c)
  else
    g <- swath_geometry c ;;
    let lines :=
      swath_loop (Z.to_nat (sw_widthTop g + 1))
        (mkPoint2d (sw_topLftX g) (sw_topLftY g))
        (mkPoint2d (sw_botLftX g) (sw_botLftY g))
        (sw_xInc g) (sw_xIncBot g) (sw_yInc g) in
    Some (GC_OK, with_model c (set_searchLines (m_model c) lines)).

(** The overlay that [Calibrate] draws on [imgOut] when asked to (the block
    guarded by [GC_OK == retVal] inside the drawing branch).  It reads the
    object and writes only [imgOut] and the status; it is presentation, kept
    abstract here.  [None] is a [cv::Exception] escaping a drawing call. *)
Class CalibOverlay := {
  cvtColor_GRAY2BGR : Mat -> Mat;
  drawCalibration : Calib -> Mat -> bool -> bool -> bool -> option (GC_STATUS * Mat);
}.

Section CalibOps.
Context {cv : OpenCV} {gc : GcTypes} {ov : CalibOverlay}.

Definition Calibrate_invalid (pixelPts worldPts : list Point2d) (gridSize : Size)
  : bool :=
  negb (vsize pixelPts =? vsize worldPts) || isnil pixelPts || isnil worldPts
  || negb (Int.mul (width gridSize) (height gridSize) =? int_of_size (vsize pixelPts))
  || (width gridSize <=? 0).

(** The rectangle [Calibrate] stores around a reference point. *)
Definition moveSearchRegion (p : Point2d) (imgSize : Size) : Rect :=
  mkRect
    (Z.max 0 (Int.sub (cvRound (d_x p)) GC_BOWTIE_TEMPLATE_DIM))
    (Z.max 0 (Int.sub (cvRound (d_y p)) GC_BOWTIE_TEMPLATE_DIM))
    (Z.min (Int.sub (width imgSize) (cvRound (d_x p))) (Int.mul GC_BOWTIE_TEMPLATE_DIM 2))
    (Z.min (Int.sub (height imgSize) (cvRound (d_y p))) (Int.mul GC_BOWTIE_TEMPLATE_DIM 2)).

(** The statements of the [try] block up to the first [findHomography]:
    [m_model.clear()], the assignments of [m_imgSize] and [gridSize], and the
    loop that pushes every [pixelPts[ i ]] and [worldPts[ i ]] (the two
    vectors have the same size on this path). *)
Definition Calibrate_store (c : Calib) (pixelPts worldPts : list Point2d)
    (gridSize imgSize : Size) : Calib :=
  let c := with_model c (CalibModel_clear (m_model c)) in
  let c := with_imgSize c imgSize in
  let c := with_model c (set_gridSize (m_model c) gridSize) in
  with_model c (set_points (m_model c) pixelPts worldPts).

(** After [CalcSearchSwaths] returned [GC_OK]: the two move-search regions. *)
Definition Calibrate_moveRegions (c : Calib) (imgSize : Size) : option Calib :=
  p0 <- vat (pixelPoints (m_model c)) 0 ;;
  let c := with_model c
             (set_moveSearchRegionLft (m_model c) (moveSearchRegion p0 imgSize)) in
  let idx := size_of_int (Int.sub (width (gridSize (m_model c))) 1) in
  pIdx <- vat (pixelPoints (m_model c)) idx ;;
  Some (with_model c
          (set_moveSearchRegionRgt (m_model c) (moveSearchRegion pIdx imgSize))).

(** The drawing branch; the object is not written. *)
Definition Calibrate_draw (c : Calib) (retVal : GC_STATUS) (img imgOut : Mat)
    (drawCalib drawMoveROIs drawSearchROI : bool) : GC_STATUS * Mat :=
  if (drawCalib || drawMoveROIs || drawSearchROI) && negb (Mat_empty img) then
    let '(retVal, imgOut) :=
      match mtype img with
      | CV_8UC1 => (retVal, cvtColor_GRAY2BGR img)
      | CV_8UC3 => (retVal, img)
      | _ => (GC_ERR, imgOut)
      end in
    if GC_STATUS_eqb GC_OK retVal then
      match drawCalibration c imgOut drawCalib drawMoveROIs drawSearchROI with
      | Some r => r
      | None => (GC_EXCEPT, imgOut)
      end
    else (retVal, imgOut)
  else (retVal, imgOut).

Definition Calibrate (c : Calib) (pixelPts worldPts : list Point2d)
    (gridSize imgSize : Size) (img imgOut : Mat)
    (drawCalib drawMoveROIs drawSearchROI : bool)
  : option (GC_STATUS * Calib * Mat) :=
  if Calibrate_invalid pixelPts worldPts gridSize then Some (GC_ERR, c, imgOut)
  else
    let c := Calibrate_store c pixelPts worldPts gridSize imgSize in
    match findHomography (pixelPoints (m_model c)) (worldPoints (m_model c)) with
    | None => Some (GC_EXCEPT, c, imgOut)
    | Some h =>
        let c := with_pixToWorld c h in
        match findHomography (worldPoints (m_model c)) (pixelPoints (m_model c)) with
        | None => Some (GC_EXCEPT, c, imgOut)
        | Some h =>
            let c := with_worldToPix c h in
            '(retVal, c) <- CalcSearchSwaths c ;;
            c <- (if GC_STATUS_eqb GC_OK retVal
                  then Calibrate_moveRegions c imgSize else Some c) ;;
            let '(retVal, imgOut) :=
              Calibrate_draw c retVal img imgOut drawCalib drawMoveROIs drawSearchROI in
            Some (retVal, c, imgOut)
        end
    end.

Definition MoveSearchROI (c : Calib) (isLeft : bool) : Rect :=
  if isLeft then moveSearchRegionLft (m_model c)
  else moveSearchRegionRgt (m_model c).

(** [numeric_limits< double >::min()], the smallest positive normal double. *)
Definition DBL_MIN : Q := 1 # (2 ^ 1022).

Definition MoveRefPoint (c : Calib) (isLeft : bool) : option Point2d :=
  let m := m_model c in
  let pt := mkPoint2d DBL_MIN DBL_MIN in
  if isnil (pixelPoints m) then Some pt
  else if negb (size_of_int (Int.mul (width (gridSize m)) (height (gridSize m)))
                =? vsize (pixelPoints m)) then Some pt
  else if isLeft then vat (pixelPoints m) 0
  else vat (pixelPoints m) (size_of_int (Int.sub (width (gridSize m)) 1)).

End CalibOps.

(** ** The calibration file

    [Save] writes JSON text and [Load] reads it back through
    [boost::property_tree]; the text level is abstracted to the tree the
    parser delivers.  A field is [None] when the key is absent (or its text
    does not convert), which is when [get< T >( key, default )] yields the
    default and [get_child( key )] throws. *)

Record JsonPoint := mkJsonPoint
  { pixelX : option Q; pixelY : option Q; worldX : option Q; worldY : option Q }.
Record JsonRect := mkJsonRect
  { j_x : option Z; j_y : option Z; j_width : option Z; j_height : option Z }.
Record JsonLine := mkJsonLine
  { topX : option Z; topY : option Z; botX : option Z; botY : option Z }.
Record JsonPixelToWorld := mkJsonPixelToWorld
  { columns : option Z; j_rows : option Z; points : option (list JsonPoint) }.
Record JsonCalib := mkJsonCalib
  { imageWidth : option Z;
    imageHeight : option Z;
    PixelToWorld : option JsonPixelToWorld;
    MoveSearchRegions : option (list (string * JsonRect));
    SearchLines : option (list JsonLine) }.

(** What a path holds: text that [read_json] rejects, or a tree. *)
Inductive FileContent := NotJson | Json (j : JsonCalib).

Record FileSystem := mkFileSystem
  { files : string -> option FileContent;
    (** whether [ofstream( path, ios::out )] opens *)
    can_open : string -> bool }.

Definition write_file (fs : FileSystem) (path : string) (f : FileContent)
  : FileSystem :=
  mkFileSystem (fun p => if String.eqb p path then Some f else files fs p)
               (can_open fs).

Definition get {A} (o : option A) (default : A) : A :=
  match o with Some a => a | None => default end.

(** [fixed << setprecision( 3 )]: the decimal with three digits after the
    point nearest to the value, as the parser reads it back. *)
Definition fixed3 (q : Q) : Q := (inject_Z (round_half_even (q * 1000)) / 1000)%Q.

Section CalibFile.
Context {cv : OpenCV} {gc : GcTypes} {ov : CalibOverlay}.

Definition Save_invalid (c : Calib) : bool :=
  let m := m_model c in
  isnil (pixelPoints m) || isnil (worldPoints m)
  || negb (vsize (pixelPoints m) =? vsize (worldPoints m))
  || (width (gridSize m) <? 2) || (height (gridSize m) <? 4)
  || isnil (searchLines m).

Definition json_of_point (p w : Point2d) : JsonPoint :=
  mkJsonPoint (Some (fixed3 (d_x p))) (Some (fixed3 (d_y p)))
              (Some (fixed3 (d_x w))) (Some (fixed3 (d_y w))).
Definition json_of_rect (r : Rect) : JsonRect :=
  mkJsonRect (Some (r_x r)) (Some (r_y r)) (Some (r_width r)) (Some (r_height r)).
Definition json_of_line (l : LineEnds) : JsonLine :=
  mkJsonLine (Some (p_x (top l))) (Some (p_y (top l)))
             (Some (p_x (bot l))) (Some (p_y (bot l))).

(** The tree of the text [Save] streams out.  The two loops over
    [0 .. size - 2] followed by the entry for [size - 1] emit every point and
    every search line once, in order; pixel and world vectors have the same
    size on this path. *)
Definition Save_json (c : Calib) : JsonCalib :=
  let m := m_model c in
  mkJsonCalib
    (Some (width (m_imgSize c)))
    (Some (height (m_imgSize c)))
    (Some (mkJsonPixelToWorld
             (Some (width (gridSize m)))
             (Some (height (gridSize m)))
             (Some (map (fun pw => json_of_point (fst pw) (snd pw))
                        (combine (pixelPoints m) (worldPoints m))))))
    (Some [ ("Left"%string, json_of_rect (moveSearchRegionLft m));
            ("Right"%string, json_of_rect (moveSearchRegionRgt m)) ])
    (Some (map json_of_line (searchLines m))).

Definition Save (fs : FileSystem) (c : Calib) (jsonCalFilepath : string)
  : GC_STATUS * FileSystem :=
  if Save_invalid c then (GC_ERR, fs)
  else if can_open fs jsonCalFilepath
       then (GC_OK, write_file fs jsonCalFilepath (Json (Save_json c)))
       else (GC_ERR, fs).

(** The loop over the children of ["MoveSearchRegions"]. *)
Fixpoint Load_moveSearch (l : list (string * JsonRect)) (m : CalibModel)
  : CalibModel :=
  match l with
  | [] => m
  | (key, r) :: l' =>
      let rect := mkRect (get (j_x r) 0) (get (j_y r) 0)
                         (get (j_width r) 0) (get (j_height r) 0) in
      let m :=
        if String.eqb key "Left" then set_moveSearchRegionLft m rect
        else if String.eqb key "Right" then set_moveSearchRegionRgt m rect
        else m in
      Load_moveSearch l' m
  end.

Definition Load_point_pixel (n : JsonPoint) : Point2d :=
  mkPoint2d (get (pixelX n) 0%Q) (get (pixelY n) 0%Q).
Definition Load_point_world (n : JsonPoint) : Point2d :=
  mkPoint2d (get (worldX n) 0%Q) (get (worldY n) 0%Q).
Definition Load_line (n : JsonLine) : LineEnds :=
  mkLineEnds (mkPoint (get (topX n) Int.min_int) (get (topY n) Int.min_int))
             (mkPoint (get (botX n) Int.min_int) (get (botY n) Int.min_int)).

Definition Load (fs : FileSystem) (c : Calib) (jsonCalFilepath : string)
  : option (GC_STATUS * Calib) :=
  match files fs jsonCalFilepath with
  | None => Some (GC_ERR, c)
  | Some NotJson => Some (GC_EXCEPT, c)
  | Some (Json ptreeTop) =>
      let c := with_imgSize c
                 (mkSize (get (imageWidth ptreeTop) 0) (height (m_imgSize c))) in
      let c := with_imgSize c
                 (mkSize (width (m_imgSize c)) (get (imageHeight ptreeTop) 0)) in
      match PixelToWorld ptreeTop with
      | None => Some (GC_EXCEPT, c)
      | Some ptreeCalib =>
          let cols := get (columns ptreeCalib) 2 in
          let rows := get (j_rows ptreeCalib) 4 in
          let c := with_model c (set_points (m_model c) [] []) in
          match points ptreeCalib with
          | None => Some (GC_EXCEPT, c)
          | Some nodes =>
              let c := with_model c
                         (set_points (m_model c)
                            (map Load_point_pixel nodes)
                            (map Load_point_world nodes)) in
              match MoveSearchRegions ptreeTop with
              | None => Some (GC_EXCEPT, c)
              | Some ptreeMoveSearch =>
                  let c := with_model c (Load_moveSearch ptreeMoveSearch (m_model c)) in
                  let c := with_model c (set_searchLines (m_model c) []) in
                  match SearchLines ptreeTop with
                  | None => Some (GC_EXCEPT, c)
                  | Some lines =>
                      let c := with_model c
                                 (set_searchLines (m_model c) (map Load_line lines)) in
                      if negb (SizeT.mul cols rows =? vsize (pixelPoints (m_model c)))
                      then Some (GC_ERR, c)
                      else
                        let c := with_model c
                                   (set_gridSize (m_model c)
                                      (mkSize (int_of_size cols) (int_of_size rows))) in
                        '(retVal, c, _) <-
                          Calibrate c (pixelPoints (m_model c)) (worldPoints (m_model c))
                            (gridSize (m_model c)) (m_imgSize c)
                            Mat_new Mat_new false false false ;;
                        Some (retVal, c)
                  end
              end
          end
      end
  end.

End CalibFile.

(** ** Matrix operations the search uses *)

(** Buffer length agrees with the header. *)
Definition Mat_wf (m : Mat) : Prop :=
  0 <= rows m /\ 0 <= cols m /\ vsize (elems m) = rows m * cols m.

(** [m = value] on an allocated matrix: every element is overwritten. *)
Definition Mat_setTo (m : Mat) (v : Q) : Mat :=
  mkMat (rows m) (cols m) (mtype m) (map (fun _ => v) (elems m)).

(** [Mat m( size, type ); m = 0;] *)
Definition Mat_zeros (s : Size) (t : MatType) : Mat :=
  mkMat (height s) (width s) t
        (repeat 0%Q (Z.to_nat (height s) * Z.to_nat (width s))).

Definition Rect_inside (r : Rect) (m : Mat) : bool :=
  (0 <=? r_x r) && (0 <=? r_width r) && (r_x r + r_width r <=? cols m)
  && (0 <=? r_y r) && (0 <=? r_height r) && (r_y r + r_height r <=? rows m).

Definition Rect_contains (r : Rect) (col row : Z) : bool :=
  (r_x r <=? col) && (col <? r_x r + r_width r)
  && (r_y r <=? row) && (row <? r_y r + r_height r).

(** Row-major enumeration of the cells of a [h] x [w] matrix. *)
Definition cells (h w : Z) : list (Z * Z) :=
  flat_map (fun r => map (fun c => (Z.of_nat c, Z.of_nat r)) (seq 0 (Z.to_nat w)))
           (seq 0 (Z.to_nat h)).

Definition Mat_get (m : Mat) (col row : Z) : Q :=
  nth (Z.to_nat (row * cols m + col)) (elems m) 0%Q.

(** [m( rect )]: the sub-matrix; [None] is the [cv::Exception] of a rectangle
    that is not inside [m]. *)
Definition Mat_roi (m : Mat) (r : Rect) : option Mat :=
  if Rect_inside r m then
    Some (mkMat (r_height r) (r_width r) (mtype m)
            (map (fun cr => Mat_get m (r_x r + fst cr) (r_y r + snd cr))
                 (cells (r_height r) (r_width r))))
  else None.

(** [src.copyTo( dst( rect ) )] for a [src] of the size of [rect]: the cells
    of [dst] under [rect] take the values of [src].  When the element types
    differ [copyTo] reallocates its destination header and [dst] keeps its
    contents. *)
Definition Mat_copyTo_roi (src dst : Mat) (r : Rect) : Mat :=
  if MatType_eqb (mtype src) (mtype dst) then
    mkMat (rows dst) (cols dst) (mtype dst)
      (map (fun cr => if Rect_contains r (fst cr) (snd cr)
                      then Mat_get src (fst cr - r_x r) (snd cr - r_y r)
                      else Mat_get dst (fst cr) (snd cr))
           (cells (rows dst) (cols dst)))
  else dst.

(** First position, in row-major order, of the largest (smallest) element. *)
Fixpoint scan_max (l : list Q) (i : nat) (best : Q) (at_ : nat) : Q * nat :=
  match l with
  | [] => (best, at_)
  | v :: l' => if Qlt_bool best v then scan_max l' (S i) v i
               else scan_max l' (S i) best at_
  end.
Fixpoint scan_min (l : list Q) (i : nat) (best : Q) (at_ : nat) : Q * nat :=
  match l with
  | [] => (best, at_)
  | v :: l' => if Qlt_bool v best then scan_min l' (S i) v i
               else scan_min l' (S i) best at_
  end.

Definition point_of_index (m : Mat) (i : nat) : Point :=
  mkPoint (Z.of_nat i mod cols m) (Z.of_nat i / cols m).

(** [cv::minMaxLoc( m, &min, &max, &ptMin, &ptMax )] *)
Definition minMaxLoc (m : Mat) : Q * Q * Point * Point :=
  match elems m with
  | [] => (0%Q, 0%Q, mkPoint (-1) (-1), mkPoint (-1) (-1))
  | v :: l =>
      let '(mn, imn) := scan_min l 1 v 0 in
      let '(mx, imx) := scan_max l 1 v 0 in
      (mn, mx, point_of_index m imn, point_of_index m imx)
  end.

(** [std::sort( first, last, comp )].  The order it leaves between elements
    that [comp] does not separate is unspecified; the properties below hold
    for every outcome and are proved on this insertion sort. *)
Fixpoint sort_insert {A} (comp : A -> A -> bool) (a : A) (l : list A) : list A :=
  match l with
  | [] => [a]
  | b :: l' => if comp b a then b :: sort_insert comp a l' else a :: l
  end.
Fixpoint std_sort {A} (comp : A -> A -> bool) (l : list A) : list A :=
  match l with
  | [] => []
  | a :: l' => sort_insert comp a (std_sort comp l')
  end.

(** ** FindCalibGrid *)

Record TemplateBowtieItem := mkItem { pt : Point2d; score : Q }.

Record FindCalibGrid := mkFindCalibGrid
  { m_templates : list Mat;
    m_matchSpace : Mat;
    m_matchSpaceSmall : Mat;
    m_matchItems : list TemplateBowtieItem;
    m_itemArray : list (list TemplateBowtieItem);
    m_rectLeftMoveSearch : Rect;
    m_rectRightMoveSearch : Rect }.

Definition with_matchSpace (g : FindCalibGrid) (m : Mat) : FindCalibGrid :=
  mkFindCalibGrid (m_templates g) m (m_matchSpaceSmall g) (m_matchItems g)
    (m_itemArray g) (m_rectLeftMoveSearch g) (m_rectRightMoveSearch g).
Definition with_matchSpaceSmall (g : FindCalibGrid) (m : Mat) : FindCalibGrid :=
  mkFindCalibGrid (m_templates g) (m_matchSpace g) m (m_matchItems g)
    (m_itemArray g) (m_rectLeftMoveSearch g) (m_rectRightMoveSearch g).
Definition with_matchItems (g : FindCalibGrid) (l : list TemplateBowtieItem)
  : FindCalibGrid :=
  mkFindCalibGrid (m_templates g) (m_matchSpace g) (m_matchSpaceSmall g) l
    (m_itemArray g) (m_rectLeftMoveSearch g) (m_rectRightMoveSearch g).
Definition with_itemArray (g : FindCalibGrid) (a : list (list TemplateBowtieItem))
  : FindCalibGrid :=
  mkFindCalibGrid (m_templates g) (m_matchSpace g) (m_matchSpaceSmall g)
    (m_matchItems g) a (m_rectLeftMoveSearch g) (m_rectRightMoveSearch g).
Definition with_rectLeft (g : FindCalibGrid) (r : Rect) : FindCalibGrid :=
  mkFindCalibGrid (m_templates g) (m_matchSpace g) (m_matchSpaceSmall g)
    (m_matchItems g) (m_itemArray g) r (m_rectRightMoveSearch g).
Definition with_rectRight (g : FindCalibGrid) (r : Rect) : FindCalibGrid :=
  mkFindCalibGrid (m_templates g) (m_matchSpace g) (m_matchSpaceSmall g)
    (m_matchItems g) (m_itemArray g) (m_rectLeftMoveSearch g) r.

(** The constructor: the two default move-search rectangles. *)
Definition FindCalibGrid_new : FindCalibGrid :=
  mkFindCalibGrid [] Mat_new Mat_new [] [] (mkRect 0 0 5 5) (mkRect 10 0 5 5).

(** *** SubpixelPointRefine *)

Definition SubpixelPointRefine_offimage (matchSpace : Mat) (ptMax : Point) : bool :=
  (p_x ptMax <? 1) || (p_y ptMax <? 1)
  || (cols matchSpace - 2 <? p_x ptMax) || (rows matchSpace - 2 <? p_y ptMax).

(** The running sums [total], [totalX], [totalY]. *)
Record Totals := mkTotals { total : Q; totalX : Q; totalY : Q }.

(** Inner loop [for ( col = ptMax.x - 1; col < ptMax.x + 2; ++col )],
    [n] iterations left. *)
Fixpoint SubpixelPointRefine_cols (matchSpace : Mat) (row col : Z) (n : nat)
    (t : Totals) : option Totals :=
  match n with
  | O => Some t
  | S n' =>
      val <- Mat_at matchSpace col row ;;
      SubpixelPointRefine_cols matchSpace row (col + 1) n'
        (mkTotals (total t + val)
                  (totalX t + val * inject_Z col)
                  (totalY t + val * inject_Z row))%Q
  end.

(** Outer loop [for ( row = ptMax.y - 1; row < ptMax.y + 2; ++row )]. *)
Fixpoint SubpixelPointRefine_rows (matchSpace : Mat) (ptMax : Point) (row : Z)
    (n : nat) (t : Totals) : option Totals :=
  match n with
  | O => Some t
  | S n' =>
      t <- SubpixelPointRefine_cols matchSpace row (p_x ptMax - 1) 3 t ;;
      SubpixelPointRefine_rows matchSpace ptMax (row + 1) n' t
  end.

Definition SubpixelPointRefine (matchSpace : Mat) (ptMax : Point) (ptResult : Point2d)
  : option (GC_STATUS * Point2d) :=
  if SubpixelPointRefine_offimage matchSpace ptMax then Some (GC_ERR, ptResult)
  else if negb (MatType_eqb CV_32FC1 (mtype matchSpace)) then Some (GC_ERR, ptResult)
  else
    t <- SubpixelPointRefine_rows matchSpace ptMax (p_y ptMax - 1) 3
           (mkTotals 0 0 0) ;;
    Some (GC_OK, mkPoint2d (totalX t / total t) (totalY t / total t)).

Section FindCalibGridOps.
Context {cv : OpenCV} {gc : GcTypes}.

(** The argument checks shared by [MatchTemplate] and [MatchRefine]. *)
Definition index_invalid (index : Z) : bool :=
  (index <? 0) || (TEMPLATE_COUNT <=? index).
Definition minScore_invalid (minScore : Q) : bool :=
  Qlt_bool minScore (5 # 100) || Qlt_bool 1 minScore.
Definition numToFind_invalid (numToFind : Z) : bool :=
  (numToFind <? 1) || (1000 <? numToFind).

(** *** MatchTemplate *)

Definition on_image (img : Mat) (ptMax : Point) : bool :=
  (0 <? p_x ptMax) && (0 <? p_y ptMax)
  && (p_x ptMax <? cols img - 1) && (p_y ptMax <? rows img - 1).

(** The extraction loop [for ( int i = 0; i < numToFind; i++ )], [n]
    iterations left; [templ0] is [m_templates[ 0 ]]. *)
Fixpoint MatchTemplate_loop (n : nat) (img templ0 : Mat) (minScore : Q)
    (matchSpace : Mat) (items : list TemplateBowtieItem)
  : Mat * list TemplateBowtieItem :=
  match n with
  | O => (matchSpace, items)
  | S n' =>
      let '(dMin, dMax, ptMin, ptMax) := minMaxLoc matchSpace in
      if on_image img ptMax then
        if Qle_bool minScore dMax then
          let itemTemp :=
            mkItem (mkPoint2d (inject_Z (p_x ptMax) + inject_Z (cols templ0) / 2)
                              (inject_Z (p_y ptMax) + inject_Z (rows templ0) / 2))
                   dMax in
          MatchTemplate_loop n' img templ0 minScore
            (circle matchSpace ptMax 17 0) (items ++ [itemTemp])
        else (matchSpace, items)
      else
        MatchTemplate_loop n' img templ0 minScore
          (circle matchSpace ptMax 17 0) items
  end.

Definition MatchTemplate (g : FindCalibGrid) (index : Z) (img : Mat)
    (minScore : Q) (numToFind : Z) : option (GC_STATUS * FindCalibGrid) :=
  if index_invalid index then Some (GC_ERR, g)
  else if minScore_invalid minScore then Some (GC_ERR, g)
  else if numToFind_invalid numToFind then Some (GC_ERR, g)
  else
    let g := with_matchSpace g (Mat_setTo (m_matchSpace g) 0) in
    let g := with_matchItems g [] in
    templ <- vat (m_templates g) (size_of_int index) ;;
    match matchTemplate img templ with
    | None => Some (GC_EXCEPT, g)
    | Some result =>
        let g := with_matchSpace g result in
        templ0 <- vat (m_templates g) 0 ;;
        let '(matchSpace, items) :=
          MatchTemplate_loop (Z.to_nat numToFind) img templ0 minScore
            (m_matchSpace g) (m_matchItems g) in
        let g := with_matchItems (with_matchSpace g matchSpace) items in
        if isnil (m_matchItems g) then Some (GC_ERR, g) else Some (GC_OK, g)
    end.

(** *** MatchRefine *)

(** The window around the candidate, as [MatchRefine] places it. *)
Definition MatchRefine_rect (img templ0 : Mat) (item : TemplateBowtieItem) : Rect :=
  let x := Z.max 0 (Int.sub (Int.sub (cvRound (d_x (pt item)))
                                     (Int.shr (cols templ0) 1))
                            (Int.shr (cols templ0) 2)) in
  let y := Z.max 0 (Int.sub (Int.sub (cvRound (d_y (pt item)))
                                     (Int.shr (rows templ0) 1))
                            (Int.shr (rows templ0) 2)) in
  let w := Int.add (cols templ0) (Int.shr (cols templ0) 1) in
  let h := Int.add (rows templ0) (Int.shr (rows templ0) 1) in
  let x := if cols img <=? Int.add x w then Int.sub (cols img) w else x in
  let y := if rows img <=? Int.add y h then Int.sub (rows img) h else y in
  mkRect x y w h.

Definition MatchRefine (g : FindCalibGrid) (index : Z) (img : Mat)
    (minScore : Q) (numToFind : Z) (item : TemplateBowtieItem)
  : option (GC_STATUS * FindCalibGrid * TemplateBowtieItem) :=
  if index_invalid index then Some (GC_ERR, g, item)
  else if minScore_invalid minScore then Some (GC_ERR, g, item)
  else if numToFind_invalid numToFind then Some (GC_ERR, g, item)
  else
    let g := with_matchSpace g (Mat_setTo (m_matchSpace g) 0) in
    templ <- vat (m_templates g) (size_of_int index) ;;
    match matchTemplate img templ with
    | None => Some (GC_EXCEPT, g, item)
    | Some result =>
        let g := with_matchSpace g result in
        templ0 <- vat (m_templates g) 0 ;;
        let rect := MatchRefine_rect img templ0 item in
        match Mat_roi img rect with
        | None => Some (GC_EXCEPT, g, item)
        | Some matROI =>
            let g := with_matchSpaceSmall g (Mat_setTo (m_matchSpaceSmall g) 0) in
            match matchTemplate matROI templ with
            | None => Some (GC_EXCEPT, g, item)
            | Some small =>
                let g := with_matchSpaceSmall g small in
                let '(_, maxScore, _, ptMax) := minMaxLoc (m_matchSpaceSmall g) in
                if Qlt_bool (score item) maxScore then
                  '(retVal, ptFinal) <-
                    SubpixelPointRefine (m_matchSpaceSmall g) ptMax (mkPoint2d 0 0) ;;
                  if GC_STATUS_eqb GC_OK retVal then
                    Some (retVal, g,
                          mkItem (mkPoint2d
                                    (inject_Z (r_x rect) + d_x ptFinal
                                     + inject_Z (cols templ0) / 2)
                                    (inject_Z (r_y rect) + d_y ptFinal
                                     + inject_Z (rows templ0) / 2))
                                 maxScore)
                  else Some (retVal, g, item)
                else Some (GC_OK, g, item)
            end
        end
    end.

(** *** SortPoints *)

Definition by_score (a b : TemplateBowtieItem) : bool := Qlt_bool (score b) (score a).
Definition by_y (a b : TemplateBowtieItem) : bool := Qlt_bool (d_y (pt a)) (d_y (pt b)).
Definition by_x (a b : TemplateBowtieItem) : bool := Qlt_bool (d_x (pt a)) (d_x (pt b)).

(** Row [i] of the grid: [m_matchItems[ i * COLS + j ]] for [j < COLS], then
    sorted by x. *)
Definition SortPoints_row (items : list TemplateBowtieItem) (i : nat)
  : list TemplateBowtieItem :=
  std_sort by_x (firstn CALIB_POINT_COL_COUNT (skipn (i * CALIB_POINT_COL_COUNT) items)).

Definition SortPoints_rows (items : list TemplateBowtieItem)
  : list (list TemplateBowtieItem) :=
  map (SortPoints_row items) (seq 0 CALIB_POINT_ROW_COUNT).

(** The two move-search rectangles recomputed from the first grid row. *)
Definition SortPoints_rects (g : FindCalibGrid) (sizeSearchImage : Size)
  : option FindCalibGrid :=
  row0 <- nth_error (m_itemArray g) 0 ;;
  last0 <- nth_error row0 (CALIB_POINT_COL_COUNT - 1) ;;
  first0 <- nth_error row0 0 ;;
  let searchDim := cvRound (d_y (pt last0) - d_y (pt first0)) in
  let half := Int.shr searchDim 1 in
  let left :=
    mkRect (Z.max 0 (Int.sub (cvRound (d_x (pt first0))) half))
           (Z.max 0 (Int.sub (cvRound (d_y (pt first0))) half))
           searchDim searchDim in
  let rightX := Int.sub (cvRound (d_x (pt last0))) half in
  let rightY := Z.max 0 (Int.sub (cvRound (d_y (pt last0))) half) in
  let rightW :=
    if width sizeSearchImage <? Int.add searchDim rightX
    then Int.sub (Int.sub (width sizeSearchImage) rightX) 1
    else searchDim in
  Some (with_rectRight (with_rectLeft g left)
          (mkRect rightX rightY rightW searchDim)).

Definition SortPoints (g : FindCalibGrid) (sizeSearchImage : Size)
  : option (GC_STATUS * FindCalibGrid) :=
  let bowtieCount := (CALIB_POINT_ROW_COUNT * CALIB_POINT_COL_COUNT)%nat in
  if (List.length (m_matchItems g) <? bowtieCount)%nat then Some (GC_ERR, g)
  else
    let tempItems := firstn bowtieCount (m_matchItems g) in
    let tempItems := std_sort by_score tempItems in
    let g := with_matchItems g (firstn bowtieCount tempItems) in
    let g := with_matchItems g (std_sort by_y (m_matchItems g)) in
    let g := with_itemArray g (SortPoints_rows (m_matchItems g)) in
    g <- SortPoints_rects g sizeSearchImage ;;
    Some (GC_OK, g).

(** *** SetMoveTargetROI *)

Definition SetMoveTargetROI_invalid (img : Mat) (rect : Rect) : bool :=
  (r_x rect <? 0) || (r_y rect <? 0)
  || (cols img <? Int.add (r_x rect) (r_width rect))
  || (rows img <? Int.add (r_y rect) (r_height rect)).

Definition SetMoveTargetROI (g : FindCalibGrid) (img : Mat) (rect : Rect)
    (isLeft : bool) : GC_STATUS * FindCalibGrid :=
  let retVal := if SetMoveTargetROI_invalid img rect then GC_ERR else GC_OK in
  let g := if isLeft then with_rectLeft g rect else with_rectRight g rect in
  (retVal, g).

(** *** FindMoveTargets *)

(** The search image: zero everywhere, with the two move-search rectangles
    copied from [img].  [None] is the [cv::Exception] of a rectangle that is
    not inside the image ([scratch] has the size of [img]). *)
Definition FindMoveTargets_scratch (g : FindCalibGrid) (img : Mat) : option Mat :=
  let scratch := Mat_zeros (Mat_size img) CV_8UC1 in
  match Mat_roi img (m_rectLeftMoveSearch g) with
  | None => None
  | Some matMoveSearch =>
      let scratch := Mat_copyTo_roi matMoveSearch scratch (m_rectLeftMoveSearch g) in
      match Mat_roi img (m_rectRightMoveSearch g) with
      | None => None
      | Some matMoveSearch =>
          Some (Mat_copyTo_roi matMoveSearch scratch (m_rectRightMoveSearch g))
      end
  end.

(** [for ( int j = 0; j < TEMPLATE_COUNT; ++j )]: refine one candidate against
    every template, [n] templates left, stopping at the first failure. *)
Fixpoint refine_templates (n : nat) (j : Z) (g : FindCalibGrid) (img : Mat)
    (minScore : Q) (item : TemplateBowtieItem)
  : option (GC_STATUS * FindCalibGrid * TemplateBowtieItem) :=
  match n with
  | O => Some (GC_OK, g, item)
  | S n' =>
      '(retVal, g, item) <- MatchRefine g j img minScore 1 item ;;
      if GC_STATUS_eqb GC_OK retVal
      then refine_templates n' (j + 1) g img minScore item
      else Some (retVal, g, item)
  end.

(** [for ( size_t i = 0; i < tempItems.size(); ++i )]: the refined candidate
    is pushed to [m_matchItems] unless a refinement failed. *)
Fixpoint refine_items (tempItems : list TemplateBowtieItem) (g : FindCalibGrid)
    (img : Mat) (minScore : Q) : option (GC_STATUS * FindCalibGrid) :=
  match tempItems with
  | [] => Some (GC_OK, g)
  | item :: rest =>
      '(retVal, g, item) <-
        refine_templates (Z.to_nat TEMPLATE_COUNT) 0 g img minScore item ;;
      if GC_STATUS_eqb GC_OK retVal
      then refine_items rest (with_matchItems g (m_matchItems g ++ [item])) img minScore
      else Some (retVal, g)
  end.

Definition FindMoveTargets (g : FindCalibGrid) (img : Mat) (ptLeft ptRight : Point2d)
  : option (GC_STATUS * FindCalibGrid * Point2d * Point2d) :=
  if isnil (m_templates g) then Some (GC_ERR, g, ptLeft, ptRight)
  else if Mat_empty img then Some (GC_ERR, g, ptLeft, ptRight)
  else
    match FindMoveTargets_scratch g img with
    | None => Some (GC_EXCEPT, g, ptLeft, ptRight)
    | Some scratch =>
        let g := with_matchItems g [] in
        '(retVal, g) <-
          MatchTemplate g (Int.shr TEMPLATE_COUNT 1) scratch TEMPLATE_MATCH_MIN_SCORE 2 ;;
        '(retVal, g) <-
          (if GC_STATUS_eqb GC_OK retVal
           then refine_items (m_matchItems g) (with_matchItems g []) scratch (1 # 2)
           else Some (retVal, g)) ;;
        match m_matchItems g with
        | [ item0; item1 ] =>
            if Qlt_bool (d_x (pt item0)) (d_x (pt item1))
            then Some (retVal, g, pt item0, pt item1)
            else Some (retVal, g, pt item1, pt item0)
        | _ => Some (GC_ERR, g, ptLeft, ptRight)
        end
    end.

End FindCalibGridOps.

(** ** Instances and inputs for the worked examples

    The theorems below hold for every instance of [OpenCV], [GcTypes] and
    [CalibOverlay]; the examples need one to run on.  [cv_demo] reads the
    correlation map off the search image, so that an example can choose the
    scores, and fills the Euclidean disk for [circle]. *)

Definition Mat_fill_disk (m : Mat) (center : Point) (radius : Z) (v : Q) : Mat :=
  mkMat (rows m) (cols m) (mtype m)
    (map (fun cr =>
            let dx := fst cr - p_x center in
            let dy := snd cr - p_y center in
            if dx * dx + dy * dy <=? radius * radius then v
            else Mat_get m (fst cr) (snd cr))
         (cells (rows m) (cols m))).

Definition identity3 : Mat := mkMat 3 3 CV_64FC1 [1; 0; 0; 0; 1; 0; 0; 0; 1]%Q.

(** The correlation map of the examples: one score per placement of the
    template, read off the image at the top-left corner of the placement. *)
Definition demo_scores (img templ : Mat) : Mat :=
  mkMat (rows img - rows templ + 1) (cols img - cols templ + 1) CV_32FC1
    (map (fun cr => Mat_get img (fst cr) (snd cr))
         (cells (rows img - rows templ + 1) (cols img - cols templ + 1))).

(** [matchTemplate] throws when the template does not fit the image. *)
Definition demo_matchTemplate (img templ : Mat) : option Mat :=
  if (cols templ <=? cols img) && (rows templ <=? rows img)
  then Some (demo_scores img templ) else None.

#[local] Instance cv_demo : OpenCV :=
  {| findHomography := fun _ _ => Some identity3;
     matchTemplate := demo_matchTemplate;
     circle := Mat_fill_disk |}.

(** An OpenCV whose homography fit throws. *)
Definition cv_throwing : OpenCV :=
  {| findHomography := fun _ _ => None;
     matchTemplate := demo_matchTemplate;
     circle := Mat_fill_disk |}.

Definition CalibModel_blank : CalibModel :=
  mkCalibModel (mkSize 0 0) [] [] (mkRect 0 0 0 0) (mkRect 0 0 0 0) [].

#[local] Instance gc_demo : GcTypes :=
  {| GC_BOWTIE_TEMPLATE_DIM := 56;
     TEMPLATE_COUNT := 3;
     TARGET_COUNT := 8;
     CALIB_POINT_ROW_COUNT := 4;
     CALIB_POINT_COL_COUNT := 2;
     TEMPLATE_MATCH_MIN_SCORE := 1 # 10;
     CalibModel_clear := fun _ => CalibModel_blank |}.

#[local] Instance ov_demo : CalibOverlay :=
  {| cvtColor_GRAY2BGR := fun m => m;
     drawCalibration := fun _ imgOut _ _ _ => Some (GC_OK, imgOut) |}.

Definition P2 (a b : Z) : Point2d := mkPoint2d (inject_Z a) (inject_Z b).

Definition Calib_new : Calib := mkCalib CalibModel_blank (mkSize 0 0) Mat_new Mat_new.

(** A 2 x 4 grid, 30 px wide, rows at y = 100, 120, 140 and 164. *)
Definition demo_pixelPts : list Point2d :=
  [ P2 100 100; P2 130 100; P2 100 120; P2 130 120;
    P2 100 140; P2 130 140; P2 100 164; P2 130 164 ].
Definition demo_worldPts : list Point2d :=
  [ P2 0 0; P2 1 0; P2 0 1; P2 1 1; P2 0 2; P2 1 2; P2 0 3; P2 1 3 ].
Definition demo_imgSize : Size := mkSize 640 480.

Definition demo_lines : list LineEnds :=
  map (fun i => mkLineEnds (mkPoint (110 + Z.of_nat i) 95) (mkPoint (110 + Z.of_nat i) 179))
      (seq 0 11).

(** The object after [Calibrate] on the grid above. *)
Definition demo_calib : Calib :=
  mkCalib
    (mkCalibModel (mkSize 2 4) demo_pixelPts demo_worldPts
       (mkRect 44 44 112 112) (mkRect 74 44 112 112) demo_lines)
    demo_imgSize identity3 identity3.

(** ** Notions of the specification *)

(** The sentinel of [MoveRefPoint]. *)
Definition sentinel_point : Point2d := mkPoint2d DBL_MIN DBL_MIN.

(** The model holds grid-sized point arrays: non-empty, [width * height]
    points, a positive width, everything within [int]. *)
Definition grid_sized (m : CalibModel) : Prop :=
  pixelPoints m <> []
  /\ vsize (pixelPoints m) = width (gridSize m) * height (gridSize m)
  /\ 0 < width (gridSize m)
  /\ vsize (pixelPoints m) <= Int.max_int.

(** The 3 x 3 neighbourhood of a cell, row by row. *)
Definition neighbourhood3 (p : Point) : list (Z * Z) :=
  flat_map (fun dy => map (fun dx => (p_x p + dx, p_y p + dy)) [-1; 0; 1]) [-1; 0; 1].

Definition neighbourhood_inside (m : Mat) (p : Point) : Prop :=
  Forall (fun cr => in_bounds m (fst cr) (snd cr) = true) (neighbourhood3 p).

(** Distance, in cells, from [p] to the nearest border row or column of [m]
    (negative outside). *)
Definition border_distance (m : Mat) (p : Point) : Z :=
  Z.min (Z.min (p_x p) (p_y p))
        (Z.min (cols m - 1 - p_x p) (rows m - 1 - p_y p)).

Definition sumQ (l : list Q) : Q := fold_right Qplus 0%Q l.

(** Weight, and first moments in x and y, of the neighbourhood. *)
Definition weight3 (m : Mat) (p : Point) : Q :=
  sumQ (map (fun cr => Mat_get m (fst cr) (snd cr)) (neighbourhood3 p)).
Definition moment3_x (m : Mat) (p : Point) : Q :=
  sumQ (map (fun cr => Mat_get m (fst cr) (snd cr) * inject_Z (fst cr))%Q
            (neighbourhood3 p)).
Definition moment3_y (m : Mat) (p : Point) : Q :=
  sumQ (map (fun cr => Mat_get m (fst cr) (snd cr) * inject_Z (snd cr))%Q
            (neighbourhood3 p)).

(** [r] is the intensity-weighted centroid of the neighbourhood of [p]. *)
Definition is_centroid3 (m : Mat) (p : Point) (r : Point2d) : Prop :=
  (d_x r * weight3 m p == moment3_x m p)%Q
  /\ (d_y r * weight3 m p == moment3_y m p)%Q.

(** A calibration file whose point list is one entry short of its grid. *)
Definition demo_json_short : JsonCalib :=
  let j := Save_json demo_calib in
  mkJsonCalib (imageWidth j) (imageHeight j)
    (Some (mkJsonPixelToWorld (Some 2) (Some 4)
             (Some (map (fun pw => json_of_point (fst pw) (snd pw))
                        (combine (tl demo_pixelPts) (tl demo_worldPts))))))
    (MoveSearchRegions j) (SearchLines j).

Definition demo_fs_short : FileSystem :=
  mkFileSystem (fun p => if String.eqb p "cal.json" then Some (Json demo_json_short)
                         else None)
               (fun _ => true).

(** A 5 x 5 correlation map with its peak in the middle. *)
Definition demo_peak : Mat :=
  mkMat 5 5 CV_32FC1
    [ 0; 0;       0;       0;       0;
      0; (1 # 10); (2 # 10); (1 # 10); 0;
      0; (2 # 10); (8 # 10); (4 # 10); 0;
      0; (1 # 10); (2 # 10); (1 # 10); 0;
      0; 0;       0;       0;       0 ]%Q.

(** The object [Load] leaves behind when it rejects that file. *)
Definition demo_calib_short : Calib :=
  Eval vm_compute in
    match Load demo_fs_short Calib_new "cal.json" with
    | Some (_, c) => c
    | None => Calib_new
    end.

(** A 48 x 24 search image, dark except for two blobs peaking at (8, 8) and
    (36, 10); three 4 x 4 templates. *)
Definition blob (cx cy : Z) (peak : Q) (col row : Z) : Q :=
  if (col =? cx) && (row =? cy) then peak
  else if (Z.abs (col - cx) <=? 1) && (Z.abs (row - cy) <=? 1) then (peak / 4)%Q
  else 0%Q.

Definition demo_img : Mat :=
  mkMat 24 48 CV_8UC1
    (map (fun cr => Qred (blob 8 8 (9 # 10) (fst cr) (snd cr)
                          + blob 36 10 (8 # 10) (fst cr) (snd cr)))
         (cells 24 48)).

Definition demo_template : Mat := mkMat 4 4 CV_8UC1 (repeat (1 # 2)%Q 16).

(** The object after [InitBowtieTemplate] for that image size, with its
    move-search rectangles set. *)
Definition demo_grid : FindCalibGrid :=
  mkFindCalibGrid [ demo_template; demo_template; demo_template ]
    (mkMat 21 45 CV_32FC1 (repeat 0%Q (21 * 45))) (mkMat 3 3 CV_32FC1 (repeat 0%Q 9))
    [] [] (mkRect 0 0 20 20) (mkRect 28 0 20 24).

Definition demo_item : TemplateBowtieItem := mkItem (P2 10 10) (1 # 2).

(** What [MatchRefine] leaves of [demo_grid] and [demo_item]. *)
Definition demo_refined : FindCalibGrid * TemplateBowtieItem :=
  Eval vm_compute in
    match MatchRefine demo_grid 1 demo_img (1 # 2) 1 demo_item with
    | Some (_, g, item) => (g, item)
    | None => (demo_grid, demo_item)
    end.

(** The extraction loop of [MatchTemplate] as the specification words it:
    take the global maximum; record it if it lies within the image and
    reaches [minScore], otherwise stop; suppress a disk of fixed radius
    around it; repeat, at most [n] times. *)
Fixpoint MatchTemplate_loop_as_specified {cv : OpenCV} (n : nat) (img templ0 : Mat)
    (minScore : Q) (matchSpace : Mat) (items : list TemplateBowtieItem)
  : Mat * list TemplateBowtieItem :=
  match n with
  | O => (matchSpace, items)
  | S n' =>
      let '(_, dMax, _, ptMax) := minMaxLoc matchSpace in
      if on_image img ptMax && Qle_bool minScore dMax then
        MatchTemplate_loop_as_specified n' img templ0 minScore
          (circle matchSpace ptMax 17 0)
          (items ++ [ mkItem (mkPoint2d (inject_Z (p_x ptMax) + inject_Z (cols templ0) / 2)
                                        (inject_Z (p_y ptMax) + inject_Z (rows templ0) / 2))
                             dMax ])
      else (matchSpace, items)
  end.

(** The image of [demo_img] with the first blob moved onto the left border:
    its peak, the global maximum, is at (0, 8). *)
Definition demo_img_border : Mat :=
  mkMat 24 48 CV_8UC1
    (map (fun cr => Qred (blob 0 8 (9 # 10) (fst cr) (snd cr)
                          + blob 36 10 (8 # 10) (fst cr) (snd cr)))
         (cells 24 48)).

(** [circle] never raises a map that lies below [bound] to [bound]. *)
Definition circle_keeps_below {cv : OpenCV} (bound : Q) : Prop :=
  forall (m : Mat) (p : Point),
    (forall e, In e (elems m) -> (e < bound)%Q) ->
    forall e, In e (elems (circle m p 17 0)) -> (e < bound)%Q.

(** The candidate [MatchTemplate_loop] records for a maximum. *)
Definition candidate (templ0 : Mat) (ptMax : Point) (dMax : Q) : TemplateBowtieItem :=
  mkItem (mkPoint2d (inject_Z (p_x ptMax) + inject_Z (cols templ0) / 2)
                    (inject_Z (p_y ptMax) + inject_Z (rows templ0) / 2))
         dMax.




(** [demo_img] mirrored: the brighter blob, found first, is the right one. *)
Definition demo_img_mirrored : Mat :=
  mkMat 24 48 CV_8UC1
    (map (fun cr => Qred (blob 8 8 (8 # 10) (fst cr) (snd cr)
                          + blob 36 10 (9 # 10) (fst cr) (snd cr)))
         (cells 24 48)).

(** Order of two candidates by x and by y. *)
Definition x_le (a b : TemplateBowtieItem) : Prop := (d_x (pt a) <= d_x (pt b))%Q.
Definition y_le (a b : TemplateBowtieItem) : Prop := (d_y (pt a) <= d_y (pt b))%Q.
Definition x_lt (a b : TemplateBowtieItem) : Prop := (d_x (pt a) < d_x (pt b))%Q.

(** Every candidate of an earlier row is at most as low as every candidate
    of a later row. *)
Definition rows_ascending (grid : list (list TemplateBowtieItem)) : Prop :=
  forall (i j : nat) (ri rj : list TemplateBowtieItem) (a b : TemplateBowtieItem),
    (i < j)%nat -> nth_error grid i = Some ri -> nth_error grid j = Some rj ->
    In a ri -> In b rj -> y_le a b.

Definition item_at (x y : Z) (s : Q) : TemplateBowtieItem := mkItem (P2 x y) s.

(** Eight candidates for the 2 x 4 grid, no two at the same height: seven
    markers and, above the left column, one false match. *)
Definition demo_candidates : list TemplateBowtieItem :=
  [ item_at 20 40 (9 # 10); item_at 60 41 (9 # 10);
    item_at 20 70 (8 # 10); item_at 60 71 (8 # 10);
    item_at 20 100 (7 # 10); item_at 60 101 (7 # 10);
    item_at 20 130 (6 # 10); item_at 20 10 (5 # 10) ].

(** Nine candidates, the best-scoring one last and the worst one first. *)
Definition demo_candidates_9 : list TemplateBowtieItem :=
  [ item_at 21 40 (3 # 10); item_at 60 42 (4 # 10);
    item_at 20 70 (5 # 10); item_at 60 72 (5 # 10);
    item_at 20 100 (5 # 10); item_at 60 102 (5 # 10);
    item_at 20 130 (5 # 10); item_at 60 132 (5 # 10);
    item_at 20 41 (9 # 10) ].

Definition demo_grid_with (items : list TemplateBowtieItem) : FindCalibGrid :=
  with_matchItems demo_grid items.

(** A calibrated model with a valid grid: grid-sized point arrays of equal
    length, at least 2 columns and 4 rows. *)
Definition valid_grid (c : Calib) : Prop :=
  grid_sized (m_model c)
  /\ vsize (pixelPoints (m_model c)) = vsize (worldPoints (m_model c))
  /\ 2 <= width (gridSize (m_model c))
  /\ 4 <= height (gridSize (m_model c)).



(** A point as [Save] writes it and [Load] reads it back. *)
Definition fixed3_point (p : Point2d) : Point2d :=
  mkPoint2d (fixed3 (d_x p)) (fixed3 (d_y p)).

(** Two points less than half a thousandth apart in each coordinate. *)
Definition close3 (p q : Point2d) : Prop :=
  (Qabs (d_x q - d_x p) <= 1 # 2000)%Q /\ (Qabs (d_y q - d_y p) <= 1 # 2000)%Q.

(** The search lines [CalcSearchSwaths] derives from the points, the grid
    size and the image size the object holds. *)
Definition derived_searchLines (c : Calib) : option (list LineEnds) :=
  g <- swath_geometry c ;;
  Some (swath_loop (Z.to_nat (sw_widthTop g + 1))
          (mkPoint2d (sw_topLftX g) (sw_topLftY g))
          (mkPoint2d (sw_botLftX g) (sw_botLftY g))
          (sw_xInc g) (sw_xIncBot g) (sw_yInc g)).

(** A 2 x 4 grid whose last row has been measured to four decimals:
    (10.0004, 164) and (41.4994, 164). *)
Definition roundtrip_pixelPts : list Point2d :=
  [ P2 10 100; P2 40 100; P2 10 120; P2 40 120; P2 10 140; P2 40 140;
    mkPoint2d (100004 # 10000) 164; mkPoint2d (414994 # 10000) 164 ].

Definition fs_empty : FileSystem := mkFileSystem (fun _ => None) (fun _ => true).

Definition roundtrip_calib : Calib :=
  Eval vm_compute in
    match Calibrate Calib_new roundtrip_pixelPts demo_worldPts (mkSize 2 4) demo_imgSize
            Mat_new Mat_new false false false with
    | Some (_, c, _) => c
    | None => Calib_new
    end.

Definition roundtrip_fs : FileSystem := snd (Save fs_empty roundtrip_calib "cal.json").

Definition roundtrip_loaded : Calib :=
  Eval vm_compute in
    match Load roundtrip_fs Calib_new "cal.json" with
    | Some (_, c) => c
    | None => Calib_new
    end.

(** The file system after [Save] of [demo_calib]. *)
Definition demo_fs_saved : FileSystem :=
  write_file fs_empty "cal.json" (Json (Save_json demo_calib)).

(** What is left of [demo_calib] when [Calibrate] is called on the grid of
    [roundtrip_pixelPts] and the homography fit throws. *)
Definition demo_calib_after_throw : Calib :=
  mkCalib
    (mkCalibModel (mkSize 2 4) roundtrip_pixelPts demo_worldPts
       (mkRect 0 0 0 0) (mkRect 0 0 0 0) [])
    demo_imgSize identity3 identity3.

(** The object holds the template bank [InitBowtieTemplate] builds: one
    template per index. *)
Definition templates_built {gc : GcTypes} (g : FindCalibGrid) : Prop :=
  vsize (m_templates g) = TEMPLATE_COUNT /\ TEMPLATE_COUNT <= Int.max_int.

(** Every correlation map [matchTemplate] delivers has a buffer that matches
    its header. *)
Definition matchTemplate_maps_wf {cv : OpenCV} : Prop :=
  forall img templ result, matchTemplate img templ = Some result -> Mat_wf result.

(** Two points with equal coordinates (as rationals). *)
Definition point_eq (p q : Point2d) : Prop :=
  (d_x p == d_x q)%Q /\ (d_y p == d_y q)%Q.

(** A point that [Save] writes without loss: both coordinates are multiples
    of 0.001. *)
Definition three_decimals (p : Point2d) : Prop := point_eq (fixed3_point p) p.

(** Two swath geometries that agree: equal integers, equal rationals. *)
Definition geometry_eq (g1 g2 : SwathGeometry) : Prop :=
  sw_widthTop g1 = sw_widthTop g2
  /\ (sw_topLftX g1 == sw_topLftX g2)%Q /\ (sw_topLftY g1 == sw_topLftY g2)%Q
  /\ (sw_botLftX g1 == sw_botLftX g2)%Q /\ (sw_botLftY g1 == sw_botLftY g2)%Q
  /\ (sw_xInc g1 == sw_xInc g2)%Q /\ (sw_xIncBot g1 == sw_xIncBot g2)%Q
  /\ (sw_yInc g1 == sw_yInc g2)%Q.

(** * The rest of the two translation units

    [Calib::PixelToWorld], [Calib::WorldToPixel] and the members of
    [FindCalibGrid] that the properties above do not reach:
    [InitBowtieTemplate], [RotateImage], [FindTargets], [GetFoundPoints],
    [GetMoveTargetROIs] and [DrawMoveROIs]. *)

(** The further OpenCV entry points they call.  Drawing and warping are
    given by the value they leave in each cell, so that the header of a
    matrix is what the source makes it. *)
Class OpenCVMore := {
  (** [cv::perspectiveTransform( src, dst, m )]: the points written to
      [dst]; [None] is a thrown [cv::Exception]. *)
  perspectiveTransform : list Point2d -> Mat -> option (list Point2d);
  (** the contents of a matrix that has been allocated and not written *)
  unspecified : nat -> Q;
  (** the cells [cv::fillConvexPoly( m, pts, n, color )] writes *)
  fillConvexPoly_covers : list Point -> Z -> Z -> bool;
  (** [getRotationMatrix2D] followed by [warpAffine( src, dst, rot, dsize,
      INTER_CUBIC )]: whether it throws, and the value of each cell of the
      result *)
  warpAffine_throws : Mat -> Q -> Size -> bool;
  warpAffine_pixel : Mat -> Q -> Size -> Z -> Z -> Q;
  (** [cv::rectangle( img, pt1, pt2, color, thickness )] *)
  rectangle : Mat -> Point -> Point -> option Mat;
  (** the block of [FindTargets] that draws the matches on a copy of the
      image and writes it with [imwrite]: the value of [isOK]; [None] is an
      exception, which nothing in [FindTargets] catches *)
  writeTargets : Mat -> list TemplateBowtieItem -> string -> option bool;
}.

(** [v[ i ] = a] for a [std::vector]; out of range is undefined. *)
Definition vset {A} (v : list A) (i : Z) (a : A) : option (list A) :=
  if (0 <=? i) && (i <? vsize v)
  then Some (firstn (Z.to_nat i) v ++ a :: skipn (S (Z.to_nat i)) v)
  else None.

Definition with_templates (g : FindCalibGrid) (t : list Mat) : FindCalibGrid :=
  mkFindCalibGrid t (m_matchSpace g) (m_matchSpaceSmall g) (m_matchItems g)
    (m_itemArray g) (m_rectLeftMoveSearch g) (m_rectRightMoveSearch g).

Section CalibTransform.
Context {cvm : OpenCVMore}.

Definition PixelToWorld_point (c : Calib) (ptPixel ptWorld : Point2d)
  : option (GC_STATUS * Point2d) :=
  if Mat_empty (m_matHomogPixToWorld c) then Some (GC_ERR, ptWorld)
  else
    match perspectiveTransform [ ptPixel ] (m_matHomogPixToWorld c) with
    | None => Some (GC_EXCEPT, ptWorld)
    | Some vecOut => p <- vat vecOut 0 ;; Some (GC_OK, p)
    end.

Definition WorldToPixel (c : Calib) (ptWorld ptPixel : Point2d)
  : option (GC_STATUS * Point2d) :=
  if Mat_empty (m_matHomogWorldToPix c) then Some (GC_ERR, ptPixel)
  else
    match perspectiveTransform [ ptWorld ] (m_matHomogWorldToPix c) with
    | None => Some (GC_EXCEPT, ptPixel)
    | Some vecOut => p <- vat vecOut 0 ;; Some (GC_OK, p)
    end.

End CalibTransform.

Section FindCalibGridMore.
Context {cv : OpenCV} {gc : GcTypes} {cvm : OpenCVMore}.

(** [Mat m( Size( cols, rows ), type )]: allocated, not written. *)
Definition Mat_alloc (rows cols : Z) (t : MatType) : Mat :=
  mkMat rows cols t (map unspecified (seq 0 (Z.to_nat rows * Z.to_nat cols))).

(** [m.create( size, type )]: nothing happens when [m] already has that
    size and type; a negative size throws. *)
Definition Mat_create (m : Mat) (s : Size) (t : MatType) : option Mat :=
  if (width s <? 0) || (height s <? 0) then None
  else if (rows m =? height s) && (cols m =? width s)
          && MatType_eqb (mtype m) t && negb (isnil (elems m))
       then Some m
       else Some (Mat_alloc (height s) (width s) t).

Definition Mat_fillConvexPoly (m : Mat) (pts : list Point) (v : Q) : Mat :=
  mkMat (rows m) (cols m) (mtype m)
    (map (fun cr => if fillConvexPoly_covers pts (fst cr) (snd cr) then v
                    else Mat_get m (fst cr) (snd cr))
         (cells (rows m) (cols m))).

(** *** RotateImage *)

Definition RotateImage (src dst : Mat) (angle : Q) : GC_STATUS * Mat :=
  if warpAffine_throws src angle (Mat_size dst) then (GC_EXCEPT, dst)
  else
    (GC_OK,
     mkMat (rows dst) (cols dst) (mtype src)
       (map (fun cr => warpAffine_pixel src angle (Mat_size dst) (fst cr) (snd cr))
            (cells (rows dst) (cols dst)))).

(** *** InitBowtieTemplate *)

(** The unrotated template at twice the size: background 224, the two
    triangles 32. *)
Definition bowtie_drawing (tempDim : Z) : Mat :=
  let matTemp := Mat_alloc tempDim tempDim CV_8UC1 in
  let matTemp := Mat_setTo matTemp 224 in
  let matTemp :=
    Mat_fillConvexPoly matTemp
      [ mkPoint 1 1; mkPoint 1 (rows matTemp - 2);
        mkPoint (Z.quot (cols matTemp) 2) (Z.quot (rows matTemp) 2) ] 32 in
  Mat_fillConvexPoly matTemp
    [ mkPoint (cols matTemp - 2) 1; mkPoint (cols matTemp - 2) (rows matTemp - 2);
      mkPoint (Z.quot (cols matTemp) 2) (Z.quot (rows matTemp) 2) ] 32.

(** How the rotation loop ends: it ran or broke off with a status, or a
    matrix operation threw. *)
Inductive LoopEnd := Ran (retVal : GC_STATUS) | Threw.

(** [for ( int i = 0; i < center; ++i )], [n] turns left: the rotation by
    [i - center] degrees goes to [m_templates[ i ]], the rotation by [i + 1]
    degrees to [m_templates[ center + i + 1 ]]. *)
Fixpoint InitBowtieTemplate_rotations (n : nat) (i center : Z)
    (matTemp matTempRot : Mat) (roiRotate : Rect) (templates : list Mat)
  : option (LoopEnd * list Mat) :=
  match n with
  | O => Some (Ran GC_OK, templates)
  | S n' =>
      let '(retVal, matTempRot) :=
        RotateImage matTemp matTempRot (inject_Z (Int.sub i center)) in
      if negb (GC_STATUS_eqb GC_OK retVal) then Some (Ran retVal, templates)
      else
        match Mat_roi matTempRot roiRotate with
        | None => Some (Threw, templates)
        | Some matTemplateTemp =>
            templates <- vset templates (size_of_int i) matTemplateTemp ;;
            let '(retVal, matTempRot) :=
              RotateImage matTemp matTempRot (inject_Z (Int.add i 1)) in
            if negb (GC_STATUS_eqb GC_OK retVal) then Some (Ran retVal, templates)
            else
              match Mat_roi matTempRot roiRotate with
              | None => Some (Threw, templates)
              | Some matTemplateTemp =>
                  templates <-
                    vset templates (size_of_int (Int.add (Int.add center i) 1))
                      matTemplateTemp ;;
                  InitBowtieTemplate_rotations n' (i + 1) center matTemp matTempRot
                    roiRotate templates
              end
        end
  end.

Definition InitBowtieTemplate (g : FindCalibGrid) (templateDim : Z)
    (searchImgSize : Size) : option (GC_STATUS * FindCalibGrid) :=
  if (templateDim <? 20) || (1000 <? templateDim) then Some (GC_ERR, g)
  else
    let templateDimEven := Int.add templateDim (Z.rem templateDim 2) in
    let center := Z.quot TEMPLATE_COUNT 2 in
    let g := with_templates g [] in
    let tempDim := Z.shiftl templateDimEven 1 in
    let matTempRot := Mat_alloc tempDim tempDim CV_8UC1 in
    let g := with_templates g
               (repeat (Mat_alloc templateDimEven templateDimEven CV_8UC1)
                       (Z.to_nat TEMPLATE_COUNT)) in
    let matTemp := bowtie_drawing tempDim in
    let roiRotate :=
      mkRect (Int.shr templateDimEven 1) (Int.shr templateDimEven 1)
             templateDimEven templateDimEven in
    match Mat_roi matTemp roiRotate with
    | None => Some (GC_EXCEPT, g)
    | Some matTemplateTemp =>
        templates <- vset (m_templates g) (size_of_int center) matTemplateTemp ;;
        let g := with_templates g templates in
        '(loopEnd, templates) <-
          InitBowtieTemplate_rotations (Z.to_nat center) 0 center matTemp matTempRot
            roiRotate (m_templates g) ;;
        let g := with_templates g templates in
        match loopEnd with
        | Threw => Some (GC_EXCEPT, g)
        | Ran retVal =>
            match Mat_create (m_matchSpace g)
                    (mkSize (Int.add (Int.sub (width searchImgSize) templateDimEven) 1)
                            (Int.add (Int.sub (height searchImgSize) templateDimEven) 1))
                    CV_32FC1 with
            | None => Some (GC_EXCEPT, g)
            | Some matchSpace =>
                let g := with_matchSpace g matchSpace in
                match Mat_create (m_matchSpaceSmall g)
                        (mkSize (Int.add (Int.shr templateDimEven 1) 1)
                                (Int.add (Int.shr templateDimEven 1) 1)) CV_32FC1 with
                | None => Some (GC_EXCEPT, g)
                | Some small => Some (retVal, with_matchSpaceSmall g small)
                end
            end
        end
    end.

(** *** FindTargets *)

(** [FindTargets] returns, or an exception leaves it. *)
Inductive Outcome :=
| Returned (retVal : GC_STATUS) (g : FindCalibGrid)
| Escaped (g : FindCalibGrid).

Definition FindTargets (g : FindCalibGrid) (img : Mat) (minScore : Q)
    (resultFilepath : string) : option Outcome :=
  let retVal :=
    if isnil (m_templates g) then GC_ERR
    else if Mat_empty img then GC_ERR else GC_OK in
  if Qlt_bool minScore (1 # 100) || Qlt_bool 1 minScore then Some (Returned GC_ERR g)
  else
    '(retVal, g) <-
      MatchTemplate g (Int.shr TEMPLATE_COUNT 1) img minScore (Int.mul TARGET_COUNT 2) ;;
    if GC_STATUS_eqb GC_OK retVal then
      let itemsTemp := m_matchItems g in
      let g := with_matchItems g [] in
      '(retVal, g) <- refine_items itemsTemp g img minScore ;;
      '(retVal, g) <- SortPoints g (Mat_size img) ;;
      if String.eqb resultFilepath "" then Some (Returned retVal g)
      else
        match writeTargets img (m_matchItems g) resultFilepath with
        | None => Some (Escaped g)
        | Some isOK => Some (Returned (if isOK then retVal else GC_ERR) g)
        end
    else Some (Returned retVal g).

(** *** GetFoundPoints, GetMoveTargetROIs *)

Definition GetFoundPoints (g : FindCalibGrid) (pts : list (list Point2d))
  : option (GC_STATUS * list (list Point2d)) :=
  if isnil (m_itemArray g) then Some (GC_ERR, pts)
  else
    row0 <- nth_error (m_itemArray g) 0 ;;
    if negb (CALIB_POINT_COL_COUNT * CALIB_POINT_ROW_COUNT
             =? List.length row0 * List.length (m_itemArray g))%nat
    then Some (GC_ERR, pts)
    else Some (GC_OK, map (map pt) (m_itemArray g)).

Definition GetMoveTargetROIs (g : FindCalibGrid) : Rect * Rect :=
  (m_rectLeftMoveSearch g, m_rectRightMoveSearch g).

(** *** DrawMoveROIs *)

(** [CV_8UC1 != img.depth()]: the depth of an 8-bit image, of one channel or
    of three, is the number that [CV_8UC1] is. *)
Definition depth_is_8U (m : Mat) : bool :=
  match mtype m with CV_8UC1 | CV_8UC3 => true | _ => false end.

Definition Rect_outside (img : Mat) (r : Rect) : bool :=
  (r_x r <? 0) || (r_y r <? 0)
  || (cols img <? Int.add (r_x r) (r_width r))
  || (rows img <? Int.add (r_y r) (r_height r)).

Definition DrawMoveROIs (g : FindCalibGrid) (img : Mat) : GC_STATUS * Mat :=
  if negb (depth_is_8U img) then (GC_ERR, img)
  else if Rect_outside img (m_rectLeftMoveSearch g)
          || Rect_outside img (m_rectRightMoveSearch g) then (GC_ERR, img)
  else
    let l := m_rectLeftMoveSearch g in
    let r := m_rectRightMoveSearch g in
    match rectangle img (mkPoint (r_x l) (r_y l))
            (mkPoint (Int.add (r_x l) (r_width l)) (Int.add (r_y l) (r_height l))) with
    | None => (GC_EXCEPT, img)
    | Some img =>
        match rectangle img (mkPoint (r_x r) (r_y r))
                (mkPoint (Int.add (r_x r) (r_width r)) (Int.add (r_y r) (r_height r))) with
        | None => (GC_EXCEPT, img)
        | Some img => (GC_OK, img)
        end
    end.

End FindCalibGridMore.

(** ** Notions and inputs for the properties of the whole classes *)

(** The search lines of a band with geometry [g]: the loop of
    [CalcSearchSwaths]. *)
Definition swath_lines (g : SwathGeometry) : list LineEnds :=
  swath_loop (Z.to_nat (sw_widthTop g + 1))
    (mkPoint2d (sw_topLftX g) (sw_topLftY g))
    (mkPoint2d (sw_botLftX g) (sw_botLftY g))
    (sw_xInc g) (sw_xIncBot g) (sw_yInc g).

(** The object a calibration is made of: grid and image size, the two point
    vectors, the two homographies, the move-search regions around the two
    reference points, the search lines. *)
Definition Calib_of {gc : GcTypes} (grid imgSize : Size) (pixelPts worldPts : list Point2d)
    (h1 h2 : Mat) (ptLeft ptRight : Point2d) (lines : list LineEnds) : Calib :=
  mkCalib
    (mkCalibModel grid pixelPts worldPts
       (moveSearchRegion ptLeft imgSize) (moveSearchRegion ptRight imgSize) lines)
    imgSize h1 h2.

(** An image header of the given size. *)
Definition has_size (img : Mat) (s : Size) : Prop :=
  cols img = width s /\ rows img = height s.

(** An OpenCV whose homography fit degenerates: it returns the empty
    matrix. *)
Definition cv_degenerate : OpenCV :=
  {| findHomography := fun _ _ => Some Mat_new;
     matchTemplate := demo_matchTemplate;
     circle := Mat_fill_disk |}.

(** The remaining entry points for the examples: the transform of the
    identity homography, zero-filled allocations, a polygon fill that covers
    the left and the right quarter of the columns, a warp that copies, and
    drawing that leaves the image. *)
#[local] Instance cvm_demo : OpenCVMore :=
  {| perspectiveTransform := fun pts _ => Some pts;
     unspecified := fun _ => 0%Q;
     fillConvexPoly_covers := fun pts col _ =>
       match pts with
       | p :: _ => Z.abs (col - p_x p) <? 20
       | [] => false
       end;
     warpAffine_throws := fun _ _ _ => false;
     warpAffine_pixel := fun src _ _ col row => Mat_get src col row;
     rectangle := fun img _ _ => Some img;
     writeTargets := fun _ _ _ => Some true |}.

(** The demo grid seen in a mirror: every row runs from right to left. *)
Definition mirrored_pixelPts : list Point2d :=
  [ P2 130 100; P2 100 100; P2 130 120; P2 100 120;
    P2 130 140; P2 100 140; P2 130 164; P2 100 164 ].

(** What [Calibrate] makes of the mirrored grid. *)
Definition mirrored_calib : Calib :=
  Eval vm_compute in
    match Calibrate Calib_new mirrored_pixelPts demo_worldPts (mkSize 2 4) demo_imgSize
            Mat_new Mat_new false false false with
    | Some (_, c, _) => c
    | None => Calib_new
    end.

(** What [Calibrate] makes of the demo grid when the fit degenerates. *)
Definition degenerate_calib : Calib :=
  Eval vm_compute in
    match @Calibrate cv_degenerate gc_demo ov_demo Calib_new demo_pixelPts demo_worldPts
            (mkSize 2 4) demo_imgSize Mat_new Mat_new false false false with
    | Some (_, c, _) => c
    | None => Calib_new
    end.

(** A single column of eight points. *)
Definition column_pixelPts : list Point2d :=
  [ P2 100 100; P2 100 120; P2 100 140; P2 100 160;
    P2 100 180; P2 100 200; P2 100 220; P2 100 240 ].

(** A 640 x 480 image header (its buffer plays no part). *)
Definition demo_frame : Mat := mkMat 480 640 CV_8UC1 [].

(** The sizes and the rounded coordinates are those of a point on an image
    that an [int] can index, the template dimension one that can be
    doubled. *)
Definition on_frame {gc : GcTypes} (p : Point2d) (imgSize : Size) : Prop :=
  0 <= GC_BOWTIE_TEMPLATE_DIM <= 2 ^ 30 - 1
  /\ 0 <= cvRound (d_x p) <= width imgSize /\ width imgSize <= Int.max_int
  /\ 0 <= cvRound (d_y p) <= height imgSize /\ height imgSize <= Int.max_int.

(** The sums [x + width] and [y + height] of a rectangle fit an [int]. *)
Definition Rect_in_range (r : Rect) : Prop :=
  Int.in_range (r_x r + r_width r) /\ Int.in_range (r_y r + r_height r).

(** The file [Save] writes for [demo_calib], with the move-search regions and
    the search lines replaced by entries of no use. *)
Definition demo_json_scrambled : JsonCalib :=
  let j := Save_json demo_calib in
  mkJsonCalib (imageWidth j) (imageHeight j) (PixelToWorld j)
    (Some [ ("Left"%string, json_of_rect (mkRect 1 2 3 4)) ])
    (Some []).

Definition demo_fs_scrambled : FileSystem :=
  write_file fs_empty "other.json" (Json demo_json_scrambled).

(** The object [Load] makes of the file of [demo_calib]. *)
Definition demo_calib_loaded : Calib :=
  Eval vm_compute in
    match Load demo_fs_saved Calib_new "cal.json" with
    | Some (_, c) => c
    | None => Calib_new
    end.

(** That file without its search lines. *)
Definition demo_json_no_lines : JsonCalib :=
  let j := Save_json demo_calib in
  mkJsonCalib (imageWidth j) (imageHeight j) (PixelToWorld j) (MoveSearchRegions j) None.

Definition demo_fs_no_lines : FileSystem :=
  write_file fs_empty "cal.json" (Json demo_json_no_lines).

(** The points of a calibration file, none when the list is absent. *)
Definition file_points (pw : JsonPixelToWorld) : list JsonPoint := get (points pw) [].

(** The file has every child that [Load] asks for, and as many points as its
    grid has places. *)
Definition file_complete (j : JsonCalib) : Prop :=
  exists pw nodes,
    PixelToWorld j = Some pw /\ points pw = Some nodes
    /\ MoveSearchRegions j <> None /\ SearchLines j <> None
    /\ SizeT.mul (get (columns pw) 2) (get (j_rows pw) 4) = vsize nodes.

(** What [SortPoints] makes of the nine candidates. *)
Definition demo_sorted_9 : FindCalibGrid :=
  Eval vm_compute in
    match SortPoints (demo_grid_with demo_candidates_9) (Mat_size demo_img) with
    | Some (_, g) => g
    | None => demo_grid
    end.

(** Eight candidates of a grid that leans to the left: in every row the
    right marker is two pixels higher than the left one. *)
Definition demo_candidates_rising : list TemplateBowtieItem :=
  [ item_at 20 42 (9 # 10); item_at 60 40 (9 # 10);
    item_at 20 72 (8 # 10); item_at 60 70 (8 # 10);
    item_at 20 102 (7 # 10); item_at 60 100 (7 # 10);
    item_at 20 132 (6 # 10); item_at 60 130 (6 # 10) ].

Definition demo_sorted_rising : FindCalibGrid :=
  Eval vm_compute in
    match SortPoints (demo_grid_with demo_candidates_rising) (Mat_size demo_img) with
    | Some (_, g) => g
    | None => demo_grid
    end.

(** The sizes of template and image and the rounded position of the
    candidate leave room for the [int] arithmetic of [MatchRefine]. *)
Definition refine_in_range (img templ0 : Mat) (item : TemplateBowtieItem) : Prop :=
  0 <= cols templ0 <= 2 ^ 29 /\ 0 <= rows templ0 <= 2 ^ 29
  /\ 0 <= cols img <= Int.max_int /\ 0 <= rows img <= Int.max_int
  /\ - 2 ^ 30 <= cvRound (d_x (pt item)) <= 2 ^ 30
  /\ - 2 ^ 30 <= cvRound (d_y (pt item)) <= 2 ^ 30.

(** A 5 x 5 image, smaller than one and a half templates of 4 x 4. *)
Definition demo_img_small : Mat := mkMat 5 5 CV_8UC1 (repeat (1 # 2)%Q 25).

(** An object without templates. *)
Definition demo_grid_bare : FindCalibGrid := with_templates demo_grid [].

(** A 32 x 68 image with eight blobs on a 2 x 4 grid, 19 pixels apart, the
    left one of each row one pixel higher than the right one. *)
Definition demo_img_grid : Mat :=
  mkMat 68 32 CV_8UC1
    (map (fun cr =>
            Qred (blob 5 4 (9 # 10) (fst cr) (snd cr)
                  + blob 24 5 (9 # 10) (fst cr) (snd cr)
                  + blob 5 23 (8 # 10) (fst cr) (snd cr)
                  + blob 24 24 (8 # 10) (fst cr) (snd cr)
                  + blob 5 42 (7 # 10) (fst cr) (snd cr)
                  + blob 24 43 (7 # 10) (fst cr) (snd cr)
                  + blob 5 61 (6 # 10) (fst cr) (snd cr)
                  + blob 24 62 (6 # 10) (fst cr) (snd cr)))
         (cells 68 32)).

(** The object after [InitBowtieTemplate] for that image size. *)
Definition demo_grid_8 : FindCalibGrid :=
  mkFindCalibGrid [ demo_template; demo_template; demo_template ]
    (mkMat 65 29 CV_32FC1 (repeat 0%Q (65 * 29))) (mkMat 3 3 CV_32FC1 (repeat 0%Q 9))
    [] [] (mkRect 0 0 5 5) (mkRect 10 0 5 5).

(** What [FindTargets] makes of it. *)
Definition demo_found_8 : FindCalibGrid :=
  Eval vm_compute in
    match FindTargets demo_grid_8 demo_img_grid (1 # 2) "" with
    | Some (Returned _ g) => g
    | _ => demo_grid_8
    end.

(** What [FindMoveTargets] makes of [demo_grid] and [demo_img]. *)
Definition demo_moved : FindCalibGrid * Point2d * Point2d :=
  Eval vm_compute in
    match FindMoveTargets demo_grid demo_img (P2 0 0) (P2 0 0) with
    | Some (_, g, ptLeft, ptRight) => (g, ptLeft, ptRight)
    | None => (demo_grid, P2 0 0, P2 0 0)
    end.

(** ** The template bank *)

(** [templateDim] made even: what [InitBowtieTemplate] calls
    [templateDimEven]. *)
Definition even_dim (templateDim : Z) : Z := templateDim + templateDim mod 2.

(** The bowtie drawn at twice the template size and turned by [angle]
    degrees. *)
Definition rotated_bowtie {cvm : OpenCVMore} (even angle : Z) : Mat :=
  snd (RotateImage (bowtie_drawing (2 * even)) (Mat_alloc (2 * even) (2 * even) CV_8UC1)
         (inject_Z angle)).

(** The template for [angle] degrees: the middle of the turned drawing (of
    the drawing itself for 0 degrees). *)
Definition bowtie_template {cvm : OpenCVMore} (even angle : Z) : option Mat :=
  Mat_roi (if angle =? 0 then bowtie_drawing (2 * even) else rotated_bowtie even angle)
          (mkRect (even / 2) (even / 2) even even).

(** [warpAffine] does not throw on the drawing. *)
Definition rotation_works {cvm : OpenCVMore} (even : Z) : Prop :=
  forall angle,
    warpAffine_throws (bowtie_drawing (2 * even)) angle (mkSize (2 * even) (2 * even))
    = false.

(** The object after [InitBowtieTemplate( 20, Size( 48, 24 ) )]. *)
Definition demo_grid_init : FindCalibGrid :=
  Eval vm_compute in
    match InitBowtieTemplate FindCalibGrid_new 20 (mkSize 48 24) with
    | Some (_, g) => g
    | None => FindCalibGrid_new
    end.

(** The file system after [Save] of [roundtrip_loaded]. *)
Definition roundtrip_fs_2 : FileSystem := snd (Save fs_empty roundtrip_loaded "cal2.json").

(** The constants of [gc_demo] with four templates instead of three. *)
Definition gc_even : GcTypes :=
  {| GC_BOWTIE_TEMPLATE_DIM := 56;
     TEMPLATE_COUNT := 4;
     TARGET_COUNT := 8;
     CALIB_POINT_ROW_COUNT := 4;
     CALIB_POINT_COL_COUNT := 2;
     TEMPLATE_MATCH_MIN_SCORE := 1 # 10;
     CalibModel_clear := fun _ => CalibModel_blank |}.

(** * Properties *)

(** ** Arithmetic of the embedding *)

Lemma Int_wrap_in_range (z : Z) : Int.in_range z -> Int.wrap z = z.
Proof.
  unfold Int.in_range, Int.wrap, Int.min_int, Int.max_int. intros Hz.
  rewrite Z.mod_small; lia.
Qed.

Lemma Int_mul_exact (a b : Z) : Int.in_range (a * b) -> Int.mul a b = a * b.
Proof. apply Int_wrap_in_range. Qed.

Lemma int_of_size_exact (n : Z) : 0 <= n <= Int.max_int -> int_of_size n = n.
Proof.
  intros Hn. apply Int_wrap_in_range. unfold Int.in_range, Int.min_int, Int.max_int in *. lia.
Qed.

Lemma isnil_true {A} (l : list A) : isnil l = true <-> l = [].
Proof. destruct l; simpl; split; congruence. Qed.

Lemma demo_calib_reached :
  Calibrate Calib_new demo_pixelPts demo_worldPts (mkSize 2 4) demo_imgSize
    Mat_new Mat_new false false false
  = Some (GC_OK, demo_calib, Mat_new).
Proof. vm_compute. reflexivity. Qed.

(** ** Calibrate: argument validation *)

Section CalibrateValidation.
Context {cv : OpenCV} {gc : GcTypes} {ov : CalibOverlay}.

Lemma Calibrate_invalid_iff (pixelPts worldPts : list Point2d) (gridSize : Size) :
  Calibrate_invalid pixelPts worldPts gridSize = true <->
  (vsize pixelPts <> vsize worldPts \/ pixelPts = [] \/ worldPts = []
   \/ Int.mul (width gridSize) (height gridSize) <> int_of_size (vsize pixelPts)
   \/ width gridSize <= 0).
Proof.
  unfold Calibrate_invalid.
  rewrite !orb_true_iff, !negb_true_iff, !Z.eqb_neq, !isnil_true, Z.leb_le.
  tauto.
Qed.

Lemma Calibrate_invalid_unchanged c pixelPts worldPts gridSize imgSize img imgOut
    drawCalib drawMoveROIs drawSearchROI :
  Calibrate_invalid pixelPts worldPts gridSize = true ->
  Calibrate c pixelPts worldPts gridSize imgSize img imgOut
    drawCalib drawMoveROIs drawSearchROI = Some (GC_ERR, c, imgOut).
Proof. intros Hinv. unfold Calibrate. rewrite Hinv. reflexivity. Qed.

(** C1.  A call of [Calibrate] whose point vectors differ in length, or are
    empty, or whose [gridSize.width * gridSize.height] differs from the point
    count, or whose [gridSize.width] is not positive, returns [GC_ERR] and
    leaves the whole object as it was: model (points, grid size, search
    lines, move regions), image size and both homographies. *)
Theorem Calibrate_rejects_invalid_arguments
    c pixelPts worldPts gridSize imgSize img imgOut drawCalib drawMoveROIs drawSearchROI :
  (vsize pixelPts <> vsize worldPts \/ pixelPts = [] \/ worldPts = []
   \/ Int.mul (width gridSize) (height gridSize) <> int_of_size (vsize pixelPts)
   \/ width gridSize <= 0) ->
  Calibrate c pixelPts worldPts gridSize imgSize img imgOut
    drawCalib drawMoveROIs drawSearchROI = Some (GC_ERR, c, imgOut).
Proof.
  intros Hbad. apply Calibrate_invalid_unchanged, Calibrate_invalid_iff, Hbad.
Qed.

(** The product and the count of the source are the mathematical ones as long
    as they fit an [int]. *)
Lemma Calibrate_count_mismatch_exact (pixelPts : list Point2d) (gridSize : Size) :
  Int.in_range (width gridSize * height gridSize) ->
  vsize pixelPts <= Int.max_int ->
  width gridSize * height gridSize <> vsize pixelPts ->
  Int.mul (width gridSize) (height gridSize) <> int_of_size (vsize pixelPts).
Proof.
  intros Hr Hn Hne. rewrite Int_mul_exact by exact Hr.
  rewrite int_of_size_exact; [exact Hne|]. unfold vsize in *. lia.
Qed.

End CalibrateValidation.

Lemma Calibrate_rejects_invalid_arguments_witness :
  (vsize demo_pixelPts <> vsize (tl demo_worldPts) \/ demo_pixelPts = []
   \/ tl demo_worldPts = []
   \/ Int.mul (width (mkSize 2 4)) (height (mkSize 2 4))
      <> int_of_size (vsize demo_pixelPts)
   \/ width (mkSize 2 4) <= 0)
  /\ Calibrate demo_calib demo_pixelPts (tl demo_worldPts) (mkSize 2 4) demo_imgSize
       Mat_new Mat_new false false false = Some (GC_ERR, demo_calib, Mat_new).
Proof.
  assert (H : vsize demo_pixelPts <> vsize (tl demo_worldPts)
              \/ demo_pixelPts = [] \/ tl demo_worldPts = []
              \/ Int.mul (width (mkSize 2 4)) (height (mkSize 2 4))
                 <> int_of_size (vsize demo_pixelPts)
              \/ width (mkSize 2 4) <= 0).
  { left. vm_compute. discriminate. }
  split; [exact H|].
  exact (Calibrate_rejects_invalid_arguments demo_calib demo_pixelPts
           (tl demo_worldPts) (mkSize 2 4) demo_imgSize Mat_new Mat_new
           false false false H).
Defined.

(** ** MoveSearchROI and MoveRefPoint *)

Section MoveAccessors.

Lemma vat_nth_error {A} (v : list A) (i : Z) :
  0 <= i -> vat v i = nth_error v (Z.to_nat i).
Proof. intros Hi. unfold vat. destruct (Z.leb_spec 0 i); [reflexivity|lia]. Qed.

Lemma vat_in_range {A} (v : list A) (i : Z) :
  0 <= i < vsize v -> exists a, vat v i = Some a.
Proof.
  intros [Hi Hlt]. rewrite vat_nth_error by exact Hi.
  destruct (nth_error v (Z.to_nat i)) eqn:E; [eauto|].
  apply nth_error_None in E. unfold vsize in Hlt. lia.
Qed.

Lemma size_of_int_exact (i : Z) : 0 <= i <= Int.max_int -> size_of_int i = i.
Proof.
  unfold size_of_int, SizeT.wrap, Int.max_int. intros Hi.
  apply Z.mod_small. lia.
Qed.

Lemma grid_sized_height_pos (m : CalibModel) :
  grid_sized m -> 0 < height (gridSize m) /\ width (gridSize m) <= vsize (pixelPoints m).
Proof.
  intros (Hne & Hsz & Hw & Hmax).
  assert (0 < vsize (pixelPoints m)).
  { unfold vsize. destruct (pixelPoints m); [congruence|cbn [List.length]; lia]. }
  set (w := width (gridSize m)) in *. set (h := height (gridSize m)) in *.
  set (n := vsize (pixelPoints m)) in *.
  assert (Hh : 0 < h).
  { destruct (Z.lt_ge_cases 0 h) as [Hp|Hn]; [exact Hp|].
    assert (w * h <= 0) by (apply Z.mul_nonneg_nonpos; lia). lia. }
  split; [exact Hh|].
  assert (w * 1 <= w * h) by (apply Z.mul_le_mono_nonneg_l; lia). lia.
Qed.

Lemma grid_sized_count (m : CalibModel) :
  grid_sized m ->
  size_of_int (Int.mul (width (gridSize m)) (height (gridSize m)))
  = vsize (pixelPoints m).
Proof.
  intros Hg. pose proof Hg as (Hne & Hsz & Hw & Hmax).
  assert (0 <= vsize (pixelPoints m)) by (unfold vsize; lia).
  rewrite Int_mul_exact.
  - rewrite <- Hsz. apply size_of_int_exact. lia.
  - rewrite <- Hsz. unfold Int.in_range, Int.min_int, Int.max_int in *. lia.
Qed.

(** C9 (amended).  [MoveRefPoint] answers with the sentinel point
    [(DBL_MIN, DBL_MIN)] when the model has no pixel points or their count is
    not [gridSize.width * gridSize.height]; on a grid-sized model it answers
    with the first pixel point (left) or the one at index
    [gridSize.width - 1] (right).  [MoveSearchROI] does not look at the point
    arrays: it always answers with the stored left or right rectangle. *)
Theorem MoveRefPoint_sentinel_MoveSearchROI_stored (c : Calib) (isLeft : bool) :
  ((pixelPoints (m_model c) = []
    \/ size_of_int (Int.mul (width (gridSize (m_model c))) (height (gridSize (m_model c))))
       <> vsize (pixelPoints (m_model c))) ->
   MoveRefPoint c isLeft = Some sentinel_point)
  /\ (grid_sized (m_model c) ->
      exists p,
        MoveRefPoint c isLeft = Some p
        /\ nth_error (pixelPoints (m_model c))
             (if isLeft then 0%nat else Z.to_nat (width (gridSize (m_model c)) - 1))
           = Some p)
  /\ MoveSearchROI c isLeft
     = (if isLeft then moveSearchRegionLft (m_model c)
        else moveSearchRegionRgt (m_model c)).
Proof.
  split; [|split].
  - intros Hbad. unfold MoveRefPoint.
    destruct (isnil (pixelPoints (m_model c))) eqn:En; [reflexivity|].
    destruct Hbad as [Hnil | Hcnt].
    + apply isnil_true in Hnil. congruence.
    + apply Z.eqb_neq in Hcnt. rewrite Hcnt. reflexivity.
  - intros Hg. pose proof (grid_sized_count _ Hg) as Hcnt.
    pose proof (grid_sized_height_pos _ Hg) as [Hh Hwle].
    pose proof Hg as (Hne & Hsz & Hw & Hmax).
    unfold MoveRefPoint.
    destruct (isnil (pixelPoints (m_model c))) eqn:En.
    { apply isnil_true in En. contradiction. }
    rewrite Hcnt, Z.eqb_refl. simpl negb. cbv iota.
    destruct isLeft.
    + destruct (pixelPoints (m_model c)) as [|p l] eqn:Ep; [contradiction|].
      exists p. split; reflexivity.
    + assert (Hidx : size_of_int (Int.sub (width (gridSize (m_model c))) 1)
                     = width (gridSize (m_model c)) - 1).
      { unfold Int.sub. rewrite Int_wrap_in_range.
        - apply size_of_int_exact. lia.
        - unfold Int.in_range, Int.min_int, Int.max_int in *. lia. }
      rewrite Hidx.
      destruct (vat_in_range (pixelPoints (m_model c))
                  (width (gridSize (m_model c)) - 1)) as [p Hp]; [lia|].
      exists p. split; [exact Hp|].
      rewrite vat_nth_error in Hp by lia. exact Hp.
  - reflexivity.
Qed.

End MoveAccessors.

Lemma MoveRefPoint_sentinel_MoveSearchROI_stored_witness :
  grid_sized (m_model demo_calib)
  /\ MoveRefPoint demo_calib false = Some (P2 130 100)
  /\ MoveRefPoint Calib_new true = Some sentinel_point.
Proof.
  assert (Hg : grid_sized (m_model demo_calib)).
  { unfold grid_sized. repeat split; vm_compute; congruence. }
  split; [exact Hg|split].
  - destruct (MoveRefPoint_sentinel_MoveSearchROI_stored demo_calib false)
      as (_ & Hvalid & _).
    destruct (Hvalid Hg) as (p & Hp & Hnth).
    rewrite Hp. vm_compute in Hnth. symmetry. exact Hnth.
  - destruct (MoveRefPoint_sentinel_MoveSearchROI_stored Calib_new true)
      as (Hbad & _ & _).
    apply Hbad. left. reflexivity.
Defined.

(** C9, as stated, fails for [MoveSearchROI]: after [Load] has rejected a file
    whose point list is one entry short of its 2 x 4 grid, the model holds 7
    points, [MoveRefPoint] answers with the sentinel, and [MoveSearchROI]
    still answers with the rectangles read from the file. *)
Lemma MoveSearchROI_answers_on_invalid_model :
  Load demo_fs_short Calib_new "cal.json" = Some (GC_ERR, demo_calib_short)
  /\ vsize (pixelPoints (m_model demo_calib_short)) = 7
  /\ gridSize (m_model demo_calib_short) = mkSize 0 0
  /\ MoveRefPoint demo_calib_short true = Some sentinel_point
  /\ MoveSearchROI demo_calib_short true = mkRect 44 44 112 112
  /\ MoveSearchROI demo_calib_short false = mkRect 74 44 112 112
  /\ MoveSearchROI Calib_new true = mkRect 0 0 0 0.
Proof. vm_compute. repeat split; reflexivity. Qed.

(** ** SubpixelPointRefine *)

Section Subpixel.

Lemma in_bounds_iff (m : Mat) (col row : Z) :
  in_bounds m col row = true <-> (0 <= col < cols m /\ 0 <= row < rows m).
Proof.
  unfold in_bounds. rewrite !andb_true_iff, !Z.leb_le, !Z.ltb_lt. tauto.
Qed.

Lemma Mat_at_get (m : Mat) (col row : Z) :
  Mat_wf m -> in_bounds m col row = true -> Mat_at m col row = Some (Mat_get m col row).
Proof.
  intros (Hr & Hc & Hlen) Hin. unfold Mat_at, Mat_get. rewrite Hin.
  apply in_bounds_iff in Hin. destruct Hin as [[Hc0 Hc1] [Hr0 Hr1]].
  apply nth_error_nth'. unfold vsize in Hlen.
  assert ((row + 1) * cols m <= rows m * cols m)
    by (apply Z.mul_le_mono_nonneg_r; lia).
  assert (0 <= row * cols m) by (apply Z.mul_nonneg_nonneg; lia).
  lia.
Qed.

Lemma SubpixelPointRefine_offimage_iff (m : Mat) (p : Point) :
  SubpixelPointRefine_offimage m p = true <-> border_distance m p < 1.
Proof.
  unfold SubpixelPointRefine_offimage, border_distance.
  rewrite !orb_true_iff, !Z.ltb_lt. lia.
Qed.

Lemma neighbourhood_inside_iff (m : Mat) (p : Point) :
  neighbourhood_inside m p <-> 1 <= border_distance m p.
Proof.
  unfold neighbourhood_inside, neighbourhood3, border_distance. simpl.
  repeat rewrite Forall_cons_iff. rewrite !in_bounds_iff. simpl. split.
  - intros (H1 & _ & _ & _ & _ & _ & _ & _ & H9 & _). lia.
  - intros H. repeat split; try apply Forall_nil; lia.
Qed.

Lemma MatType_eqb_eq (a b : MatType) : MatType_eqb a b = true <-> a = b.
Proof. destruct a, b; simpl; split; congruence. Qed.

(** C10.  On a map whose buffer matches its header [SubpixelPointRefine]
    always returns (no read leaves the map); it returns [GC_ERR], leaving the
    result point alone, exactly when the peak is less than one cell from the
    border of the map or the map is not [CV_32FC1]; otherwise it returns
    [GC_OK], every cell of the 3 x 3 neighbourhood it reads is inside the
    map, and the point is the intensity-weighted centroid of that
    neighbourhood (whenever the weights do not sum to zero). *)
Theorem SubpixelPointRefine_centroid_or_error
    (matchSpace : Mat) (ptMax : Point) (ptResult : Point2d) :
  Mat_wf matchSpace ->
  exists retVal r,
    SubpixelPointRefine matchSpace ptMax ptResult = Some (retVal, r)
    /\ (retVal = GC_ERR <->
        (border_distance matchSpace ptMax < 1 \/ mtype matchSpace <> CV_32FC1))
    /\ (retVal = GC_ERR -> r = ptResult)
    /\ (retVal <> GC_ERR ->
        retVal = GC_OK
        /\ neighbourhood_inside matchSpace ptMax
        /\ (~ (weight3 matchSpace ptMax == 0)%Q -> is_centroid3 matchSpace ptMax r)).
Proof.
  intros Hwf. unfold SubpixelPointRefine.
  destruct (SubpixelPointRefine_offimage matchSpace ptMax) eqn:Hoff.
  { exists GC_ERR, ptResult. apply SubpixelPointRefine_offimage_iff in Hoff.
    repeat split; try tauto; try congruence. }
  assert (Hdist : 1 <= border_distance matchSpace ptMax).
  { destruct (Z.lt_ge_cases (border_distance matchSpace ptMax) 1) as [Hlt|Hge];
      [|exact Hge].
    apply SubpixelPointRefine_offimage_iff in Hlt. congruence. }
  destruct (MatType_eqb CV_32FC1 (mtype matchSpace)) eqn:Hty; simpl negb; cbv iota.
  2:{ exists GC_ERR, ptResult. repeat split; try tauto; try congruence.
      intros _. right. intros Heq. rewrite Heq in Hty. discriminate. }
  apply MatType_eqb_eq in Hty.
  pose proof (proj2 (neighbourhood_inside_iff matchSpace ptMax) Hdist) as Hin.
  pose proof Hin as Hin'. unfold neighbourhood_inside, neighbourhood3 in Hin'.
  simpl in Hin'. repeat rewrite Forall_cons_iff in Hin'. simpl in Hin'.
  destruct Hin' as (I1 & I2 & I3 & I4 & I5 & I6 & I7 & I8 & I9 & _).
  cbn [SubpixelPointRefine_rows SubpixelPointRefine_cols].
  set (x := p_x ptMax) in *. set (y := p_y ptMax) in *.
  replace (y - 1 + 1 + 1) with (y + 1) by lia.
  replace (y - 1 + 1) with (y + 0) by lia.
  replace (y - 1) with (y + -1) by lia.
  replace (x - 1 + 1 + 1) with (x + 1) by lia.
  replace (x - 1 + 1) with (x + 0) by lia.
  replace (x - 1) with (x + -1) by lia.
  rewrite (Mat_at_get _ _ _ Hwf I1). cbn [bind total totalX totalY].
  rewrite (Mat_at_get _ _ _ Hwf I2). cbn [bind total totalX totalY].
  rewrite (Mat_at_get _ _ _ Hwf I3). cbn [bind total totalX totalY].
  rewrite (Mat_at_get _ _ _ Hwf I4). cbn [bind total totalX totalY].
  rewrite (Mat_at_get _ _ _ Hwf I5). cbn [bind total totalX totalY].
  rewrite (Mat_at_get _ _ _ Hwf I6). cbn [bind total totalX totalY].
  rewrite (Mat_at_get _ _ _ Hwf I7). cbn [bind total totalX totalY].
  rewrite (Mat_at_get _ _ _ Hwf I8). cbn [bind total totalX totalY].
  rewrite (Mat_at_get _ _ _ Hwf I9). cbn [bind total totalX totalY].
  eexists GC_OK, _. split; [reflexivity|].
  split; [split; [discriminate|intros [Hlt|Hne]; [lia|congruence]]|].
  split; [discriminate|]. intros _. split; [reflexivity|]. split; [exact Hin|].
  unfold is_centroid3, weight3, moment3_x, moment3_y, neighbourhood3, sumQ.
  fold x y. cbn [flat_map map app fold_right fst snd d_x d_y].
  intros Hw. split; field; intros Hz; apply Hw; (etransitivity; [|exact Hz]); ring.
Qed.

End Subpixel.

Lemma SubpixelPointRefine_centroid_or_error_witness :
  Mat_wf demo_peak
  /\ exists retVal r,
       SubpixelPointRefine demo_peak (mkPoint 2 2) (mkPoint2d 0 0) = Some (retVal, r)
       /\ (retVal = GC_ERR <->
           (border_distance demo_peak (mkPoint 2 2) < 1 \/ mtype demo_peak <> CV_32FC1))
       /\ (retVal = GC_ERR -> r = mkPoint2d 0 0)
       /\ (retVal <> GC_ERR ->
           retVal = GC_OK
           /\ neighbourhood_inside demo_peak (mkPoint 2 2)
           /\ (~ (weight3 demo_peak (mkPoint 2 2) == 0)%Q ->
               is_centroid3 demo_peak (mkPoint 2 2) r)).
Proof.
  assert (Hwf : Mat_wf demo_peak) by (unfold Mat_wf; vm_compute; intuition congruence).
  split; [exact Hwf|].
  exact (SubpixelPointRefine_centroid_or_error demo_peak (mkPoint 2 2)
           (mkPoint2d 0 0) Hwf).
Defined.

Example SubpixelPointRefine_demo_peak :
  exists r, SubpixelPointRefine demo_peak (mkPoint 2 2) (mkPoint2d 0 0) = Some (GC_OK, r)
            /\ (d_x r == 23 # 11)%Q /\ (d_y r == 2)%Q.
Proof. eexists. split; [vm_compute; reflexivity|]. split; reflexivity. Qed.

(** ** MatchRefine *)

Section Refine.
Context {cv : OpenCV} {gc : GcTypes}.

Lemma Qlt_bool_iff (a b : Q) : Qlt_bool a b = true <-> (a < b)%Q.
Proof.
  unfold Qlt_bool. rewrite negb_true_iff. split.
  - intros H. apply Qnot_le_lt. intros Hle. apply Qle_bool_iff in Hle. congruence.
  - intros H. destruct (Qle_bool b a) eqn:E; [|reflexivity].
    apply Qle_bool_iff in E. exfalso. apply (Qlt_not_le _ _ H E).
Qed.

Lemma Qlt_bool_false_iff (a b : Q) : Qlt_bool a b = false <-> (b <= a)%Q.
Proof.
  unfold Qlt_bool. rewrite negb_false_iff. apply Qle_bool_iff.
Qed.

Lemma GC_STATUS_eqb_eq (a b : GC_STATUS) : GC_STATUS_eqb a b = true <-> a = b.
Proof. destruct a, b; simpl; split; congruence. Qed.

(** C8.  After a successful [MatchRefine] the item's score is at least what it
    was.  With [peak] at [ptMax] the maximum of the correlation of the
    template over the window around the candidate (which the call leaves in
    [m_matchSpaceSmall]): if [peak] is strictly above the item's score, the
    item's score becomes [peak] and its position the subpixel refinement of
    [ptMax], moved to image coordinates; otherwise the item is unchanged. *)
Theorem MatchRefine_improves_or_keeps
    (g : FindCalibGrid) (index : Z) (img : Mat) (minScore : Q) (numToFind : Z)
    (item : TemplateBowtieItem) (g' : FindCalibGrid) (item' : TemplateBowtieItem) :
  MatchRefine g index img minScore numToFind item = Some (GC_OK, g', item') ->
  exists templ templ0 matROI peak ptMax,
    index_invalid index = false
    /\ vat (m_templates g) (size_of_int index) = Some templ
    /\ vat (m_templates g) 0 = Some templ0
    /\ Mat_roi img (MatchRefine_rect img templ0 item) = Some matROI
    /\ matchTemplate matROI templ = Some (m_matchSpaceSmall g')
    /\ snd (fst (fst (minMaxLoc (m_matchSpaceSmall g')))) = peak
    /\ snd (minMaxLoc (m_matchSpaceSmall g')) = ptMax
    /\ (score item <= score item')%Q
    /\ ((score item < peak)%Q ->
        exists ptFinal,
          SubpixelPointRefine (m_matchSpaceSmall g') ptMax (mkPoint2d 0 0)
          = Some (GC_OK, ptFinal)
          /\ score item' = peak
          /\ pt item'
             = mkPoint2d
                 (inject_Z (r_x (MatchRefine_rect img templ0 item)) + d_x ptFinal
                  + inject_Z (cols templ0) / 2)
                 (inject_Z (r_y (MatchRefine_rect img templ0 item)) + d_y ptFinal
                  + inject_Z (rows templ0) / 2))
    /\ (~ (score item < peak)%Q -> item' = item).
Proof.
  unfold MatchRefine. intros Hrun.
  destruct (index_invalid index) eqn:Hidx; [discriminate|].
  destruct (minScore_invalid minScore); [discriminate|].
  destruct (numToFind_invalid numToFind); [discriminate|].
  cbn [m_templates with_matchSpace with_matchSpaceSmall m_matchSpaceSmall] in Hrun.
  destruct (vat (m_templates g) (size_of_int index)) as [templ|] eqn:Htempl;
    [|discriminate].
  cbn [bind] in Hrun.
  destruct (matchTemplate img templ) as [result|]; [|discriminate].
  destruct (vat (m_templates g) 0) as [templ0|] eqn:Htempl0; [|discriminate].
  cbn [bind] in Hrun.
  destruct (Mat_roi img (MatchRefine_rect img templ0 item)) as [matROI|] eqn:Hroi;
    [|discriminate].
  destruct (matchTemplate matROI templ) as [small|] eqn:Hsmall; [|discriminate].
  destruct (minMaxLoc small) as [[[dMin peak] ptMin] ptMax] eqn:Hmm.
  exists templ, templ0, matROI, peak, ptMax.
  destruct (Qlt_bool (score item) peak) eqn:Hlt.
  - destruct (SubpixelPointRefine small ptMax (mkPoint2d 0 0))
      as [[retVal ptFinal]|] eqn:Hsub; [|discriminate].
    cbn [bind] in Hrun.
    destruct (GC_STATUS_eqb GC_OK retVal) eqn:Hok.
    + apply GC_STATUS_eqb_eq in Hok. subst retVal.
      injection Hrun as Hg Hitem. subst g' item'.
      cbn [m_matchSpaceSmall with_matchSpaceSmall with_matchSpace score pt]. rewrite Hmm. cbn [fst snd].
      apply Qlt_bool_iff in Hlt.
      repeat split; try reflexivity; try assumption.
      * apply Qlt_le_weak, Hlt.
      * intros _. exists ptFinal. repeat split; try reflexivity. exact Hsub.
      * intros Hn. contradiction.
    + injection Hrun as Hst _ _. subst retVal. discriminate.
  - injection Hrun as Hg Hitem. subst g' item'.
    cbn [m_matchSpaceSmall with_matchSpaceSmall with_matchSpace]. rewrite Hmm.
    cbn [fst snd]. apply Qlt_bool_false_iff in Hlt.
    repeat split; try reflexivity; try assumption.
    + apply Qle_refl.
    + intros Hc. exfalso. apply (Qlt_not_le _ _ Hc Hlt).
Qed.

End Refine.

Lemma MatchRefine_improves_or_keeps_witness :
  MatchRefine demo_grid 1 demo_img (1 # 2) 1 demo_item
  = Some (GC_OK, fst demo_refined, snd demo_refined)
  /\ (score demo_item <= score (snd demo_refined))%Q
  /\ score (snd demo_refined) = (9 # 10)%Q.
Proof.
  assert (Hrun : MatchRefine demo_grid 1 demo_img (1 # 2) 1 demo_item
                 = Some (GC_OK, fst demo_refined, snd demo_refined))
    by (vm_compute; reflexivity).
  split; [exact Hrun|].
  destruct (MatchRefine_improves_or_keeps _ _ _ _ _ _ _ _ Hrun)
    as (templ & templ0 & matROI & peak & ptMax & _ & _ & _ & _ & _ & _ & _ & Hle & _).
  split; [exact Hle|reflexivity].
Defined.

(** ** MatchTemplate *)

Section Match.
Context {cv : OpenCV} {gc : GcTypes}.

Lemma scan_max_cases (l : list Q) :
  forall i best at_, fst (scan_max l i best at_) = best \/ In (fst (scan_max l i best at_)) l.
Proof.
  induction l as [|v l IH]; intros i best at_; simpl.
  - left. reflexivity.
  - destruct (Qlt_bool best v).
    + destruct (IH (S i) v i) as [H|H];
        [right; left; symmetry; exact H|right; right; exact H].
    + destruct (IH (S i) best at_) as [H|H];
        [left; exact H|right; right; exact H].
Qed.

Lemma minMaxLoc_max_cases (m : Mat) :
  let dMax := snd (fst (fst (minMaxLoc m))) in
  (elems m = [] /\ dMax = 0%Q) \/ In dMax (elems m).
Proof.
  unfold minMaxLoc. destruct (elems m) as [|v l] eqn:E.
  - left. split; reflexivity.
  - right. destruct (scan_min l 1 v 0) as [mn imn].
    destruct (scan_max l 1 v 0) as [mx imx] eqn:Emx. simpl.
    pose proof (scan_max_cases l 1%nat v 0%nat) as H. rewrite Emx in H. simpl in H.
    destruct H as [H|H]; [left; congruence|right; exact H].
Qed.

Lemma MatchTemplate_loop_length (img templ0 : Mat) (minScore : Q) (n : nat) :
  forall matchSpace items,
    (List.length (snd (MatchTemplate_loop n img templ0 minScore matchSpace items))
     <= List.length items + n)%nat.
Proof.
  induction n as [|n IH]; intros matchSpace items; simpl.
  - lia.
  - destruct (minMaxLoc matchSpace) as [[[dMin dMax] ptMin] ptMax].
    destruct (on_image img ptMax).
    + destruct (Qle_bool minScore dMax).
      * etransitivity; [apply IH|]. rewrite length_app. simpl. lia.
      * simpl. lia.
    + etransitivity; [apply IH|]. lia.
Qed.

Lemma MatchTemplate_loop_scores (img templ0 : Mat) (minScore : Q) (n : nat) :
  forall matchSpace items,
    Forall (fun it => (minScore <= score it)%Q) items ->
    Forall (fun it => (minScore <= score it)%Q)
           (snd (MatchTemplate_loop n img templ0 minScore matchSpace items)).
Proof.
  induction n as [|n IH]; intros matchSpace items Hitems; simpl.
  - exact Hitems.
  - destruct (minMaxLoc matchSpace) as [[[dMin dMax] ptMin] ptMax].
    destruct (on_image img ptMax).
    + destruct (Qle_bool minScore dMax) eqn:Hle.
      * apply IH. apply Forall_app. split; [exact Hitems|].
        constructor; [|constructor]. simpl. apply Qle_bool_iff, Hle.
      * exact Hitems.
    + apply IH, Hitems.
Qed.

Lemma MatchTemplate_loop_none (img templ0 : Mat) (minScore : Q) (n : nat) :
  (0 < minScore)%Q -> circle_keeps_below minScore ->
  forall matchSpace items,
    (forall e, In e (elems matchSpace) -> (e < minScore)%Q) ->
    snd (MatchTemplate_loop n img templ0 minScore matchSpace items) = items.
Proof.
  intros Hpos Hcircle. induction n as [|n IH]; intros matchSpace items Hlow; simpl.
  - reflexivity.
  - pose proof (minMaxLoc_max_cases matchSpace) as Hmax.
    destruct (minMaxLoc matchSpace) as [[[dMin dMax] ptMin] ptMax]. simpl in Hmax.
    assert (Hd : (dMax < minScore)%Q).
    { destruct Hmax as [[_ Hz]|Hin]; [rewrite Hz; exact Hpos|apply Hlow, Hin]. }
    destruct (on_image img ptMax).
    + destruct (Qle_bool minScore dMax) eqn:Hle; [|reflexivity].
      apply Qle_bool_iff in Hle. exfalso. apply (Qlt_not_le _ _ Hd Hle).
    + apply IH. apply Hcircle, Hlow.
Qed.

Lemma vat_first {A} (v : list A) (i : Z) (a : A) :
  vat v i = Some a -> exists a0, vat v 0 = Some a0.
Proof.
  destruct v as [|a0 v]; unfold vat.
  - destruct (0 <=? i); [|discriminate]. destruct (Z.to_nat i); discriminate.
  - intros _. exists a0. reflexivity.
Qed.

Lemma minScore_valid_pos (minScore : Q) :
  minScore_invalid minScore = false -> (0 < minScore)%Q.
Proof.
  unfold minScore_invalid. intros H. apply orb_false_iff in H. destruct H as [H _].
  apply Qlt_bool_false_iff in H. eapply Qlt_le_trans; [|exact H]. reflexivity.
Qed.

End Match.

Section MatchClaim.
Context {cv : OpenCV} {gc : GcTypes}.

(** C4 (amended).  For a valid template index, [minScore] and [numToFind],
    when the correlation itself succeeds, [MatchTemplate] runs the extraction
    loop [numToFind] times at most on the correlation map.  One turn of the
    loop takes the global maximum; if it lies strictly inside the image and
    reaches [minScore] it is recorded; if it lies strictly inside the image
    and is below [minScore] the loop stops; if it does not lie strictly
    inside the image it is not recorded and the loop goes on; in the first
    and the last case the disk of radius 17 around the maximum is suppressed
    before the next turn.  At most [numToFind] candidates are recorded,
    every one with a score of at least [minScore]; the status is [GC_ERR]
    exactly when no candidate was recorded, which is the case when
    [minScore] is above every score of the map. *)
Theorem MatchTemplate_extraction
    (g : FindCalibGrid) (index : Z) (img : Mat) (minScore : Q) (numToFind : Z)
    (templ result : Mat) :
  index_invalid index = false ->
  minScore_invalid minScore = false ->
  numToFind_invalid numToFind = false ->
  vat (m_templates g) (size_of_int index) = Some templ ->
  matchTemplate img templ = Some result ->
  exists retVal g' templ0,
    MatchTemplate g index img minScore numToFind = Some (retVal, g')
    /\ vat (m_templates g) 0 = Some templ0
    /\ MatchTemplate_loop (Z.to_nat numToFind) img templ0 minScore result []
       = (m_matchSpace g', m_matchItems g')
    /\ (forall n matchSpace items,
          let dMax := snd (fst (fst (minMaxLoc matchSpace))) in
          let ptMax := snd (minMaxLoc matchSpace) in
          let suppressed := circle matchSpace ptMax 17 0 in
          (on_image img ptMax = true -> (minScore <= dMax)%Q ->
           MatchTemplate_loop (S n) img templ0 minScore matchSpace items
           = MatchTemplate_loop n img templ0 minScore suppressed
               (items ++ [candidate templ0 ptMax dMax]))
          /\ (on_image img ptMax = true -> (dMax < minScore)%Q ->
              MatchTemplate_loop (S n) img templ0 minScore matchSpace items
              = (matchSpace, items))
          /\ (on_image img ptMax = false ->
              MatchTemplate_loop (S n) img templ0 minScore matchSpace items
              = MatchTemplate_loop n img templ0 minScore suppressed items))
    /\ vsize (m_matchItems g') <= numToFind
    /\ Forall (fun it => (minScore <= score it)%Q) (m_matchItems g')
    /\ (retVal = GC_ERR <-> m_matchItems g' = [])
    /\ (retVal = GC_OK <-> m_matchItems g' <> [])
    /\ ((forall e, In e (elems result) -> (e < minScore)%Q) ->
        circle_keeps_below minScore -> retVal = GC_ERR).
Proof.
  intros Hidx Hmin Hnum Htempl Hmatch.
  destruct (vat_first _ _ _ Htempl) as [templ0 Htempl0].
  unfold MatchTemplate. rewrite Hidx, Hmin, Hnum.
  cbn [m_templates with_matchSpace with_matchItems m_matchSpace m_matchItems].
  rewrite Htempl. cbn [bind]. rewrite Hmatch, Htempl0. cbn [bind].
  pose proof (MatchTemplate_loop_length img templ0 minScore (Z.to_nat numToFind) result [])
    as Hlen.
  pose proof (MatchTemplate_loop_scores img templ0 minScore (Z.to_nat numToFind) result []
                (Forall_nil _)) as Hsc.
  pose proof (fun Hpos Hc Hlow =>
                MatchTemplate_loop_none img templ0 minScore (Z.to_nat numToFind)
                  Hpos Hc result [] Hlow) as Hnone.
  destruct (MatchTemplate_loop (Z.to_nat numToFind) img templ0 minScore result [])
    as [matchSpace items] eqn:Hloop.
  cbn [snd List.length] in Hlen, Hsc, Hnone.
  assert (Hn : 1 <= numToFind).
  { unfold numToFind_invalid in Hnum. apply orb_false_iff in Hnum.
    destruct Hnum as [Hn _]. apply Z.ltb_ge in Hn. exact Hn. }
  assert (Hsteps : forall n matchSpace items,
    let dMax := snd (fst (fst (minMaxLoc matchSpace))) in
    let ptMax := snd (minMaxLoc matchSpace) in
    let suppressed := circle matchSpace ptMax 17 0 in
    (on_image img ptMax = true -> (minScore <= dMax)%Q ->
     MatchTemplate_loop (S n) img templ0 minScore matchSpace items
     = MatchTemplate_loop n img templ0 minScore suppressed
         (items ++ [candidate templ0 ptMax dMax]))
    /\ (on_image img ptMax = true -> (dMax < minScore)%Q ->
        MatchTemplate_loop (S n) img templ0 minScore matchSpace items
        = (matchSpace, items))
    /\ (on_image img ptMax = false ->
        MatchTemplate_loop (S n) img templ0 minScore matchSpace items
        = MatchTemplate_loop n img templ0 minScore suppressed items)).
  { intros n sp its. cbn [MatchTemplate_loop].
    destruct (minMaxLoc sp) as [[[dMin dMax] ptMin] ptMax]. cbn [fst snd].
    repeat split.
    - intros Hon Hle. rewrite Hon. apply Qle_bool_iff in Hle. rewrite Hle. reflexivity.
    - intros Hon Hlt. rewrite Hon.
      destruct (Qle_bool minScore dMax) eqn:Hle; [|reflexivity].
      apply Qle_bool_iff in Hle. exfalso. apply (Qlt_not_le _ _ Hlt Hle).
    - intros Hon. rewrite Hon. reflexivity. }
  destruct items as [|it items].
  - exists GC_ERR. eexists. exists templ0. cbn [isnil m_matchItems with_matchItems].
    split; [reflexivity|].
    cbn [isnil m_matchItems m_matchSpace with_matchItems with_matchSpace].
    repeat split; try assumption; try reflexivity; try apply Hsteps;
      try congruence; try (cbn; lia).
  - exists GC_OK. eexists. exists templ0. cbn [isnil m_matchItems with_matchItems].
    split; [reflexivity|].
    cbn [isnil m_matchItems m_matchSpace with_matchItems with_matchSpace].
    repeat split; try assumption; try reflexivity; try apply Hsteps;
      try congruence.
    + unfold vsize. lia.
    + intros Hlow Hc. exfalso.
      specialize (Hnone (minScore_valid_pos _ Hmin) Hc Hlow). discriminate.
Qed.

End MatchClaim.

Lemma MatchTemplate_extraction_witness :
  index_invalid 1 = false
  /\ minScore_invalid (1 # 2) = false
  /\ numToFind_invalid 2 = false
  /\ vat (m_templates demo_grid) (size_of_int 1) = Some demo_template
  /\ matchTemplate demo_img demo_template = Some (demo_scores demo_img demo_template)
  /\ exists retVal g',
       MatchTemplate demo_grid 1 demo_img (1 # 2) 2 = Some (retVal, g')
       /\ vsize (m_matchItems g') <= 2
       /\ Forall (fun it => (1 # 2 <= score it)%Q) (m_matchItems g')
       /\ (retVal = GC_ERR <-> m_matchItems g' = []).
Proof.
  assert (H1 : index_invalid 1 = false) by reflexivity.
  assert (H2 : minScore_invalid (1 # 2) = false) by reflexivity.
  assert (H3 : numToFind_invalid 2 = false) by reflexivity.
  assert (H4 : vat (m_templates demo_grid) (size_of_int 1) = Some demo_template)
    by reflexivity.
  assert (H5 : matchTemplate demo_img demo_template = Some (demo_scores demo_img demo_template))
    by reflexivity.
  repeat (split; [assumption|]).
  destruct (MatchTemplate_extraction demo_grid 1 demo_img (1 # 2) 2
              demo_template (demo_scores demo_img demo_template) H1 H2 H3 H4 H5)
    as (retVal & g' & templ0 & Hrun & _ & _ & _ & Hlen & Hsc & Herr & _).
  exists retVal, g'. repeat split; try assumption; apply Herr.
Defined.

(** C4, as stated, fails on "stopping otherwise": in [demo_img_border] the
    global maximum of the correlation map, 0.9 at (0, 8), is on the left
    border.  The loop does not stop there: it suppresses the disk, goes on,
    and records the next maximum, 0.8 at (36, 10); extraction as the
    specification words it stops at the first maximum and finds nothing. *)
Lemma MatchTemplate_goes_on_after_border_maximum :
  minMaxLoc (demo_scores demo_img_border demo_template)
  = (0%Q, (9 # 10)%Q, mkPoint 0 0, mkPoint 0 8)
  /\ on_image demo_img_border (mkPoint 0 8) = false
  /\ option_map (fun r => (fst r, m_matchItems (snd r)))
       (MatchTemplate demo_grid 1 demo_img_border (1 # 2) 2)
     = Some (GC_OK, [ candidate demo_template (mkPoint 36 10) (4 # 5) ])
  /\ snd (MatchTemplate_loop_as_specified 2 demo_img_border demo_template (1 # 2)
            (demo_scores demo_img_border demo_template) [])
     = [].
Proof. vm_compute. repeat split; reflexivity. Qed.

(** ** Matrices built cell by cell *)

Section Cells.






Lemma Rect_contains_iff (r : Rect) (col row : Z) :
  Rect_contains r col row = true <->
  (r_x r <= col < r_x r + r_width r /\ r_y r <= row < r_y r + r_height r).
Proof.
  unfold Rect_contains. rewrite !andb_true_iff, !Z.leb_le, !Z.ltb_lt. tauto.
Qed.




End Cells.

(** ** FindMoveTargets *)

Section MoveTargets.
Context {cv : OpenCV} {gc : GcTypes}.






Lemma SubpixelPointRefine_cols_returns (matchSpace : Mat) (row : Z) :
  Mat_wf matchSpace ->
  forall (n : nat) (col : Z) (t : Totals),
    (forall k, 0 <= k < Z.of_nat n -> in_bounds matchSpace (col + k) row = true) ->
    exists t', SubpixelPointRefine_cols matchSpace row col n t = Some t'.
Proof.
  intros Hwf. induction n as [|n IH]; intros col t Hin; cbn [SubpixelPointRefine_cols].
  - eexists. reflexivity.
  - assert (H0 : in_bounds matchSpace col row = true).
    { replace col with (col + 0) by lia. apply Hin. lia. }
    rewrite (Mat_at_get _ _ _ Hwf H0). cbn [bind]. apply IH.
    intros k Hk. replace (col + 1 + k) with (col + (k + 1)) by lia. apply Hin. lia.
Qed.

Lemma SubpixelPointRefine_rows_returns (matchSpace : Mat) (ptMax : Point) :
  Mat_wf matchSpace ->
  forall (n : nat) (row : Z) (t : Totals),
    (forall j k, 0 <= j < Z.of_nat n -> 0 <= k < 3 ->
                 in_bounds matchSpace (p_x ptMax - 1 + k) (row + j) = true) ->
    exists t', SubpixelPointRefine_rows matchSpace ptMax row n t = Some t'.
Proof.
  intros Hwf. induction n as [|n IH]; intros row t Hin; cbn [SubpixelPointRefine_rows].
  - eexists. reflexivity.
  - destruct (SubpixelPointRefine_cols_returns matchSpace row Hwf 3 (p_x ptMax - 1) t)
      as [t1 Ht1].
    { intros k Hk. replace row with (row + 0) by lia. apply Hin; lia. }
    rewrite Ht1. cbn [bind]. apply IH.
    intros j k Hj Hk. replace (row + 1 + j) with (row + (j + 1)) by lia.
    apply Hin; lia.
Qed.

Lemma SubpixelPointRefine_returns (matchSpace : Mat) (ptMax : Point) (ptResult : Point2d) :
  Mat_wf matchSpace ->
  exists res, SubpixelPointRefine matchSpace ptMax ptResult = Some res.
Proof.
  intros Hwf. unfold SubpixelPointRefine.
  destruct (SubpixelPointRefine_offimage matchSpace ptMax) eqn:Hoff;
    [eexists; reflexivity|].
  destruct (negb (MatType_eqb CV_32FC1 (mtype matchSpace))); [eexists; reflexivity|].
  assert (Hdist : 1 <= border_distance matchSpace ptMax).
  { destruct (Z.lt_ge_cases (border_distance matchSpace ptMax) 1) as [Hlt|Hge];
      [|exact Hge].
    apply SubpixelPointRefine_offimage_iff in Hlt. congruence. }
  destruct (SubpixelPointRefine_rows_returns matchSpace ptMax Hwf 3 (p_y ptMax - 1)
              (mkTotals 0 0 0)) as [t Ht].
  { intros j k Hj Hk. apply in_bounds_iff. unfold border_distance in Hdist. lia. }
  rewrite Ht. cbn [bind]. eexists. reflexivity.
Qed.

Lemma templates_built_index (g : FindCalibGrid) (index : Z) :
  templates_built g -> index_invalid index = false ->
  exists templ templ0,
    vat (m_templates g) (size_of_int index) = Some templ
    /\ vat (m_templates g) 0 = Some templ0.
Proof.
  intros [Hn Hmax] Hidx. unfold index_invalid in Hidx.
  apply orb_false_iff in Hidx. destruct Hidx as [H0 H1].
  apply Z.ltb_ge in H0. apply Z.leb_gt in H1.
  rewrite size_of_int_exact by lia.
  destruct (vat_in_range (m_templates g) index) as [templ Ht]; [lia|].
  destruct (vat_in_range (m_templates g) 0) as [templ0 Ht0]; [lia|].
  exists templ, templ0. split; assumption.
Qed.

Lemma MatchTemplate_returns (g : FindCalibGrid) (index : Z) (img : Mat)
    (minScore : Q) (numToFind : Z) :
  templates_built g ->
  exists retVal g',
    MatchTemplate g index img minScore numToFind = Some (retVal, g')
    /\ m_templates g' = m_templates g.
Proof.
  intros Hb. unfold MatchTemplate.
  destruct (index_invalid index) eqn:Hidx; [eauto|].
  destruct (minScore_invalid minScore); [eauto|].
  destruct (numToFind_invalid numToFind); [eauto|].
  destruct (templates_built_index g index Hb Hidx) as (templ & templ0 & Ht & Ht0).
  cbn [m_templates with_matchSpace with_matchItems m_matchSpace m_matchItems].
  rewrite Ht. cbn [bind].
  destruct (matchTemplate img templ) as [result|]; [|eauto].
  rewrite Ht0. cbn [bind].
  destruct (MatchTemplate_loop (Z.to_nat numToFind) img templ0 minScore result [])
    as [matchSpace items].
  cbn [m_matchItems with_matchItems]. destruct (isnil items); eauto.
Qed.

Lemma MatchRefine_returns (g : FindCalibGrid) (index : Z) (img : Mat)
    (minScore : Q) (numToFind : Z) (item : TemplateBowtieItem) :
  templates_built g -> matchTemplate_maps_wf ->
  exists retVal g' item',
    MatchRefine g index img minScore numToFind item = Some (retVal, g', item')
    /\ m_templates g' = m_templates g.
Proof.
  intros Hb Hwf. unfold MatchRefine.
  destruct (index_invalid index) eqn:Hidx; [eauto|].
  destruct (minScore_invalid minScore); [eauto|].
  destruct (numToFind_invalid numToFind); [eauto|].
  destruct (templates_built_index g index Hb Hidx) as (templ & templ0 & Ht & Ht0).
  cbn [m_templates with_matchSpace with_matchSpaceSmall m_matchSpaceSmall].
  rewrite Ht. cbn [bind].
  destruct (matchTemplate img templ) as [result|]; [|eauto].
  rewrite Ht0. cbn [bind].
  destruct (Mat_roi img (MatchRefine_rect img templ0 item)) as [matROI|]; [|eauto].
  destruct (matchTemplate matROI templ) as [small|] eqn:Hsmall; [|eauto].
  destruct (minMaxLoc small) as [[[dMin maxScore] ptMin] ptMax].
  destruct (Qlt_bool (score item) maxScore); [|eauto].
  destruct (SubpixelPointRefine_returns small ptMax (mkPoint2d 0 0) (Hwf _ _ _ Hsmall))
    as [[retVal ptFinal] Hsub].
  rewrite Hsub. cbn [bind]. destruct (GC_STATUS_eqb GC_OK retVal); eauto.
Qed.

Lemma templates_built_same (g g' : FindCalibGrid) :
  m_templates g' = m_templates g -> templates_built g -> templates_built g'.
Proof. unfold templates_built. intros ->. tauto. Qed.

Lemma refine_templates_returns (img : Mat) (minScore : Q) (n : nat) :
  matchTemplate_maps_wf ->
  forall (j : Z) (g : FindCalibGrid) (item : TemplateBowtieItem),
    templates_built g ->
    exists retVal g' item',
      refine_templates n j g img minScore item = Some (retVal, g', item')
      /\ m_templates g' = m_templates g.
Proof.
  intros Hwf. induction n as [|n IH]; intros j g item Hb; cbn [refine_templates].
  - eauto.
  - destruct (MatchRefine_returns g j img minScore 1 item Hb Hwf)
      as (retVal & g1 & item1 & Hrun & Ht).
    rewrite Hrun. cbn [bind]. destruct (GC_STATUS_eqb GC_OK retVal); [|eauto].
    destruct (IH (j + 1) g1 item1 (templates_built_same _ _ Ht Hb))
      as (retVal2 & g2 & item2 & Hrun2 & Ht2).
    exists retVal2, g2, item2. split; [exact Hrun2|congruence].
Qed.

Lemma refine_items_returns (img : Mat) (minScore : Q)
    (tempItems : list TemplateBowtieItem) :
  matchTemplate_maps_wf ->
  forall g, templates_built g ->
            exists res, refine_items tempItems g img minScore = Some res.
Proof.
  intros Hwf. induction tempItems as [|item rest IH]; intros g Hb; cbn [refine_items].
  - eauto.
  - destruct (refine_templates_returns img minScore (Z.to_nat TEMPLATE_COUNT) Hwf 0 g item Hb)
      as (retVal & g1 & item1 & Hrun & Ht).
    rewrite Hrun. cbn [bind]. destruct (GC_STATUS_eqb GC_OK retVal); [|eauto].
    apply IH. apply (templates_built_same g); [|exact Hb]. exact Ht.
Qed.

Lemma FindMoveTargets_returns (g : FindCalibGrid) (img : Mat) (ptLeft ptRight : Point2d) :
  templates_built g -> matchTemplate_maps_wf ->
  exists res, FindMoveTargets g img ptLeft ptRight = Some res.
Proof.
  intros Hb Hwf. unfold FindMoveTargets.
  destruct (isnil (m_templates g)); [eauto|].
  destruct (Mat_empty img); [eauto|].
  destruct (FindMoveTargets_scratch g img) as [scratch|]; [|eauto].
  destruct (MatchTemplate_returns (with_matchItems g []) (Int.shr TEMPLATE_COUNT 1)
              scratch TEMPLATE_MATCH_MIN_SCORE 2 Hb) as (retVal1 & g1 & Hrun1 & Ht1).
  rewrite Hrun1. cbn [bind].
  assert (Hb1 : templates_built (with_matchItems g1 [])).
  { apply (templates_built_same g); [|exact Hb]. exact Ht1. }
  assert (Hstep : exists res,
             (if GC_STATUS_eqb GC_OK retVal1
              then refine_items (m_matchItems g1) (with_matchItems g1 []) scratch (1 # 2)
              else Some (retVal1, g1)) = Some res).
  { destruct (GC_STATUS_eqb GC_OK retVal1); [|eauto].
    apply refine_items_returns; assumption. }
  destruct Hstep as [[retVal2 g2] Hrun2]. rewrite Hrun2. cbn [bind].
  destruct (m_matchItems g2) as [|item0 [|item1 [|item2 rest]]]; eauto.
  destruct (Qlt_bool (d_x (pt item0)) (d_x (pt item1))); eauto.
Qed.


End MoveTargets.




(** Found right-then-left, reported left-then-right: in [demo_img_mirrored]
    the brighter blob is the right one. *)
Example FindMoveTargets_mirrored :
  option_map (fun r => (fst (fst (fst r)), map pt (m_matchItems (snd (fst (fst r)))),
                        snd (fst r), snd r))
    (FindMoveTargets demo_grid demo_img_mirrored (P2 0 0) (P2 0 0))
  = Some (GC_OK,
          [ mkPoint2d (76 # 2) (24 # 2); mkPoint2d (20 # 2) (20 # 2) ],
          mkPoint2d (20 # 2) (20 # 2), mkPoint2d (76 # 2) (24 # 2)).
Proof. vm_compute. reflexivity. Qed.

(** ** Sorting *)

Section Sorting.
Context {A : Type}.

Lemma sort_insert_perm (comp : A -> A -> bool) (a : A) (l : list A) :
  Permutation (sort_insert comp a l) (a :: l).
Proof.
  induction l as [|b l IH]; simpl.
  - apply Permutation_refl.
  - destruct (comp b a).
    + etransitivity; [apply perm_skip, IH|]. apply perm_swap.
    + apply Permutation_refl.
Qed.

Lemma std_sort_perm (comp : A -> A -> bool) (l : list A) :
  Permutation (std_sort comp l) l.
Proof.
  induction l as [|a l IH]; simpl.
  - apply perm_nil.
  - etransitivity; [apply sort_insert_perm|]. apply perm_skip, IH.
Qed.

Lemma std_sort_length (comp : A -> A -> bool) (l : list A) :
  List.length (std_sort comp l) = List.length l.
Proof. apply Permutation_length, std_sort_perm. Qed.

Variable key : A -> Q.
Let key_lt (a b : A) : bool := Qlt_bool (key a) (key b).
Let key_le (a b : A) : Prop := (key a <= key b)%Q.

Lemma sort_insert_sorted (a : A) (l : list A) :
  StronglySorted key_le l -> StronglySorted key_le (sort_insert key_lt a l).
Proof.
  induction l as [|b l IH]; intros Hs; simpl.
  - constructor; [constructor|constructor].
  - inversion Hs as [|? ? Hl Hb]; subst.
    destruct (key_lt b a) eqn:Hlt; unfold key_lt in Hlt.
    + apply Qlt_bool_iff in Hlt. constructor; [apply IH, Hl|].
      rewrite Forall_forall. intros c Hc.
      apply (Permutation_in _ (sort_insert_perm key_lt a l)) in Hc.
      destruct Hc as [<-|Hc].
      * apply Qlt_le_weak, Hlt.
      * rewrite Forall_forall in Hb. apply Hb, Hc.
    + apply Qlt_bool_false_iff in Hlt. constructor; [exact Hs|].
      constructor; [exact Hlt|].
      rewrite Forall_forall in Hb |- *. intros c Hc.
      unfold key_le. eapply Qle_trans; [exact Hlt|apply Hb, Hc].
Qed.

Lemma std_sort_sorted (l : list A) : StronglySorted key_le (std_sort key_lt l).
Proof.
  induction l as [|a l IH]; simpl.
  - constructor.
  - apply sort_insert_sorted, IH.
Qed.

Lemma StronglySorted_nth (R : A -> A -> Prop) (l : list A) :
  StronglySorted R l ->
  forall (i j : nat) (a b : A),
    (i < j)%nat -> nth_error l i = Some a -> nth_error l j = Some b -> R a b.
Proof.
  induction 1 as [|x l Hs IH Hx]; intros i j a b Hij Ha Hb.
  - destruct i; discriminate.
  - destruct j as [|j]; [lia|]. destruct i as [|i]; simpl in Ha, Hb.
    + injection Ha as <-. rewrite Forall_forall in Hx.
      apply Hx. eapply nth_error_In, Hb.
    + apply (IH i j); [lia|assumption|assumption].
Qed.

Lemma In_chunk (l : list A) (start len : nat) (a : A) :
  In a (firstn len (skipn start l)) ->
  exists k, (start <= k < start + len)%nat /\ nth_error l k = Some a.
Proof.
  intros Hin. apply In_nth_error in Hin. destruct Hin as [n Hn].
  assert (n < len)%nat.
  { destruct (Nat.lt_ge_cases n len) as [H|H]; [exact H|].
    rewrite nth_error_firstn in Hn.
    destruct (Nat.ltb_spec n len); [lia|discriminate]. }
  rewrite nth_error_firstn in Hn. destruct (Nat.ltb_spec n len); [|lia].
  rewrite nth_error_skipn in Hn. exists (start + n)%nat. split; [lia|exact Hn].
Qed.

Lemma firstn_plus (l : list A) (a b : nat) :
  firstn (a + b) l = firstn a l ++ firstn b (skipn a l).
Proof.
  revert l. induction a as [|a IH]; intros l; simpl.
  - reflexivity.
  - destruct l as [|x l]; simpl.
    + rewrite firstn_nil. reflexivity.
    + f_equal. apply IH.
Qed.

Lemma concat_chunks (l : list A) (C R : nat) :
  List.concat (map (fun i => firstn C (skipn (i * C) l)) (seq 0 R)) = firstn (R * C) l.
Proof.
  induction R as [|R IH].
  - reflexivity.
  - rewrite seq_S, map_app, concat_app, IH. simpl. rewrite app_nil_r.
    replace (C + R * C)%nat with (R * C + C)%nat by lia.
    symmetry. apply firstn_plus.
Qed.

End Sorting.

(** ** SortPoints *)

Section SortPointsGrid.
Context {gc : GcTypes}.

Lemma Permutation_concat_map {A B} (f h : A -> list B) (l : list A) :
  (forall a, Permutation (f a) (h a)) ->
  Permutation (List.concat (map f l)) (List.concat (map h l)).
Proof.
  intros Hfh. induction l as [|a l IH]; simpl.
  - apply perm_nil.
  - apply Permutation_app; [apply Hfh|exact IH].
Qed.

Lemma SortPoints_rows_nth (items : list TemplateBowtieItem) (i : nat)
    (row : list TemplateBowtieItem) :
  nth_error (SortPoints_rows items) i = Some row ->
  (i < CALIB_POINT_ROW_COUNT)%nat /\ row = SortPoints_row items i.
Proof.
  unfold SortPoints_rows. rewrite nth_error_map, nth_error_seq.
  destruct (Nat.ltb_spec i CALIB_POINT_ROW_COUNT) as [Hlt|Hge]; [|discriminate].
  simpl. intros Hrow. injection Hrow as <-. split; [assumption|reflexivity].
Qed.

Lemma SortPoints_row_length (items : list TemplateBowtieItem) (i : nat) :
  List.length items = (CALIB_POINT_ROW_COUNT * CALIB_POINT_COL_COUNT)%nat ->
  (i < CALIB_POINT_ROW_COUNT)%nat ->
  List.length (SortPoints_row items i) = CALIB_POINT_COL_COUNT.
Proof.
  intros Hlen Hi. unfold SortPoints_row.
  rewrite std_sort_length, length_firstn, length_skipn, Hlen. nia.
Qed.

Lemma SortPoints_rows_perm (items : list TemplateBowtieItem) :
  List.length items = (CALIB_POINT_ROW_COUNT * CALIB_POINT_COL_COUNT)%nat ->
  Permutation (List.concat (SortPoints_rows items)) items.
Proof.
  intros Hlen. unfold SortPoints_rows, SortPoints_row.
  etransitivity.
  - apply Permutation_concat_map
      with (h := fun i => firstn CALIB_POINT_COL_COUNT
                            (skipn (i * CALIB_POINT_COL_COUNT) items)).
    intros i. apply std_sort_perm.
  - rewrite concat_chunks, <- Hlen, firstn_all. apply Permutation_refl.
Qed.

Lemma SortPoints_rows_ascending (items : list TemplateBowtieItem) :
  StronglySorted y_le items -> rows_ascending (SortPoints_rows items).
Proof.
  intros Hs i j ri rj a b Hij Hi Hj Ha Hb.
  apply SortPoints_rows_nth in Hi. destruct Hi as [_ ->].
  apply SortPoints_rows_nth in Hj. destruct Hj as [_ ->].
  unfold SortPoints_row in Ha, Hb.
  apply (Permutation_in _ (std_sort_perm by_x _)) in Ha.
  apply (Permutation_in _ (std_sort_perm by_x _)) in Hb.
  apply In_chunk in Ha. destruct Ha as (ka & Hka & Hna).
  apply In_chunk in Hb. destruct Hb as (kb & Hkb & Hnb).
  apply (StronglySorted_nth y_le items Hs ka kb); [nia|assumption|assumption].
Qed.

(** C6 (amended).  With fewer than rows x columns candidates [SortPoints]
    returns [GC_ERR] and changes nothing.  Otherwise it returns [GC_OK] with a
    grid of [CALIB_POINT_ROW_COUNT] rows of [CALIB_POINT_COL_COUNT]
    candidates each, all taken from the candidate list; within a row the
    x-coordinates never decrease, and no candidate of a row is lower (in y)
    than a candidate of a later row. *)
Theorem SortPoints_row_major_grid (g : FindCalibGrid) (sizeSearchImage : Size) :
  ((List.length (m_matchItems g) < CALIB_POINT_ROW_COUNT * CALIB_POINT_COL_COUNT)%nat ->
   SortPoints g sizeSearchImage = Some (GC_ERR, g))
  /\ ((0 < CALIB_POINT_ROW_COUNT)%nat -> (0 < CALIB_POINT_COL_COUNT)%nat ->
      (CALIB_POINT_ROW_COUNT * CALIB_POINT_COL_COUNT <= List.length (m_matchItems g))%nat ->
      exists g',
        SortPoints g sizeSearchImage = Some (GC_OK, g')
        /\ List.length (m_itemArray g') = CALIB_POINT_ROW_COUNT
        /\ Forall (fun row => List.length row = CALIB_POINT_COL_COUNT) (m_itemArray g')
        /\ (exists rest, Permutation (List.concat (m_itemArray g') ++ rest) (m_matchItems g))
        /\ Forall (StronglySorted x_le) (m_itemArray g')
        /\ rows_ascending (m_itemArray g')).
Proof.
  split.
  - intros Hlt. unfold SortPoints.
    destruct (Nat.ltb_spec (List.length (m_matchItems g))
                (CALIB_POINT_ROW_COUNT * CALIB_POINT_COL_COUNT)); [reflexivity|lia].
  - intros HR HC Hge. unfold SortPoints.
    destruct (Nat.ltb_spec (List.length (m_matchItems g))
                (CALIB_POINT_ROW_COUNT * CALIB_POINT_COL_COUNT)); [lia|].
    cbn [m_matchItems with_matchItems with_itemArray].
    set (n := (CALIB_POINT_ROW_COUNT * CALIB_POINT_COL_COUNT)%nat) in *.
    set (kept := firstn n (std_sort by_score (firstn n (m_matchItems g)))).
    set (ys := std_sort by_y kept).
    assert (Hkeptlen : List.length kept = n).
    { unfold kept. rewrite length_firstn, std_sort_length, length_firstn. lia. }
    assert (Hkept : Permutation kept (firstn n (m_matchItems g))).
    { unfold kept. rewrite firstn_all2.
      - apply std_sort_perm.
      - rewrite std_sort_length, length_firstn. lia. }
    assert (Hyslen : List.length ys = n).
    { unfold ys. rewrite std_sort_length. exact Hkeptlen. }
    assert (Hys : StronglySorted y_le ys).
    { unfold ys. apply (std_sort_sorted (fun a => d_y (pt a))). }
    pose proof (SortPoints_rows_perm ys Hyslen) as Hperm.
    assert (Hrowlen : forall i row, nth_error (SortPoints_rows ys) i = Some row ->
                                    List.length row = CALIB_POINT_COL_COUNT).
    { intros i row Hi. apply SortPoints_rows_nth in Hi. destruct Hi as [Hi ->].
      apply SortPoints_row_length; assumption. }
    unfold SortPoints_rects. cbn [m_itemArray with_itemArray].
    destruct (nth_error (SortPoints_rows ys) 0) as [row0|] eqn:Hrow0.
    2:{ apply nth_error_None in Hrow0. unfold SortPoints_rows in Hrow0.
        rewrite length_map, length_seq in Hrow0. lia. }
    pose proof (Hrowlen _ _ Hrow0) as Hlen0. cbn [bind].
    destruct (nth_error row0 (CALIB_POINT_COL_COUNT - 1)) as [last0|] eqn:Hlast.
    2:{ apply nth_error_None in Hlast. lia. }
    destruct (nth_error row0 0) as [first0|] eqn:Hfirst.
    2:{ apply nth_error_None in Hfirst. lia. }
    cbn [bind]. eexists. split; [reflexivity|].
    cbn [m_itemArray with_rectRight with_rectLeft with_itemArray].
    repeat split.
    + unfold SortPoints_rows. rewrite length_map, length_seq. reflexivity.
    + rewrite Forall_forall. intros row Hin.
      apply In_nth_error in Hin. destruct Hin as [i Hi]. apply (Hrowlen i), Hi.
    + exists (skipn n (m_matchItems g)).
      rewrite <- (firstn_skipn n (m_matchItems g)) at 2.
      apply Permutation_app_tail.
      etransitivity; [exact Hperm|]. etransitivity; [apply std_sort_perm|exact Hkept].
    + rewrite Forall_forall. intros row Hin.
      apply In_nth_error in Hin. destruct Hin as [i Hi].
      apply SortPoints_rows_nth in Hi. destruct Hi as [_ ->].
      unfold SortPoints_row. apply (std_sort_sorted (fun a => d_x (pt a))).
    + apply SortPoints_rows_ascending, Hys.
Qed.

End SortPointsGrid.

Lemma SortPoints_row_major_grid_witness :
  (0 < CALIB_POINT_ROW_COUNT)%nat /\ (0 < CALIB_POINT_COL_COUNT)%nat
  /\ (CALIB_POINT_ROW_COUNT * CALIB_POINT_COL_COUNT
      <= List.length (m_matchItems (demo_grid_with demo_candidates)))%nat
  /\ exists g',
       SortPoints (demo_grid_with demo_candidates) (mkSize 200 200) = Some (GC_OK, g')
       /\ Forall (StronglySorted x_le) (m_itemArray g')
       /\ rows_ascending (m_itemArray g').
Proof.
  assert (H1 : (0 < CALIB_POINT_ROW_COUNT)%nat) by (vm_compute; lia).
  assert (H2 : (0 < CALIB_POINT_COL_COUNT)%nat) by (vm_compute; lia).
  assert (H3 : (CALIB_POINT_ROW_COUNT * CALIB_POINT_COL_COUNT
                <= List.length (m_matchItems (demo_grid_with demo_candidates)))%nat)
    by (vm_compute; lia).
  split; [exact H1|]. split; [exact H2|]. split; [exact H3|].
  destruct (SortPoints_row_major_grid (demo_grid_with demo_candidates) (mkSize 200 200))
    as [_ Hok].
  destruct (Hok H1 H2 H3) as (g' & Hrun & _ & _ & _ & Hx & Hy).
  exists g'. split; [exact Hrun|]. split; [exact Hx|exact Hy].
Defined.

(** C6, as stated, fails on "strictly increasing": of [demo_candidates] the
    two highest are the false match at (20, 10) and the marker at (20, 40);
    they make up the first row of the grid, whose x-coordinates are equal. *)
Lemma SortPoints_row_not_strictly_increasing :
  option_map (fun r => (fst r, map (map pt) (m_itemArray (snd r))))
    (SortPoints (demo_grid_with demo_candidates) (mkSize 200 200))
  = Some (GC_OK,
          [ [ P2 20 10; P2 20 40 ]; [ P2 20 70; P2 60 41 ];
            [ P2 20 100; P2 60 71 ]; [ P2 20 130; P2 60 101 ] ])
  /\ ~ x_lt (item_at 20 10 (5 # 10)) (item_at 20 40 (9 # 10)).
Proof.
  split; [vm_compute; reflexivity|]. unfold x_lt. simpl. apply Qlt_irrefl.
Qed.

(** The candidates [SortPoints] keeps are the first rows x columns of the
    list, whatever their scores: of [demo_candidates_9] the last candidate,
    with the best score, is left out, and the first, with the worst, is in
    the grid. *)
Example SortPoints_keeps_the_first_candidates :
  option_map (fun r => (fst r, map (map pt) (m_itemArray (snd r))))
    (SortPoints (demo_grid_with demo_candidates_9) (mkSize 200 200))
  = Some (GC_OK,
          [ [ P2 21 40; P2 60 42 ]; [ P2 20 70; P2 60 72 ];
            [ P2 20 100; P2 60 102 ]; [ P2 20 130; P2 60 132 ] ]).
Proof. vm_compute. reflexivity. Qed.

(** ** CalcSearchSwaths *)

Section Swaths.

Lemma round_half_even_comp (a b : Q) : (a == b)%Q -> round_half_even a = round_half_even b.
Proof.
  intros H. unfold round_half_even. rewrite (Qfloor_comp a b H).
  assert (Hc : ((a - inject_Z (Qfloor b)) ?= 1 # 2)%Q = ((b - inject_Z (Qfloor b)) ?= 1 # 2)%Q).
  { apply Qcompare_comp; [rewrite H; reflexivity|reflexivity]. }
  rewrite Hc. reflexivity.
Qed.

Lemma cvRound_comp (a b : Q) : (a == b)%Q -> cvRound a = cvRound b.
Proof. intros H. unfold cvRound. rewrite (round_half_even_comp a b H). reflexivity. Qed.



Lemma SizeT_sub_exact (a b : Z) : 0 <= a - b <= Int.max_int -> SizeT.sub a b = a - b.
Proof.
  unfold SizeT.sub, SizeT.wrap, Int.max_int. intros H. apply Z.mod_small. lia.
Qed.

(** On a valid grid the four corner reads of [CalcSearchSwaths] are inside
    the point vector. *)
Lemma valid_grid_corners (c : Calib) :
  valid_grid c ->
  let pp := pixelPoints (m_model c) in
  let w := width (gridSize (m_model c)) in
  let h := height (gridSize (m_model c)) in
  SizeT.sub (size_of_int w) 1 = w - 1
  /\ SizeT.sub (size_of_int (Int.mul w h)) 1 = w * h - 1
  /\ size_of_int (Int.mul w (Int.sub h 1)) = w * (h - 1)
  /\ 0 <= w - 1 < vsize pp /\ 0 <= w * h - 1 < vsize pp /\ 0 <= w * (h - 1) < vsize pp.
Proof.
  intros (Hg & Hwp & Hw & Hh). pose proof Hg as (Hne & Hsz & Hw0 & Hmax).
  cbv zeta. set (w := width (gridSize (m_model c))) in *.
  set (h := height (gridSize (m_model c))) in *.
  set (n := vsize (pixelPoints (m_model c))) in *.
  unfold Int.max_int in Hmax.
  assert (Hwh : w * 1 <= w * (h - 1)) by (apply Z.mul_le_mono_nonneg_l; lia).
  assert (Hwh' : w * (h - 1) = n - w) by lia.
  assert (Hmul : Int.mul w h = n).
  { rewrite Int_mul_exact; [lia|].
    unfold Int.in_range, Int.min_int, Int.max_int. lia. }
  assert (Hsub : Int.sub h 1 = h - 1).
  { unfold Int.sub. apply Int_wrap_in_range.
    unfold Int.in_range, Int.min_int, Int.max_int.
    assert (1 * h <= w * h) by (apply Z.mul_le_mono_nonneg_r; lia). lia. }
  assert (Hmul' : Int.mul w (h - 1) = n - w).
  { rewrite Int_mul_exact; [lia|].
    unfold Int.in_range, Int.min_int, Int.max_int. lia. }
  rewrite Hmul, Hsub, Hmul'.
  rewrite !size_of_int_exact by (unfold Int.max_int; lia).
  rewrite !SizeT_sub_exact by (unfold Int.max_int; lia).
  repeat split; lia.
Qed.

End Swaths.

Section SwathsClaim.

Lemma valid_grid_not_invalid (c : Calib) :
  valid_grid c -> CalcSearchSwaths_invalid c = false.
Proof.
  intros (Hg & Hwp & Hw & Hh). destruct Hg as (Hne & _).
  unfold CalcSearchSwaths_invalid.
  destruct (pixelPoints (m_model c)) as [|p pp] eqn:Epp; [congruence|].
  destruct (worldPoints (m_model c)) as [|q wp] eqn:Ewp.
  { unfold vsize in Hwp. simpl in Hwp. lia. }
  cbn [isnil orb]. rewrite Hwp, Z.eqb_refl. cbn [negb orb].
  destruct (Z.ltb_spec (width (gridSize (m_model c))) 2); [lia|].
  destruct (Z.ltb_spec (height (gridSize (m_model c))) 4); [lia|]. reflexivity.
Qed.


End SwathsClaim.

Lemma demo_calib_valid_grid : valid_grid demo_calib.
Proof.
  unfold valid_grid, grid_sized. repeat split; vm_compute; congruence.
Qed.



(** ** Save and Load *)

(** C7, as stated, fails on the search lines.  The grid of
    [roundtrip_pixelPts] is calibrated, saved and loaded.  [Save] writes the
    points with three decimals, so (10.0004, 164) and (41.4994, 164) come
    back as (10.000, 164) and (41.499, 164); [Load] recomputes the search
    lines from the points it has read, and the bottom end of the first line
    moves from x = 21 to x = 20. *)
Lemma Save_Load_moves_search_lines :
  Calibrate Calib_new roundtrip_pixelPts demo_worldPts (mkSize 2 4) demo_imgSize
    Mat_new Mat_new false false false = Some (GC_OK, roundtrip_calib, Mat_new)
  /\ fst (Save fs_empty roundtrip_calib "cal.json") = GC_OK
  /\ Load roundtrip_fs Calib_new "cal.json" = Some (GC_OK, roundtrip_loaded)
  /\ nth_error (pixelPoints (m_model roundtrip_calib)) 6
     = Some (mkPoint2d (100004 # 10000) 164)
  /\ option_map (fun p => (Qred (d_x p), Qred (d_y p)))
       (nth_error (pixelPoints (m_model roundtrip_loaded)) 6)
     = Some (10%Q, 164%Q)
  /\ nth_error (searchLines (m_model roundtrip_calib)) 0
     = Some (mkLineEnds (mkPoint 20 95) (mkPoint 21 179))
  /\ nth_error (searchLines (m_model roundtrip_loaded)) 0
     = Some (mkLineEnds (mkPoint 20 95) (mkPoint 20 179))
  /\ searchLines (m_model roundtrip_loaded) <> searchLines (m_model roundtrip_calib).
Proof.
  split; [vm_compute; reflexivity|]. split; [vm_compute; reflexivity|].
  split; [vm_compute; reflexivity|]. split; [reflexivity|].
  split; [vm_compute; reflexivity|]. split; [reflexivity|]. split; [reflexivity|].
  intros H. apply (f_equal (fun l => nth_error l 0)) in H. vm_compute in H. discriminate H.
Qed.

Section RoundTrip.
Context {cv : OpenCV} {gc : GcTypes} {ov : CalibOverlay}.

Lemma round_half_even_close (q : Q) :
  (Qabs (inject_Z (round_half_even q) - q) <= 1 # 2)%Q.
Proof.
  unfold round_half_even.
  pose proof (Qfloor_le q) as Hlo. pose proof (Qlt_floor q) as Hhi.
  rewrite inject_Z_plus in Hhi. change (inject_Z 1) with 1%Q in Hhi.
  apply Qabs_Qle_condition.
  destruct (Qcompare_spec (q - inject_Z (Qfloor q)) (1 # 2)) as [He|Hl|Hg].
  - destruct (Z.even (Qfloor q)).
    + split; lra.
    + rewrite inject_Z_plus. change (inject_Z 1) with 1%Q. split; lra.
  - split; lra.
  - rewrite inject_Z_plus. change (inject_Z 1) with 1%Q. split; lra.
Qed.

Lemma fixed3_close (q : Q) : (Qabs (fixed3 q - q) <= 1 # 2000)%Q.
Proof.
  unfold fixed3. pose proof (round_half_even_close (q * 1000)) as H.
  apply Qabs_Qle_condition in H. apply Qabs_Qle_condition.
  set (r := inject_Z (round_half_even (q * 1000))) in *.
  assert (Hdiv : (r / 1000 == r * (1 # 1000))%Q) by (field).
  rewrite Hdiv. split; lra.
Qed.

Lemma fixed3_point_close (p : Point2d) : close3 p (fixed3_point p).
Proof. split; apply fixed3_close. Qed.

Lemma map_combine_fst {A B C} (f : A -> C) (l1 : list A) (l2 : list B) :
  List.length l1 = List.length l2 ->
  map (fun ab => f (fst ab)) (combine l1 l2) = map f l1.
Proof.
  revert l2. induction l1 as [|a l1 IH]; intros [|b l2] Hlen; simpl in *;
    try reflexivity; try discriminate.
  f_equal. apply IH. lia.
Qed.

Lemma map_combine_snd {A B C} (f : B -> C) (l1 : list A) (l2 : list B) :
  List.length l1 = List.length l2 ->
  map (fun ab => f (snd ab)) (combine l1 l2) = map f l2.
Proof.
  revert l2. induction l1 as [|a l1 IH]; intros [|b l2] Hlen; simpl in *;
    try reflexivity; try discriminate.
  f_equal. apply IH. lia.
Qed.

Lemma swath_geometry_ext (c1 c2 : Calib) :
  pixelPoints (m_model c1) = pixelPoints (m_model c2) ->
  gridSize (m_model c1) = gridSize (m_model c2) ->
  m_imgSize c1 = m_imgSize c2 ->
  swath_geometry c1 = swath_geometry c2.
Proof. intros H1 H2 H3. unfold swath_geometry. rewrite H1, H2, H3. reflexivity. Qed.

(** On a valid grid [CalcSearchSwaths] stores the derived search lines. *)
Lemma CalcSearchSwaths_valid_grid (c : Calib) :
  valid_grid c ->
  exists lines,
    derived_searchLines c = Some lines
    /\ CalcSearchSwaths c = Some (GC_OK, with_model c (set_searchLines (m_model c) lines)).
Proof.
  intros Hv. pose proof (valid_grid_corners c Hv) as Hc. cbv zeta in Hc.
  destruct Hc as (E1 & E2 & E3 & R1 & R2 & R3).
  destruct (vat_in_range (pixelPoints (m_model c)) 0) as [p0 Hp0]; [lia|].
  destruct (vat_in_range (pixelPoints (m_model c)) _ R1) as [pTopRgt HpTR].
  destruct (vat_in_range (pixelPoints (m_model c)) _ R2) as [pBotRgt HpBR].
  destruct (vat_in_range (pixelPoints (m_model c)) _ R3) as [pBotLft HpBL].
  unfold CalcSearchSwaths, derived_searchLines.
  rewrite (valid_grid_not_invalid c Hv).
  unfold swath_geometry. rewrite E1, E2, E3, HpTR, Hp0, HpBR, HpBL. cbn [bind].
  eexists. split; reflexivity.
Qed.

(** A call of [Calibrate] with accepted arguments, a grid of at least 2 x 4
    and nothing to draw: what it returns and what it leaves in the object. *)
Lemma Calibrate_accepted (c : Calib) (pixelPts worldPts : list Point2d)
    (grid imgSize : Size) (imgOut : Mat) (drawCalib drawMoveROIs drawSearchROI : bool) :
  pixelPts <> [] ->
  vsize pixelPts = vsize worldPts ->
  vsize pixelPts = width grid * height grid ->
  vsize pixelPts <= Int.max_int ->
  2 <= width grid -> 4 <= height grid ->
  exists retVal c',
    Calibrate c pixelPts worldPts grid imgSize Mat_new imgOut
      drawCalib drawMoveROIs drawSearchROI = Some (retVal, c', imgOut)
    /\ pixelPoints (m_model c') = pixelPts
    /\ worldPoints (m_model c') = worldPts
    /\ gridSize (m_model c') = grid
    /\ m_imgSize c' = imgSize
    /\ (retVal = GC_OK \/ retVal = GC_EXCEPT)
    /\ (retVal = GC_OK <->
        (findHomography pixelPts worldPts <> None
         /\ findHomography worldPts pixelPts <> None))
    /\ (retVal = GC_OK -> derived_searchLines c' = Some (searchLines (m_model c'))).
Proof.
  intros Hne Hwp Hsz Hmax Hw Hh.
  assert (Hinv : Calibrate_invalid pixelPts worldPts grid = false).
  { destruct (Calibrate_invalid pixelPts worldPts grid) eqn:E; [|reflexivity].
    apply Calibrate_invalid_iff in E. exfalso.
    destruct E as [E|[E|[E|[E|E]]]]; try congruence; try lia.
    - subst worldPts. destruct pixelPts; [congruence|]. unfold vsize in Hwp.
      simpl in Hwp. lia.
    - apply E. rewrite Int_mul_exact, int_of_size_exact.
      + lia.
      + unfold vsize in *. lia.
      + rewrite <- Hsz. unfold Int.in_range, Int.min_int, Int.max_int in *.
        unfold vsize in *. lia. }
  unfold Calibrate. rewrite Hinv.
  set (c1 := Calibrate_store c pixelPts worldPts grid imgSize).
  assert (Epp : pixelPoints (m_model c1) = pixelPts) by reflexivity.
  assert (Ewp : worldPoints (m_model c1) = worldPts) by reflexivity.
  rewrite Epp, Ewp.
  destruct (findHomography pixelPts worldPts) as [h1|] eqn:H1.
  2:{ exists GC_EXCEPT, c1. repeat split; try reflexivity; try (right; reflexivity);
        try discriminate. intros [Hc _]. congruence. }
  cbn [m_model with_pixToWorld]. rewrite Epp, Ewp.
  destruct (findHomography worldPts pixelPts) as [h2|] eqn:H2.
  2:{ exists GC_EXCEPT. eexists. split; [reflexivity|].
      repeat split; try reflexivity; try (right; reflexivity); try discriminate.
      intros [_ Hc]. congruence. }
  set (c3 := with_worldToPix (with_pixToWorld c1 h1) h2).
  assert (Hv : valid_grid c3).
  { unfold valid_grid, grid_sized. cbn. repeat split; assumption || lia. }
  destruct (CalcSearchSwaths_valid_grid c3 Hv) as (lines & Hlines & Hrun).
  rewrite Hrun. cbn [bind GC_STATUS_eqb].
  pose proof (valid_grid_corners c3 Hv) as Hc. cbv zeta in Hc.
  destruct Hc as (_ & _ & _ & R1 & _ & _).
  unfold Calibrate_moveRegions.
  cbn [m_model with_model pixelPoints set_searchLines set_moveSearchRegionLft
       gridSize].
  change (pixelPoints (m_model c3)) with pixelPts.
  change (gridSize (m_model c3)) with grid.
  change (pixelPoints (m_model c3)) with pixelPts in R1.
  change (gridSize (m_model c3)) with grid in R1.
  destruct (vat_in_range pixelPts 0) as [p0 Hp0]; [lia|]. rewrite Hp0. cbn [bind].
  assert (Hidx : size_of_int (Int.sub (width grid) 1) = width grid - 1).
  { unfold Int.sub. rewrite Int_wrap_in_range.
    - apply size_of_int_exact. lia.
    - unfold Int.in_range, Int.min_int, Int.max_int in *. lia. }
  rewrite Hidx. destruct (vat_in_range pixelPts _ R1) as [pIdx HpIdx].
  rewrite HpIdx. cbn [bind].
  unfold Calibrate_draw. change (Mat_empty Mat_new) with true.
  rewrite andb_false_r.
  exists GC_OK. eexists. split; [reflexivity|].
  repeat split; try reflexivity; try (left; reflexivity); try congruence.
  intros _.
  cbn [searchLines m_model with_model set_moveSearchRegionRgt
       set_moveSearchRegionLft set_searchLines].
  rewrite <- Hlines. unfold derived_searchLines.
  erewrite swath_geometry_ext; [reflexivity|reflexivity|reflexivity|reflexivity].
Qed.

End RoundTrip.

Section SwathInvariance.

Lemma Qlt_bool_comp (a a' b b' : Q) :
  (a == a')%Q -> (b == b')%Q -> Qlt_bool a b = Qlt_bool a' b'.
Proof.
  intros Ha Hb. destruct (Qlt_bool a' b') eqn:E.
  - apply Qlt_bool_iff. apply Qlt_bool_iff in E. rewrite Ha, Hb. exact E.
  - apply Qlt_bool_false_iff. apply Qlt_bool_false_iff in E. rewrite Ha, Hb. exact E.
Qed.

Lemma fmin_comp (a a' b b' : Q) :
  (a == a')%Q -> (b == b')%Q -> (fmin a b == fmin a' b')%Q.
Proof.
  intros Ha Hb. unfold fmin. rewrite (Qlt_bool_comp b b' a a' Hb Ha).
  destruct (Qlt_bool b' a'); assumption.
Qed.

Lemma vat_Forall2 (l1 l2 : list Point2d) (i : Z) :
  Forall2 point_eq l1 l2 ->
  match vat l1 i, vat l2 i with
  | Some p, Some q => point_eq p q
  | None, None => True
  | _, _ => False
  end.
Proof.
  intros H. unfold vat. destruct (0 <=? i); [|exact I].
  generalize (Z.to_nat i). clear i. induction H as [|p q l1 l2 Hpq H IH]; intros n.
  - destruct n; exact I.
  - destruct n as [|n]; simpl; [exact Hpq|apply IH].
Qed.

Lemma swath_geometry_comp (c1 c2 : Calib) :
  gridSize (m_model c1) = gridSize (m_model c2) ->
  m_imgSize c1 = m_imgSize c2 ->
  Forall2 point_eq (pixelPoints (m_model c1)) (pixelPoints (m_model c2)) ->
  match swath_geometry c1, swath_geometry c2 with
  | Some g1, Some g2 => geometry_eq g1 g2
  | None, None => True
  | _, _ => False
  end.
Proof.
  intros Hg Hs Hpp. unfold swath_geometry. rewrite Hg, Hs.
  set (w := width (gridSize (m_model c2))). set (h := height (gridSize (m_model c2))).
  pose proof (vat_Forall2 _ _ (SizeT.sub (size_of_int w) 1) Hpp) as H1.
  pose proof (vat_Forall2 _ _ 0 Hpp) as H2.
  pose proof (vat_Forall2 _ _ (SizeT.sub (size_of_int (Int.mul w h)) 1) Hpp) as H3.
  pose proof (vat_Forall2 _ _ (size_of_int (Int.mul w (Int.sub h 1))) Hpp) as H4.
  destruct (vat (pixelPoints (m_model c1)) (SizeT.sub (size_of_int w) 1)) as [a1|],
           (vat (pixelPoints (m_model c2)) (SizeT.sub (size_of_int w) 1)) as [a2|];
    try contradiction; cbn [bind]; [|exact I].
  destruct (vat (pixelPoints (m_model c1)) 0) as [b1|],
           (vat (pixelPoints (m_model c2)) 0) as [b2|];
    try contradiction; cbn [bind]; [|exact I].
  destruct (vat (pixelPoints (m_model c1)) (SizeT.sub (size_of_int (Int.mul w h)) 1))
    as [d1|],
           (vat (pixelPoints (m_model c2)) (SizeT.sub (size_of_int (Int.mul w h)) 1))
    as [d2|];
    try contradiction; cbn [bind]; [|exact I].
  destruct (vat (pixelPoints (m_model c1)) (size_of_int (Int.mul w (Int.sub h 1))))
    as [e1|],
           (vat (pixelPoints (m_model c2)) (size_of_int (Int.mul w (Int.sub h 1))))
    as [e2|];
    try contradiction; cbn [bind]; [|exact I].
  destruct H1 as [A1 A2], H2 as [B1 B2], H3 as [D1 D2], H4 as [E1 E2].
  assert (Hwt : cvRound ((d_x a1 - d_x b1) / 3) = cvRound ((d_x a2 - d_x b2) / 3)).
  { apply cvRound_comp. rewrite A1, B1. reflexivity. }
  assert (Hht : cvRound ((d_y e1 - d_y b1) * (5 # 4))
                = cvRound ((d_y e2 - d_y b2) * (5 # 4))).
  { apply cvRound_comp. rewrite E2, B2. reflexivity. }
  unfold geometry_eq.
  cbn [sw_widthTop sw_topLftX sw_topLftY sw_botLftX sw_botLftY sw_xInc sw_xIncBot sw_yInc].
  rewrite Hwt, Hht.
  split; [reflexivity|]. split; [rewrite B1; reflexivity|].
  split; [rewrite B2; reflexivity|]. split; [rewrite E1, D1; reflexivity|].
  split; [apply fmin_comp; [rewrite E2; reflexivity|reflexivity]|].
  split; [reflexivity|]. split; [rewrite D1, E1; reflexivity|].
  rewrite A2, B2. reflexivity.
Qed.

Lemma swath_loop_comp (n : nat) :
  forall (t1 t2 b1 b2 : Point2d) (xi1 xi2 xb1 xb2 yi1 yi2 : Q),
    point_eq t1 t2 -> point_eq b1 b2 ->
    (xi1 == xi2)%Q -> (xb1 == xb2)%Q -> (yi1 == yi2)%Q ->
    swath_loop n t1 b1 xi1 xb1 yi1 = swath_loop n t2 b2 xi2 xb2 yi2.
Proof.
  induction n as [|n IH]; intros t1 t2 b1 b2 xi1 xi2 xb1 xb2 yi1 yi2
                                 [T1 T2] [B1 B2] Hxi Hxb Hyi; cbn [swath_loop].
  - reflexivity.
  - rewrite (cvRound_comp _ _ T1), (cvRound_comp _ _ T2),
      (cvRound_comp _ _ B1), (cvRound_comp _ _ B2).
    f_equal. apply IH; try assumption; split; cbn [d_x d_y].
    + rewrite T1, Hxi. reflexivity.
    + rewrite T2, Hyi. reflexivity.
    + rewrite B1, Hxb. reflexivity.
    + rewrite B2, Hyi. reflexivity.
Qed.

(** The derived search lines depend on the coordinates as numbers only. *)
Lemma derived_searchLines_comp (c1 c2 : Calib) :
  gridSize (m_model c1) = gridSize (m_model c2) ->
  m_imgSize c1 = m_imgSize c2 ->
  Forall2 point_eq (pixelPoints (m_model c1)) (pixelPoints (m_model c2)) ->
  derived_searchLines c1 = derived_searchLines c2.
Proof.
  intros Hg Hs Hpp. pose proof (swath_geometry_comp c1 c2 Hg Hs Hpp) as H.
  unfold derived_searchLines.
  destruct (swath_geometry c1) as [g1|], (swath_geometry c2) as [g2|];
    try contradiction; cbn [bind]; [|reflexivity].
  destruct H as (Hw & Htx & Hty & Hbx & Hby & Hxi & Hxb & Hyi).
  rewrite Hw. f_equal. apply swath_loop_comp; try assumption; split; assumption.
Qed.

Lemma Forall2_three_decimals (l : list Point2d) :
  Forall three_decimals l -> Forall2 point_eq (map fixed3_point l) l.
Proof.
  induction 1 as [|p l Hp Hl IH]; simpl; constructor; assumption.
Qed.

End SwathInvariance.

Section RoundTripClaim.
Context {cv : OpenCV} {gc : GcTypes} {ov : CalibOverlay}.

Lemma Forall2_close3_fixed3 (l : list Point2d) : Forall2 close3 l (map fixed3_point l).
Proof.
  induction l as [|p l IH]; simpl; constructor; [apply fixed3_point_close|exact IH].
Qed.

Lemma Save_ok (fs fs' : FileSystem) (c : Calib) (path : string) :
  Save fs c path = (GC_OK, fs') ->
  Save_invalid c = false /\ files fs' path = Some (Json (Save_json c)).
Proof.
  unfold Save. destruct (Save_invalid c); [discriminate|].
  destruct (can_open fs path); [|discriminate].
  intros H. injection H as <-. split; [reflexivity|].
  unfold write_file. cbn [files]. rewrite String.eqb_refl. reflexivity.
Qed.

Lemma Load_moveSearch_saved (l r : Rect) (m : CalibModel) :
  Load_moveSearch [ ("Left"%string, json_of_rect l); ("Right"%string, json_of_rect r) ] m
  = set_moveSearchRegionRgt
      (set_moveSearchRegionLft m (mkRect (r_x l) (r_y l) (r_width l) (r_height l)))
      (mkRect (r_x r) (r_y r) (r_width r) (r_height r)).
Proof. reflexivity. Qed.

(** C7 (amended).  After a successful [Save] of a grid-sized model, [Load] of
    the file returns with the pixel and world points of the original rounded
    to three decimals (each coordinate within 0.0005 of the original), the
    same grid size and image size.  Its status is [GC_OK] unless a
    homography fit throws, and then its search lines are the ones
    [CalcSearchSwaths] derives from the points it has read: the search lines
    in the file are read and then overwritten.  They are the search lines of
    the original when those were the derived ones and no coordinate of the
    original pixel points has more than three decimals. *)
Theorem Save_then_Load_rounds_points_rederives_lines
    (fs fs' : FileSystem) (c c0 : Calib) (path : string) :
  Save fs c path = (GC_OK, fs') ->
  grid_sized (m_model c) ->
  exists retVal c',
    Load fs' c0 path = Some (retVal, c')
    /\ pixelPoints (m_model c') = map fixed3_point (pixelPoints (m_model c))
    /\ worldPoints (m_model c') = map fixed3_point (worldPoints (m_model c))
    /\ Forall2 close3 (pixelPoints (m_model c)) (pixelPoints (m_model c'))
    /\ Forall2 close3 (worldPoints (m_model c)) (worldPoints (m_model c'))
    /\ gridSize (m_model c') = gridSize (m_model c)
    /\ m_imgSize c' = m_imgSize c
    /\ (retVal = GC_OK \/ retVal = GC_EXCEPT)
    /\ (retVal = GC_OK -> derived_searchLines c' = Some (searchLines (m_model c')))
    /\ (retVal = GC_OK ->
        Forall three_decimals (pixelPoints (m_model c)) ->
        derived_searchLines c = Some (searchLines (m_model c)) ->
        searchLines (m_model c') = searchLines (m_model c)).
Proof.
  intros Hsave Hg. destruct (Save_ok _ _ _ _ Hsave) as [Hinv Hfile].
  pose proof Hg as (Hne & Hsz & Hw0 & Hmax).
  pose proof (grid_sized_height_pos _ Hg) as [Hh0 Hwle].
  unfold Save_invalid in Hinv. repeat (apply orb_false_iff in Hinv; destruct Hinv as [Hinv ?]).
  match goal with H : negb _ = false |- _ =>
    apply negb_false_iff, Z.eqb_eq in H; rename H into Hwp end.
  repeat match goal with H : (_ <? _) = false |- _ => apply Z.ltb_ge in H end.
  set (pp := pixelPoints (m_model c)) in *. set (wp := worldPoints (m_model c)) in *.
  assert (Hlen : List.length pp = List.length wp) by (unfold vsize in Hwp; lia).
  assert (Hhle : height (gridSize (m_model c)) <= vsize pp).
  { rewrite Hsz.
    assert (1 * height (gridSize (m_model c))
            <= width (gridSize (m_model c)) * height (gridSize (m_model c)))
      by (apply Z.mul_le_mono_nonneg_r; lia). lia. }
  assert (Hpix : map Load_point_pixel
                   (map (fun pw => json_of_point (fst pw) (snd pw)) (combine pp wp))
                 = map fixed3_point pp).
  { rewrite map_map. apply (map_combine_fst fixed3_point pp wp Hlen). }
  assert (Hwld : map Load_point_world
                   (map (fun pw => json_of_point (fst pw) (snd pw)) (combine pp wp))
                 = map fixed3_point wp).
  { rewrite map_map. apply (map_combine_snd fixed3_point pp wp Hlen). }
  unfold Load. rewrite Hfile.
  cbn [Save_json imageWidth imageHeight PixelToWorld columns j_rows points
       MoveSearchRegions SearchLines get m_model with_model with_imgSize m_imgSize
       pixelPoints worldPoints set_points set_searchLines set_gridSize gridSize
       width height].
  fold pp wp. rewrite Hpix, Hwld, Load_moveSearch_saved.
  cbn [m_model with_model with_imgSize m_imgSize
       pixelPoints worldPoints set_points set_searchLines set_gridSize gridSize
       set_moveSearchRegionRgt set_moveSearchRegionLft width height].
  assert (Hmul : SizeT.mul (width (gridSize (m_model c))) (height (gridSize (m_model c)))
                 = vsize (map fixed3_point pp)).
  { unfold SizeT.mul, SizeT.wrap, vsize. rewrite length_map. fold (vsize pp).
    rewrite <- Hsz. apply Z.mod_small. unfold Int.max_int in Hmax.
    unfold vsize in *. lia. }
  rewrite Hmul, Z.eqb_refl. cbn [negb].
  rewrite !int_of_size_exact by lia.
  match goal with
  | |- context [Calibrate ?c1 ?p ?w ?g ?s Mat_new Mat_new false false false] =>
      destruct (Calibrate_accepted c1 p w g s Mat_new false false false)
        as (retVal & c' & Hrun & Hpp & Hwpp & Hgs & His & Hst & _ & Hlines)
  end.
  - destruct pp; [contradiction|discriminate].
  - unfold vsize. rewrite !length_map. lia.
  - unfold vsize. rewrite length_map. cbn [width height]. exact Hsz.
  - unfold vsize. rewrite length_map. exact Hmax.
  - cbn [width]. assumption.
  - cbn [height]. assumption.
  - rewrite Hrun. cbn [bind]. exists retVal, c'. split; [reflexivity|].
    split; [exact Hpp|]. split; [exact Hwpp|].
    split; [rewrite Hpp; apply Forall2_close3_fixed3|].
    split; [rewrite Hwpp; apply Forall2_close3_fixed3|].
    assert (Hgs' : gridSize (m_model c') = gridSize (m_model c))
      by (rewrite Hgs; destruct (gridSize (m_model c)); reflexivity).
    assert (His' : m_imgSize c' = m_imgSize c)
      by (rewrite His; destruct (m_imgSize c); reflexivity).
    split; [exact Hgs'|]. split; [exact His'|].
    split; [exact Hst|]. split; [exact Hlines|].
    intros Hok Hdec Horig. specialize (Hlines Hok).
    rewrite (derived_searchLines_comp c' c Hgs' His') in Hlines.
    + congruence.
    + rewrite Hpp. apply Forall2_three_decimals, Hdec.
Qed.

End RoundTripClaim.

Lemma Save_then_Load_rounds_points_rederives_lines_witness :
  Save fs_empty demo_calib "cal.json" = (GC_OK, demo_fs_saved)
  /\ grid_sized (m_model demo_calib)
  /\ exists retVal c',
       Load demo_fs_saved Calib_new "cal.json" = Some (retVal, c')
       /\ pixelPoints (m_model c') = map fixed3_point (pixelPoints (m_model demo_calib))
       /\ Forall2 close3 (pixelPoints (m_model demo_calib)) (pixelPoints (m_model c'))
       /\ (retVal = GC_OK -> derived_searchLines c' = Some (searchLines (m_model c'))).
Proof.
  assert (H1 : Save fs_empty demo_calib "cal.json" = (GC_OK, demo_fs_saved))
    by reflexivity.
  assert (H2 : grid_sized (m_model demo_calib)) by apply demo_calib_valid_grid.
  split; [exact H1|]. split; [exact H2|].
  destruct (Save_then_Load_rounds_points_rederives_lines
              fs_empty demo_fs_saved demo_calib Calib_new "cal.json" H1 H2)
    as (retVal & c' & Hrun & Hpp & _ & Hclose & _ & _ & _ & _ & Hlines & _).
  exists retVal, c'. repeat split; assumption.
Defined.

(** ** Failure paths and the state they leave *)

Section FailurePaths.
Context {cv : OpenCV} {gc : GcTypes} {ov : CalibOverlay}.

(** C2 (amended).  An operation that rejects its arguments or its object
    returns its failure status with the state as it was: [Calibrate] on
    invalid point vectors or grid, [CalcSearchSwaths] on an invalid model,
    [MatchTemplate] and [MatchRefine] on an invalid index, score or count,
    [SortPoints] on too few candidates, [FindMoveTargets] without templates,
    on an empty image or with a move-search rectangle outside the image,
    [Save] whenever it fails, [Load] on a missing or unreadable file.  There
    is no commit step beyond that: once its arguments are accepted
    [Calibrate] writes the object in place, and when the homography fit
    throws it returns [GC_EXCEPT] with the model cleared and holding the new
    grid size and points, and with the new image size; the homographies are
    the old ones, or the new first and the old second one when it is the
    second fit that throws. *)
Theorem validation_failures_keep_state_later_failures_do_not :
  (forall c pixelPts worldPts grid imgSize img imgOut dc dm ds,
      Calibrate_invalid pixelPts worldPts grid = true ->
      Calibrate c pixelPts worldPts grid imgSize img imgOut dc dm ds
      = Some (GC_ERR, c, imgOut))
  /\ (forall c, CalcSearchSwaths_invalid c = true ->
                CalcSearchSwaths c = Some (GC_ERR, c))
  /\ (forall g index img minScore numToFind,
        index_invalid index || minScore_invalid minScore
        || numToFind_invalid numToFind = true ->
        MatchTemplate g index img minScore numToFind = Some (GC_ERR, g))
  /\ (forall g index img minScore numToFind item,
        index_invalid index || minScore_invalid minScore
        || numToFind_invalid numToFind = true ->
        MatchRefine g index img minScore numToFind item = Some (GC_ERR, g, item))
  /\ (forall g sizeSearchImage,
        (List.length (m_matchItems g)
         < CALIB_POINT_ROW_COUNT * CALIB_POINT_COL_COUNT)%nat ->
        SortPoints g sizeSearchImage = Some (GC_ERR, g))
  /\ (forall g img ptLeft ptRight,
        m_templates g = [] \/ Mat_empty img = true
        \/ FindMoveTargets_scratch g img = None ->
        exists retVal,
          FindMoveTargets g img ptLeft ptRight = Some (retVal, g, ptLeft, ptRight)
          /\ retVal <> GC_OK)
  /\ (forall fs c path retVal fs',
        Save fs c path = (retVal, fs') -> retVal <> GC_OK -> fs' = fs)
  /\ (forall fs c path,
        files fs path = None \/ files fs path = Some NotJson ->
        exists retVal, Load fs c path = Some (retVal, c) /\ retVal <> GC_OK)
  /\ (forall c pixelPts worldPts grid imgSize img imgOut dc dm ds,
        Calibrate_invalid pixelPts worldPts grid = false ->
        findHomography pixelPts worldPts = None ->
        Calibrate c pixelPts worldPts grid imgSize img imgOut dc dm ds
        = Some (GC_EXCEPT, Calibrate_store c pixelPts worldPts grid imgSize, imgOut)
        /\ pixelPoints (m_model (Calibrate_store c pixelPts worldPts grid imgSize))
           = pixelPts
        /\ m_imgSize (Calibrate_store c pixelPts worldPts grid imgSize) = imgSize
        /\ m_matHomogPixToWorld (Calibrate_store c pixelPts worldPts grid imgSize)
           = m_matHomogPixToWorld c
        /\ m_matHomogWorldToPix (Calibrate_store c pixelPts worldPts grid imgSize)
           = m_matHomogWorldToPix c)
  /\ (forall c pixelPts worldPts grid imgSize img imgOut dc dm ds h,
        Calibrate_invalid pixelPts worldPts grid = false ->
        findHomography pixelPts worldPts = Some h ->
        findHomography worldPts pixelPts = None ->
        Calibrate c pixelPts worldPts grid imgSize img imgOut dc dm ds
        = Some (GC_EXCEPT,
                with_pixToWorld (Calibrate_store c pixelPts worldPts grid imgSize) h,
                imgOut)).
Proof.
  repeat split.
  - intros. apply Calibrate_invalid_unchanged. assumption.
  - intros c H. unfold CalcSearchSwaths. rewrite H. reflexivity.
  - intros g index img minScore numToFind H. unfold MatchTemplate.
    destruct (index_invalid index); [reflexivity|].
    destruct (minScore_invalid minScore); [reflexivity|].
    destruct (numToFind_invalid numToFind); [reflexivity|discriminate].
  - intros g index img minScore numToFind item H. unfold MatchRefine.
    destruct (index_invalid index); [reflexivity|].
    destruct (minScore_invalid minScore); [reflexivity|].
    destruct (numToFind_invalid numToFind); [reflexivity|discriminate].
  - intros g sz H. unfold SortPoints.
    destruct (Nat.ltb_spec (List.length (m_matchItems g))
                (CALIB_POINT_ROW_COUNT * CALIB_POINT_COL_COUNT)); [reflexivity|lia].
  - intros g img ptLeft ptRight H. unfold FindMoveTargets.
    destruct (isnil (m_templates g)) eqn:En.
    { exists GC_ERR. split; [reflexivity|discriminate]. }
    destruct (Mat_empty img) eqn:Ee.
    { exists GC_ERR. split; [reflexivity|discriminate]. }
    destruct H as [H|[H|H]].
    + apply isnil_true in H. congruence.
    + discriminate.
    + rewrite H. exists GC_EXCEPT. split; [reflexivity|discriminate].
  - intros fs c path retVal fs'. unfold Save.
    destruct (Save_invalid c).
    { intros H _. injection H as _ <-. reflexivity. }
    destruct (can_open fs path).
    + intros H Hne. injection H as <- _. congruence.
    + intros H _. injection H as _ <-. reflexivity.
  - intros fs c path [H|H]; unfold Load; rewrite H.
    + exists GC_ERR. split; [reflexivity|discriminate].
    + exists GC_EXCEPT. split; [reflexivity|discriminate].
  - unfold Calibrate.
    match goal with Hinv : Calibrate_invalid _ _ _ = false |- _ => rewrite Hinv end.
    change (pixelPoints (m_model (Calibrate_store c pixelPts worldPts grid imgSize)))
      with pixelPts.
    change (worldPoints (m_model (Calibrate_store c pixelPts worldPts grid imgSize)))
      with worldPts.
    match goal with Hthrow : findHomography _ _ = None |- _ => rewrite Hthrow end.
    reflexivity.
  - intros c pixelPts worldPts grid imgSize img imgOut dc dm ds h Hinv Hfit Hthrow.
    unfold Calibrate. rewrite Hinv.
    change (pixelPoints (m_model (Calibrate_store c pixelPts worldPts grid imgSize)))
      with pixelPts.
    change (worldPoints (m_model (Calibrate_store c pixelPts worldPts grid imgSize)))
      with worldPts.
    rewrite Hfit.
    cbn [m_model with_pixToWorld].
    change (pixelPoints (m_model (Calibrate_store c pixelPts worldPts grid imgSize)))
      with pixelPts.
    change (worldPoints (m_model (Calibrate_store c pixelPts worldPts grid imgSize)))
      with worldPts.
    rewrite Hthrow. reflexivity.
Qed.

End FailurePaths.

Lemma validation_failures_keep_state_later_failures_do_not_witness :
  Calibrate_invalid roundtrip_pixelPts demo_worldPts (mkSize 2 4) = false
  /\ @findHomography cv_throwing roundtrip_pixelPts demo_worldPts = None
  /\ @Calibrate cv_throwing gc_demo ov_demo demo_calib roundtrip_pixelPts demo_worldPts
       (mkSize 2 4) demo_imgSize Mat_new Mat_new false false false
     = Some (GC_EXCEPT,
             @Calibrate_store gc_demo demo_calib roundtrip_pixelPts demo_worldPts
               (mkSize 2 4) demo_imgSize,
             Mat_new)
  /\ index_invalid 7 || minScore_invalid (1 # 2) || numToFind_invalid 2 = true
  /\ MatchTemplate demo_grid 7 demo_img (1 # 2) 2 = Some (GC_ERR, demo_grid).
Proof.
  assert (H1 : Calibrate_invalid roundtrip_pixelPts demo_worldPts (mkSize 2 4) = false)
    by reflexivity.
  assert (H2 : @findHomography cv_throwing roundtrip_pixelPts demo_worldPts = None)
    by reflexivity.
  assert (H3 : index_invalid 7 || minScore_invalid (1 # 2) || numToFind_invalid 2 = true)
    by reflexivity.
  destruct (@validation_failures_keep_state_later_failures_do_not
              cv_throwing gc_demo ov_demo)
    as (_ & _ & _ & _ & _ & _ & _ & _ & Hthrow & _).
  destruct (@validation_failures_keep_state_later_failures_do_not
              cv_demo gc_demo ov_demo)
    as (_ & _ & Hmatch & _).
  split; [exact H1|]. split; [exact H2|].
  split; [exact (proj1 (Hthrow demo_calib roundtrip_pixelPts demo_worldPts (mkSize 2 4)
                          demo_imgSize Mat_new Mat_new false false false H1 H2))|].
  split; [exact H3|].
  exact (Hmatch demo_grid 7 demo_img (1 # 2) 2 H3).
Defined.

(** C2, as stated, fails for [Calibrate]: called on the calibrated
    [demo_calib] with a valid new grid while the homography fit throws, it
    returns [GC_EXCEPT] and leaves the new points and grid size in a model
    without search lines, next to the homographies of the old calibration.
    The same happens without any exception for a grid that [Calibrate]
    accepts and [CalcSearchSwaths] rejects (8 x 1): the status is [GC_ERR]
    and the model has been replaced. *)
Lemma Calibrate_failure_leaves_partial_update :
  @Calibrate cv_throwing gc_demo ov_demo demo_calib roundtrip_pixelPts demo_worldPts
    (mkSize 2 4) demo_imgSize Mat_new Mat_new false false false
  = Some (GC_EXCEPT, demo_calib_after_throw, Mat_new)
  /\ demo_calib_after_throw <> demo_calib
  /\ searchLines (m_model demo_calib) <> []
  /\ searchLines (m_model demo_calib_after_throw) = []
  /\ option_map (fun r => (fst (fst r), gridSize (m_model (snd (fst r))),
                           searchLines (m_model (snd (fst r)))))
       (Calibrate demo_calib demo_pixelPts demo_worldPts (mkSize 8 1) demo_imgSize
          Mat_new Mat_new false false false)
     = Some (GC_ERR, mkSize 8 1, []).
Proof.
  split; [vm_compute; reflexivity|]. split; [|split; [discriminate|split]].
  - intros H. apply (f_equal (fun c => searchLines (m_model c))) in H.
    vm_compute in H. discriminate H.
  - reflexivity.
  - vm_compute. reflexivity.
Qed.

(** [SetMoveTargetROI] reports a rectangle that leaves the image and stores
    it all the same. *)
Example SetMoveTargetROI_stores_rejected_rectangle :
  SetMoveTargetROI demo_grid demo_img (mkRect 40 20 20 20) true
  = (GC_ERR, with_rectLeft demo_grid (mkRect 40 20 20 20))
  /\ m_rectLeftMoveSearch demo_grid = mkRect 0 0 20 20.
Proof. split; reflexivity. Qed.

(** The grid of [demo_calib] has whole-pixel coordinates: it comes back from
    the file with the search lines it had. *)
Example Save_Load_demo_calib_same_lines :
  option_map (fun r => (fst r, searchLines (m_model (snd r))))
    (Load demo_fs_saved Calib_new "cal.json")
  = Some (GC_OK, searchLines (m_model demo_calib)).
Proof. vm_compute. reflexivity. Qed.

(** * Properties of the whole classes *)

(** ** A successful calibration *)

Section CalibrateSuccess.
Context {cv : OpenCV} {gc : GcTypes} {ov : CalibOverlay}.

(** The drawing branch never turns a failure into a success. *)
Lemma Calibrate_draw_ok (c : Calib) (retVal : GC_STATUS) (img imgOut out' : Mat)
    (dc dm ds : bool) :
  Calibrate_draw c retVal img imgOut dc dm ds = (GC_OK, out') -> retVal = GC_OK.
Proof.
  unfold Calibrate_draw.
  destruct ((dc || dm || ds) && negb (Mat_empty img)).
  - destruct (mtype img); destruct retVal; cbn [GC_STATUS_eqb]; intros H;
      try reflexivity; try discriminate.
  - intros H. injection H as H _. exact H.
Qed.

(** A failure handed to the drawing branch comes out as it went in, or as
    [GC_ERR]. *)
Lemma Calibrate_draw_failure (c : Calib) (retVal : GC_STATUS) (img imgOut : Mat)
    (dc dm ds : bool) :
  retVal <> GC_OK ->
  fst (Calibrate_draw c retVal img imgOut dc dm ds) = retVal
  \/ fst (Calibrate_draw c retVal img imgOut dc dm ds) = GC_ERR.
Proof.
  intros Hne. unfold Calibrate_draw.
  destruct ((dc || dm || ds) && negb (Mat_empty img)); [|left; reflexivity].
  destruct (mtype img); destruct retVal; cbn [GC_STATUS_eqb fst];
    try congruence; auto.
Qed.

Lemma CalcSearchSwaths_status (c c' : Calib) (retVal : GC_STATUS) :
  CalcSearchSwaths c = Some (retVal, c') ->
  (retVal = GC_ERR /\ c' = c /\ CalcSearchSwaths_invalid c = true)
  \/ (retVal = GC_OK /\ CalcSearchSwaths_invalid c = false
      /\ exists geo, swath_geometry c = Some geo
                     /\ c' = with_model c (set_searchLines (m_model c) (swath_lines geo))).
Proof.
  unfold CalcSearchSwaths. destruct (CalcSearchSwaths_invalid c).
  - intros H. injection H as <- <-. left. auto.
  - destruct (swath_geometry c) as [geo|]; [|discriminate]. cbn [bind].
    intros H. injection H as <- <-. right. split; [reflexivity|].
    split; [reflexivity|]. exists geo. split; reflexivity.
Qed.

(** What a call of [Calibrate] does once the arguments are accepted and the
    two fits have returned, for the object [c'] that the arguments make. *)
Lemma Calibrate_run (c : Calib) (pixelPts worldPts : list Point2d) (grid imgSize : Size)
    (img imgOut : Mat) (dc dm ds : bool) (h1 h2 : Mat) (geo : SwathGeometry)
    (ptLeft ptRight : Point2d) :
  let c' := Calib_of grid imgSize pixelPts worldPts h1 h2 ptLeft ptRight (swath_lines geo) in
  Calibrate_invalid pixelPts worldPts grid = false ->
  findHomography pixelPts worldPts = Some h1 ->
  findHomography worldPts pixelPts = Some h2 ->
  CalcSearchSwaths_invalid c' = false ->
  swath_geometry c' = Some geo ->
  vat pixelPts 0 = Some ptLeft ->
  vat pixelPts (size_of_int (Int.sub (width grid) 1)) = Some ptRight ->
  Calibrate c pixelPts worldPts grid imgSize img imgOut dc dm ds
  = Some (fst (Calibrate_draw c' GC_OK img imgOut dc dm ds), c',
          snd (Calibrate_draw c' GC_OK img imgOut dc dm ds)).
Proof.
  intros c' Hinv H1 H2 Hsw Hgeo Hl Hr. unfold Calibrate. rewrite Hinv.
  set (c1 := Calibrate_store c pixelPts worldPts grid imgSize).
  change (pixelPoints (m_model c1)) with pixelPts.
  change (worldPoints (m_model c1)) with worldPts. rewrite H1.
  change (pixelPoints (m_model (with_pixToWorld c1 h1))) with pixelPts.
  change (worldPoints (m_model (with_pixToWorld c1 h1))) with worldPts. rewrite H2.
  set (c3 := with_worldToPix (with_pixToWorld c1 h1) h2).
  unfold CalcSearchSwaths.
  change (CalcSearchSwaths_invalid c3) with (CalcSearchSwaths_invalid c'). rewrite Hsw.
  change (swath_geometry c3) with (swath_geometry c'). rewrite Hgeo.
  cbn [bind GC_STATUS_eqb]. unfold Calibrate_moveRegions.
  cbn [m_model with_model pixelPoints set_searchLines set_moveSearchRegionLft gridSize].
  change (pixelPoints (m_model c3)) with pixelPts.
  change (gridSize (m_model c3)) with grid.
  rewrite Hl. cbn [bind]. rewrite Hr. cbn [bind].
  match goal with
  | |- (let '(_, _) := Calibrate_draw ?x _ _ _ _ _ _ in _) = _ =>
      change x with c'
  end.
  destruct (Calibrate_draw c' GC_OK img imgOut dc dm ds). reflexivity.
Qed.

(** The other way round: a call that returned [GC_OK] went that way. *)
Lemma Calibrate_ok_form (c c' : Calib) (pixelPts worldPts : list Point2d)
    (grid imgSize : Size) (img imgOut out' : Mat) (dc dm ds : bool) :
  Calibrate c pixelPts worldPts grid imgSize img imgOut dc dm ds = Some (GC_OK, c', out') ->
  exists h1 h2 geo ptLeft ptRight,
    Calibrate_invalid pixelPts worldPts grid = false
    /\ findHomography pixelPts worldPts = Some h1
    /\ findHomography worldPts pixelPts = Some h2
    /\ CalcSearchSwaths_invalid c' = false
    /\ swath_geometry c' = Some geo
    /\ vat pixelPts 0 = Some ptLeft
    /\ vat pixelPts (size_of_int (Int.sub (width grid) 1)) = Some ptRight
    /\ c' = Calib_of grid imgSize pixelPts worldPts h1 h2 ptLeft ptRight (swath_lines geo)
    /\ Calibrate_draw c' GC_OK img imgOut dc dm ds = (GC_OK, out').
Proof.
  intros H. unfold Calibrate in H.
  destruct (Calibrate_invalid pixelPts worldPts grid) eqn:Hinv; [discriminate|].
  set (c1 := Calibrate_store c pixelPts worldPts grid imgSize) in H.
  change (pixelPoints (m_model c1)) with pixelPts in H.
  change (worldPoints (m_model c1)) with worldPts in H.
  destruct (findHomography pixelPts worldPts) as [h1|] eqn:H1; [|discriminate].
  change (pixelPoints (m_model (with_pixToWorld c1 h1))) with pixelPts in H.
  change (worldPoints (m_model (with_pixToWorld c1 h1))) with worldPts in H.
  destruct (findHomography worldPts pixelPts) as [h2|] eqn:H2; [|discriminate].
  set (c3 := with_worldToPix (with_pixToWorld c1 h1) h2) in H.
  destruct (CalcSearchSwaths c3) as [[st c4]|] eqn:Hrun; [|discriminate].
  cbn [bind] in H.
  destruct (CalcSearchSwaths_status _ _ _ Hrun)
    as [(-> & -> & _)|(-> & Hsw & geo & Hgeo & ->)].
  - cbn [GC_STATUS_eqb bind] in H.
    destruct (Calibrate_draw c3 GC_ERR img imgOut dc dm ds) as [r o] eqn:Hd.
    injection H as -> _ _. apply Calibrate_draw_ok in Hd. discriminate.
  - cbn [GC_STATUS_eqb] in H. unfold Calibrate_moveRegions in H.
    cbn [m_model with_model pixelPoints set_searchLines set_moveSearchRegionLft
         gridSize] in H.
    change (pixelPoints (m_model c3)) with pixelPts in H.
    change (gridSize (m_model c3)) with grid in H.
    destruct (vat pixelPts 0) as [ptLeft|] eqn:Hl; [|discriminate].
    cbn [bind] in H.
    destruct (vat pixelPts (size_of_int (Int.sub (width grid) 1))) as [ptRight|] eqn:Hr;
      [|discriminate].
    cbn [bind] in H.
    match type of H with
    | (let '(_, _) := Calibrate_draw ?x _ _ _ _ _ _ in _) = _ =>
        change x with (Calib_of grid imgSize pixelPts worldPts h1 h2 ptLeft ptRight
                         (swath_lines geo)) in H
    end.
    destruct (Calibrate_draw _ GC_OK img imgOut dc dm ds) as [r o] eqn:Hd.
    injection H as -> <- ->.
    exists h1, h2, geo, ptLeft, ptRight.
    split; [reflexivity|]. split; [reflexivity|]. split; [reflexivity|].
    split; [exact Hsw|]. split; [exact Hgeo|]. split; [reflexivity|].
    split; [reflexivity|]. split; [reflexivity|]. exact Hd.
Qed.

End CalibrateSuccess.

Section CalibrateOutcome.
Context {cv : OpenCV} {gc : GcTypes} {ov : CalibOverlay} {cvm : OpenCVMore}.

Lemma CalcSearchSwaths_invalid_false (c : Calib) :
  CalcSearchSwaths_invalid c = false ->
  pixelPoints (m_model c) <> [] /\ worldPoints (m_model c) <> []
  /\ vsize (pixelPoints (m_model c)) = vsize (worldPoints (m_model c))
  /\ 2 <= width (gridSize (m_model c)) /\ 4 <= height (gridSize (m_model c)).
Proof.
  unfold CalcSearchSwaths_invalid. intros H.
  apply orb_false_iff in H. destruct H as [H Hh].
  apply orb_false_iff in H. destruct H as [H Hw].
  apply orb_false_iff in H. destruct H as [H Hsz].
  apply orb_false_iff in H. destruct H as [Hp Hq].
  apply Z.ltb_ge in Hh, Hw. apply negb_false_iff, Z.eqb_eq in Hsz.
  repeat split; try assumption.
  - intros E. apply isnil_true in E. congruence.
  - intros E. apply isnil_true in E. congruence.
Qed.

Lemma Calibrate_invalid_false_count (pixelPts worldPts : list Point2d) (grid : Size) :
  Calibrate_invalid pixelPts worldPts grid = false ->
  vsize pixelPts <= Int.max_int ->
  Int.mul (width grid) (height grid) = vsize pixelPts.
Proof.
  intros H Hmax. unfold Calibrate_invalid in H.
  apply orb_false_iff in H. destruct H as [H _].
  apply orb_false_iff in H. destruct H as [_ H].
  apply negb_false_iff, Z.eqb_eq in H. rewrite H.
  apply int_of_size_exact. unfold vsize in *. lia.
Qed.

Lemma right_index_exact (w : Z) :
  2 <= w <= Int.max_int ->
  size_of_int (Int.sub w 1) = w - 1 /\ SizeT.sub (size_of_int w) 1 = w - 1.
Proof.
  intros Hw. unfold Int.max_int in Hw. split.
  - unfold Int.sub. rewrite Int_wrap_in_range.
    + apply size_of_int_exact. unfold Int.max_int. lia.
    + unfold Int.in_range, Int.min_int, Int.max_int. lia.
  - rewrite size_of_int_exact by (unfold Int.max_int; lia).
    apply SizeT_sub_exact. unfold Int.max_int. lia.
Qed.

(** X1.  After a [Calibrate] that returned [GC_OK], [MoveRefPoint] answers
    with [pixelPts[ 0 ]] for the left and [pixelPts[ gridSize.width - 1 ]]
    for the right reference point, and [MoveSearchROI] with the rectangle
    that [Calibrate] places around that point for the image size it was
    given, whatever was drawn. *)
Theorem Calibrate_ok_reference_points (c c' : Calib) (pixelPts worldPts : list Point2d)
    (grid imgSize : Size) (img imgOut out' : Mat) (dc dm ds : bool) :
  Calibrate c pixelPts worldPts grid imgSize img imgOut dc dm ds = Some (GC_OK, c', out') ->
  vsize pixelPts <= Int.max_int ->
  width grid <= Int.max_int ->
  exists ptLeft ptRight,
    nth_error pixelPts 0 = Some ptLeft
    /\ nth_error pixelPts (Z.to_nat (width grid - 1)) = Some ptRight
    /\ MoveRefPoint c' true = Some ptLeft
    /\ MoveRefPoint c' false = Some ptRight
    /\ MoveSearchROI c' true = moveSearchRegion ptLeft imgSize
    /\ MoveSearchROI c' false = moveSearchRegion ptRight imgSize.
Proof.
  intros H Hmax Hwmax.
  destruct (Calibrate_ok_form _ _ _ _ _ _ _ _ _ _ _ _ H)
    as (h1 & h2 & geo & ptLeft & ptRight & Hinv & _ & _ & Hsw & _ & Hl & Hr & -> & _).
  destruct (CalcSearchSwaths_invalid_false _ Hsw) as (Hne & _ & _ & Hw & _).
  cbn [Calib_of m_model pixelPoints gridSize] in Hne, Hw.
  destruct (right_index_exact (width grid)) as [Hidx _]; [lia|].
  pose proof (Calibrate_invalid_false_count _ _ _ Hinv Hmax) as Hcnt.
  assert (Hchk : negb (size_of_int (Int.mul (width grid) (height grid)) =? vsize pixelPts)
                 = false).
  { rewrite Hcnt, size_of_int_exact by (unfold vsize in *; lia).
    rewrite Z.eqb_refl. reflexivity. }
  assert (Hnil : isnil pixelPts = false).
  { destruct pixelPts; [congruence|reflexivity]. }
  exists ptLeft, ptRight.
  split. { rewrite <- Hl. symmetry. apply vat_nth_error. lia. }
  split. { rewrite <- Hr, Hidx. symmetry. apply vat_nth_error. lia. }
  unfold MoveRefPoint, MoveSearchROI.
  cbn [Calib_of m_model pixelPoints gridSize moveSearchRegionLft moveSearchRegionRgt].
  rewrite Hnil, Hchk.
  split; [exact Hl|]. split; [exact Hr|]. split; reflexivity.
Qed.

Lemma Calibrate_ok_any_object (c1 c2 c' : Calib) (pixelPts worldPts : list Point2d)
    (grid imgSize : Size) (img imgOut out' : Mat) (dc dm ds : bool) :
  Calibrate c1 pixelPts worldPts grid imgSize img imgOut dc dm ds = Some (GC_OK, c', out') ->
  Calibrate c2 pixelPts worldPts grid imgSize img imgOut dc dm ds = Some (GC_OK, c', out').
Proof.
  intros H.
  destruct (Calibrate_ok_form _ _ _ _ _ _ _ _ _ _ _ _ H)
    as (h1 & h2 & geo & ptLeft & ptRight & Hinv & H1 & H2 & Hsw & Hgeo & Hl & Hr & -> & Hd).
  rewrite (Calibrate_run c2 pixelPts worldPts grid imgSize img imgOut dc dm ds
             h1 h2 geo ptLeft ptRight Hinv H1 H2 Hsw Hgeo Hl Hr).
  rewrite Hd. reflexivity.
Qed.

(** X2.  A [Calibrate] that returns [GC_OK] leaves nothing of the object it
    was called on: called with the same arguments on any other object it
    returns [GC_OK] with the same object and the same overlay. *)
Theorem Calibrate_ok_replaces_object (c1 c2 c' : Calib) (pixelPts worldPts : list Point2d)
    (grid imgSize : Size) (img imgOut out' : Mat) (dc dm ds : bool) :
  Calibrate c1 pixelPts worldPts grid imgSize img imgOut dc dm ds = Some (GC_OK, c', out') ->
  Calibrate c2 pixelPts worldPts grid imgSize img imgOut dc dm ds = Some (GC_OK, c', out').
Proof.
  intros H.
  destruct (Calibrate_ok_form _ _ _ _ _ _ _ _ _ _ _ _ H)
    as (h1 & h2 & geo & ptLeft & ptRight & Hinv & H1 & H2 & Hsw & Hgeo & Hl & Hr & E & Hd).
  subst c'.
  rewrite (Calibrate_run c2 pixelPts worldPts grid imgSize img imgOut dc dm ds
             h1 h2 geo ptLeft ptRight Hinv H1 H2 Hsw Hgeo Hl Hr).
  rewrite Hd. reflexivity.
Qed.

(** X3.  After a [Calibrate] that returned [GC_OK], [PixelToWorld] works
    with the matrix of the first fit and [WorldToPixel] with that of the
    second.  [Calibrate] does not look at them: when a fit delivered the
    empty matrix the conversion returns [GC_ERR], as on an uncalibrated
    object.  A conversion that returns [GC_OK] delivers the first point that
    [perspectiveTransform] wrote; any other status leaves the output point
    as it was. *)
Theorem Calibrate_ok_conversions (c c' : Calib) (pixelPts worldPts : list Point2d)
    (grid imgSize : Size) (img imgOut out' : Mat) (dc dm ds : bool) :
  Calibrate c pixelPts worldPts grid imgSize img imgOut dc dm ds = Some (GC_OK, c', out') ->
  exists h1 h2,
    findHomography pixelPts worldPts = Some h1
    /\ findHomography worldPts pixelPts = Some h2
    /\ (forall p q, Mat_empty h1 = true -> PixelToWorld_point c' p q = Some (GC_ERR, q))
    /\ (forall p q, Mat_empty h2 = true -> WorldToPixel c' p q = Some (GC_ERR, q))
    /\ (forall p q st r,
          PixelToWorld_point c' p q = Some (st, r) ->
          (st = GC_ERR <-> Mat_empty h1 = true)
          /\ (st <> GC_OK -> r = q)
          /\ (st = GC_OK ->
              exists out, perspectiveTransform [ p ] h1 = Some out /\ vat out 0 = Some r))
    /\ (forall p q st r,
          WorldToPixel c' p q = Some (st, r) ->
          (st = GC_ERR <-> Mat_empty h2 = true)
          /\ (st <> GC_OK -> r = q)
          /\ (st = GC_OK ->
              exists out, perspectiveTransform [ p ] h2 = Some out /\ vat out 0 = Some r)).
Proof.
  intros H.
  destruct (Calibrate_ok_form _ _ _ _ _ _ _ _ _ _ _ _ H)
    as (h1 & h2 & geo & ptLeft & ptRight & _ & H1 & H2 & _ & _ & _ & _ & -> & _).
  exists h1, h2. split; [exact H1|]. split; [exact H2|].
  unfold PixelToWorld_point, WorldToPixel.
  cbn [Calib_of m_matHomogPixToWorld m_matHomogWorldToPix].
  split; [intros p q ->; reflexivity|]. split; [intros p q ->; reflexivity|].
  split.
  - intros p q st r. destruct (Mat_empty h1).
    + intros E. injection E as <- <-.
      split; [tauto|]. split; [reflexivity|discriminate].
    + destruct (perspectiveTransform [ p ] h1) as [out|].
      * destruct (vat out 0) as [r0|] eqn:Hr; cbn [bind]; [|discriminate].
        intros E. injection E as <- <-.
        split; [split; discriminate|]. split; [congruence|].
        intros _. exists out. split; [reflexivity|exact Hr].
      * intros E. injection E as <- <-.
        split; [split; discriminate|]. split; [reflexivity|discriminate].
  - intros p q st r. destruct (Mat_empty h2).
    + intros E. injection E as <- <-.
      split; [tauto|]. split; [reflexivity|discriminate].
    + destruct (perspectiveTransform [ p ] h2) as [out|].
      * destruct (vat out 0) as [r0|] eqn:Hr; cbn [bind]; [|discriminate].
        intros E. injection E as <- <-.
        split; [split; discriminate|]. split; [congruence|].
        intros _. exists out. split; [reflexivity|exact Hr].
      * intros E. injection E as <- <-.
        split; [split; discriminate|]. split; [reflexivity|discriminate].
Qed.

(** X4.  [Calibrate] accepts a grid of one column, or of fewer than four
    rows, and then never returns [GC_OK]: [CalcSearchSwaths] rejects the grid
    after the object has been overwritten.  The status is [GC_ERR] when both
    fits returned and [GC_EXCEPT] otherwise, and the object holds the new
    points, grid size and image size. *)
Theorem Calibrate_small_grid_fails (c : Calib) (pixelPts worldPts : list Point2d)
    (grid imgSize : Size) (img imgOut : Mat) (dc dm ds : bool) :
  Calibrate_invalid pixelPts worldPts grid = false ->
  width grid < 2 \/ height grid < 4 ->
  exists st c' out',
    Calibrate c pixelPts worldPts grid imgSize img imgOut dc dm ds = Some (st, c', out')
    /\ (st = GC_ERR \/ st = GC_EXCEPT)
    /\ (st = GC_ERR <->
        findHomography pixelPts worldPts <> None
        /\ findHomography worldPts pixelPts <> None)
    /\ pixelPoints (m_model c') = pixelPts
    /\ worldPoints (m_model c') = worldPts
    /\ gridSize (m_model c') = grid
    /\ m_imgSize c' = imgSize
    /\ searchLines (m_model c') = searchLines (CalibModel_clear (m_model c)).
Proof.
  intros Hinv Hsmall. unfold Calibrate. rewrite Hinv.
  set (c1 := Calibrate_store c pixelPts worldPts grid imgSize).
  change (pixelPoints (m_model c1)) with pixelPts.
  change (worldPoints (m_model c1)) with worldPts.
  destruct (findHomography pixelPts worldPts) as [h1|] eqn:H1.
  2:{ exists GC_EXCEPT, c1, imgOut. split; [reflexivity|].
      split; [right; reflexivity|]. split; [|repeat split; reflexivity].
      split; [discriminate|]. intros [Hc _]. congruence. }
  change (pixelPoints (m_model (with_pixToWorld c1 h1))) with pixelPts.
  change (worldPoints (m_model (with_pixToWorld c1 h1))) with worldPts.
  destruct (findHomography worldPts pixelPts) as [h2|] eqn:H2.
  2:{ exists GC_EXCEPT, (with_pixToWorld c1 h1), imgOut. split; [reflexivity|].
      split; [right; reflexivity|]. split; [|repeat split; reflexivity].
      split; [discriminate|]. intros [_ Hc]. congruence. }
  set (c3 := with_worldToPix (with_pixToWorld c1 h1) h2).
  assert (Hsw : CalcSearchSwaths_invalid c3 = true).
  { unfold CalcSearchSwaths_invalid.
    change (gridSize (m_model c3)) with grid.
    destruct Hsmall as [Hw|Hh].
    - apply Z.ltb_lt in Hw. rewrite Hw. rewrite orb_true_r. reflexivity.
    - apply Z.ltb_lt in Hh. rewrite Hh. apply orb_true_r. }
  unfold CalcSearchSwaths. rewrite Hsw. cbn [bind GC_STATUS_eqb].
  destruct (Calibrate_draw c3 GC_ERR img imgOut dc dm ds) as [r o] eqn:Hd.
  assert (Hr : r = GC_ERR).
  { destruct (Calibrate_draw_failure c3 GC_ERR img imgOut dc dm ds) as [E|E];
      [discriminate| |]; rewrite Hd in E; exact E. }
  subst r. exists GC_ERR, c3, o. split; [reflexivity|].
  split; [left; reflexivity|]. split; [|repeat split; reflexivity].
  split; [intros _; split; discriminate|reflexivity].
Qed.

Lemma swath_geometry_widthTop (c : Calib) (geo : SwathGeometry) :
  swath_geometry c = Some geo ->
  exists p0 pTopRgt,
    vat (pixelPoints (m_model c)) 0 = Some p0
    /\ vat (pixelPoints (m_model c))
         (SizeT.sub (size_of_int (width (gridSize (m_model c)))) 1) = Some pTopRgt
    /\ sw_widthTop geo = cvRound ((d_x pTopRgt - d_x p0) / 3).
Proof.
  unfold swath_geometry.
  destruct (vat (pixelPoints (m_model c))
              (SizeT.sub (size_of_int (width (gridSize (m_model c)))) 1)) as [pTopRgt|];
    [|discriminate].
  cbn [bind]. destruct (vat (pixelPoints (m_model c)) 0) as [p0|]; [|discriminate].
  cbn [bind].
  destruct (vat (pixelPoints (m_model c)) (SizeT.sub _ 1)) as [pBotRgt|]; [|discriminate].
  cbn [bind].
  destruct (vat (pixelPoints (m_model c)) (size_of_int _)) as [pBotLft|]; [|discriminate].
  cbn [bind]. intros E. injection E as <-.
  exists p0, pTopRgt. split; [reflexivity|]. split; reflexivity.
Qed.

Lemma isnil_swath_loop (n : nat) (ptTop ptBot : Point2d) (xInc xIncBot yInc : Q) :
  isnil (swath_loop n ptTop ptBot xInc xIncBot yInc) = Nat.eqb n 0.
Proof. destruct n; reflexivity. Qed.

(** X5.  [Save] after a [Calibrate] that returned [GC_OK]: the model is
    written exactly when the file opens and the top row of the grid does not
    run from right to left, that is when a third of
    [pixelPts[ gridSize.width - 1 ].x - pixelPts[ 0 ].x] does not round below
    zero.  Otherwise the calibration has no search line, [Save] returns
    [GC_ERR] and no file is written. *)
Theorem Calibrate_ok_then_Save (c c' : Calib) (pixelPts worldPts : list Point2d)
    (grid imgSize : Size) (img imgOut out' : Mat) (dc dm ds : bool) :
  Calibrate c pixelPts worldPts grid imgSize img imgOut dc dm ds = Some (GC_OK, c', out') ->
  width grid <= Int.max_int ->
  exists ptLeft ptRight,
    nth_error pixelPts 0 = Some ptLeft
    /\ nth_error pixelPts (Z.to_nat (width grid - 1)) = Some ptRight
    /\ (searchLines (m_model c') = [] <-> cvRound ((d_x ptRight - d_x ptLeft) / 3) < 0)
    /\ forall fs path,
        Save fs c' path
        = if (0 <=? cvRound ((d_x ptRight - d_x ptLeft) / 3)) && can_open fs path
          then (GC_OK, write_file fs path (Json (Save_json c')))
          else (GC_ERR, fs).
Proof.
  intros H Hwmax.
  destruct (Calibrate_ok_form _ _ _ _ _ _ _ _ _ _ _ _ H)
    as (h1 & h2 & geo & ptL & ptR & _ & _ & _ & Hsw & Hgeo & _ & _ & E & _).
  destruct (CalcSearchSwaths_invalid_false _ Hsw) as (_ & _ & _ & Hw & _).
  destruct (swath_geometry_widthTop _ _ Hgeo) as (p0 & pTopRgt & Hp0 & HpT & Hwt).
  assert (Elines : searchLines (m_model c') = swath_lines geo) by (rewrite E; reflexivity).
  assert (Epp : pixelPoints (m_model c') = pixelPts) by (rewrite E; reflexivity).
  assert (Egrid : gridSize (m_model c') = grid) by (rewrite E; reflexivity).
  rewrite Epp in Hp0, HpT. rewrite Egrid in HpT, Hw.
  destruct (right_index_exact (width grid)) as [_ Hidx]; [lia|].
  rewrite Hidx in HpT. rewrite vat_nth_error in Hp0, HpT by lia.
  assert (Hnil : isnil (searchLines (m_model c'))
                 = negb (0 <=? cvRound ((d_x pTopRgt - d_x p0) / 3))).
  { rewrite Elines. unfold swath_lines. rewrite isnil_swath_loop, Hwt.
    destruct (Z.leb_spec 0 (cvRound ((d_x pTopRgt - d_x p0) / 3))) as [Hle|Hlt];
      cbn [negb].
    - apply Nat.eqb_neq. lia.
    - apply Nat.eqb_eq. lia. }
  exists p0, pTopRgt. split; [exact Hp0|]. split; [exact HpT|]. split.
  - rewrite <- isnil_true, Hnil, negb_true_iff, Z.leb_gt. tauto.
  - intros fs path. unfold Save.
    change (Save_invalid c')
      with (CalcSearchSwaths_invalid c' || isnil (searchLines (m_model c'))).
    rewrite Hsw, Hnil. cbn [orb].
    destruct (0 <=? cvRound ((d_x pTopRgt - d_x p0) / 3)); cbn [negb andb];
      [|reflexivity].
    destruct (can_open fs path); reflexivity.
Qed.

End CalibrateOutcome.

Lemma Calibrate_ok_reference_points_witness :
  Calibrate Calib_new demo_pixelPts demo_worldPts (mkSize 2 4) demo_imgSize
    Mat_new Mat_new false false false = Some (GC_OK, demo_calib, Mat_new)
  /\ vsize demo_pixelPts <= Int.max_int
  /\ width (mkSize 2 4) <= Int.max_int
  /\ MoveRefPoint demo_calib false = Some (P2 130 100)
  /\ MoveSearchROI demo_calib false = moveSearchRegion (P2 130 100) demo_imgSize.
Proof.
  assert (H : Calibrate Calib_new demo_pixelPts demo_worldPts (mkSize 2 4) demo_imgSize
                Mat_new Mat_new false false false = Some (GC_OK, demo_calib, Mat_new))
    by (vm_compute; reflexivity).
  assert (H1 : vsize demo_pixelPts <= Int.max_int) by (vm_compute; discriminate).
  assert (H2 : width (mkSize 2 4) <= Int.max_int) by (vm_compute; discriminate).
  split; [exact H|]. split; [exact H1|]. split; [exact H2|].
  destruct (Calibrate_ok_reference_points _ _ _ _ _ _ _ _ _ _ _ _ H H1 H2)
    as (ptLeft & ptRight & _ & Hr & _ & Hmr & _ & Hroi).
  vm_compute in Hr. injection Hr as <-. split; [exact Hmr|exact Hroi].
Defined.

Lemma Calibrate_ok_replaces_object_witness :
  Calibrate Calib_new demo_pixelPts demo_worldPts (mkSize 2 4) demo_imgSize
    Mat_new Mat_new false false false = Some (GC_OK, demo_calib, Mat_new)
  /\ Calibrate mirrored_calib demo_pixelPts demo_worldPts (mkSize 2 4) demo_imgSize
       Mat_new Mat_new false false false = Some (GC_OK, demo_calib, Mat_new).
Proof.
  assert (H : Calibrate Calib_new demo_pixelPts demo_worldPts (mkSize 2 4) demo_imgSize
                Mat_new Mat_new false false false = Some (GC_OK, demo_calib, Mat_new))
    by (vm_compute; reflexivity).
  split; [exact H|].
  exact (Calibrate_ok_replaces_object Calib_new mirrored_calib _ _ _ _ _ _ _ _ _ _ _ H).
Defined.

Lemma Calibrate_ok_conversions_witness :
  @Calibrate cv_degenerate gc_demo ov_demo Calib_new demo_pixelPts demo_worldPts
    (mkSize 2 4) demo_imgSize Mat_new Mat_new false false false
  = Some (GC_OK, degenerate_calib, Mat_new)
  /\ PixelToWorld_point degenerate_calib (P2 100 100) (P2 7 7) = Some (GC_ERR, P2 7 7)
  /\ WorldToPixel degenerate_calib (P2 0 0) (P2 7 7) = Some (GC_ERR, P2 7 7).
Proof.
  assert (H : @Calibrate cv_degenerate gc_demo ov_demo Calib_new demo_pixelPts
                demo_worldPts (mkSize 2 4) demo_imgSize Mat_new Mat_new false false false
              = Some (GC_OK, degenerate_calib, Mat_new))
    by (vm_compute; reflexivity).
  split; [exact H|].
  destruct (@Calibrate_ok_conversions cv_degenerate gc_demo ov_demo cvm_demo
              _ _ _ _ _ _ _ _ _ _ _ _ H)
    as (h1 & h2 & H1 & H2 & Hp & Hw & _).
  injection H1 as <-. injection H2 as <-.
  split; [apply Hp; reflexivity|apply Hw; reflexivity].
Defined.

Lemma Calibrate_small_grid_fails_witness :
  Calibrate_invalid column_pixelPts demo_worldPts (mkSize 1 8) = false
  /\ (width (mkSize 1 8) < 2 \/ height (mkSize 1 8) < 4)
  /\ exists c',
       Calibrate demo_calib column_pixelPts demo_worldPts (mkSize 1 8) demo_imgSize
         Mat_new Mat_new false false false = Some (GC_ERR, c', Mat_new)
       /\ pixelPoints (m_model c') = column_pixelPts.
Proof.
  assert (H1 : Calibrate_invalid column_pixelPts demo_worldPts (mkSize 1 8) = false)
    by reflexivity.
  assert (H2 : width (mkSize 1 8) < 2 \/ height (mkSize 1 8) < 4)
    by (left; reflexivity).
  split; [exact H1|]. split; [exact H2|].
  destruct (Calibrate_small_grid_fails demo_calib column_pixelPts demo_worldPts
              (mkSize 1 8) demo_imgSize Mat_new Mat_new false false false H1 H2)
    as (st & c' & out' & Hrun & _ & Hst & Hpp & _).
  assert (Est : st = GC_ERR) by (apply Hst; split; discriminate).
  subst st. exists c'. split; [|exact Hpp].
  rewrite Hrun. f_equal. f_equal.
  unfold Calibrate in Hrun. vm_compute in Hrun. injection Hrun as _ <-. reflexivity.
Defined.

Lemma Calibrate_ok_then_Save_witness :
  Calibrate Calib_new mirrored_pixelPts demo_worldPts (mkSize 2 4) demo_imgSize
    Mat_new Mat_new false false false = Some (GC_OK, mirrored_calib, Mat_new)
  /\ width (mkSize 2 4) <= Int.max_int
  /\ searchLines (m_model mirrored_calib) = []
  /\ Save fs_empty mirrored_calib "cal.json" = (GC_ERR, fs_empty).
Proof.
  assert (H : Calibrate Calib_new mirrored_pixelPts demo_worldPts (mkSize 2 4) demo_imgSize
                Mat_new Mat_new false false false = Some (GC_OK, mirrored_calib, Mat_new))
    by (vm_compute; reflexivity).
  assert (H2 : width (mkSize 2 4) <= Int.max_int) by (vm_compute; discriminate).
  split; [exact H|]. split; [exact H2|].
  destruct (Calibrate_ok_then_Save _ _ _ _ _ _ _ _ _ _ _ _ H H2)
    as (ptLeft & ptRight & Hl & Hr & Hlines & Hsave).
  vm_compute in Hl. injection Hl as <-. vm_compute in Hr. injection Hr as <-.
  split; [apply Hlines; reflexivity|]. rewrite Hsave. reflexivity.
Defined.

(** ** The move-search regions *)

Section MoveRegionGeometry.
Context {cv : OpenCV} {gc : GcTypes} {cvm : OpenCVMore}.

Lemma cvRound_in_range (q : Q) : Int.in_range (cvRound q).
Proof.
  unfold cvRound, Int.in_range.
  destruct ((Int.min_int <=? round_half_even q) && (round_half_even q <=? Int.max_int))
    eqn:E.
  - apply andb_true_iff in E. destruct E as [E1 E2].
    apply Z.leb_le in E1, E2. lia.
  - unfold Int.min_int, Int.max_int. lia.
Qed.

Lemma Int_add_exact (a b : Z) : Int.in_range (a + b) -> Int.add a b = a + b.
Proof. apply Int_wrap_in_range. Qed.

Lemma Int_sub_exact (a b : Z) : Int.in_range (a - b) -> Int.sub a b = a - b.
Proof. apply Int_wrap_in_range. Qed.

(** The rectangle of [Calibrate] in plain arithmetic. *)
Lemma moveSearchRegion_exact (p : Point2d) (imgSize : Size) :
  0 <= GC_BOWTIE_TEMPLATE_DIM <= 2 ^ 30 - 1 ->
  0 <= cvRound (d_x p) -> 0 <= cvRound (d_y p) ->
  0 <= width imgSize <= Int.max_int -> 0 <= height imgSize <= Int.max_int ->
  moveSearchRegion p imgSize
  = mkRect (Z.max 0 (cvRound (d_x p) - GC_BOWTIE_TEMPLATE_DIM))
           (Z.max 0 (cvRound (d_y p) - GC_BOWTIE_TEMPLATE_DIM))
           (Z.min (width imgSize - cvRound (d_x p)) (GC_BOWTIE_TEMPLATE_DIM * 2))
           (Z.min (height imgSize - cvRound (d_y p)) (GC_BOWTIE_TEMPLATE_DIM * 2)).
Proof.
  intros HD Hx Hy HW HH. unfold moveSearchRegion.
  pose proof (cvRound_in_range (d_x p)) as Rx.
  pose proof (cvRound_in_range (d_y p)) as Ry.
  unfold Int.in_range, Int.min_int, Int.max_int in *.
  rewrite !Int_sub_exact, Int_mul_exact;
    unfold Int.in_range, Int.min_int, Int.max_int; try lia.
  reflexivity.
Qed.

(** X6.  The rectangle that [Calibrate] places around a reference point
    which rounds to a pixel of the image lies inside the image:
    [SetMoveTargetROI] accepts it for every image of that size, and the
    rectangle can be cut out of the image. *)
Theorem moveSearchRegion_accepted (g : FindCalibGrid) (img : Mat) (imgSize : Size)
    (p : Point2d) (isLeft : bool) :
  has_size img imgSize ->
  on_frame p imgSize ->
  fst (SetMoveTargetROI g img (moveSearchRegion p imgSize) isLeft) = GC_OK
  /\ Rect_inside (moveSearchRegion p imgSize) img = true
  /\ exists roi, Mat_roi img (moveSearchRegion p imgSize) = Some roi
                 /\ cols roi = r_width (moveSearchRegion p imgSize)
                 /\ rows roi = r_height (moveSearchRegion p imgSize).
Proof.
  intros [Hc Hr] (HD & Hx & HW & Hy & HH).
  assert (Hin : Rect_inside (moveSearchRegion p imgSize) img = true).
  { rewrite moveSearchRegion_exact by lia. unfold Rect_inside.
    cbn [r_x r_y r_width r_height]. rewrite Hc, Hr.
    repeat (apply andb_true_iff; split); apply Z.leb_le; lia. }
  split; [|split; [exact Hin|]].
  - unfold SetMoveTargetROI, SetMoveTargetROI_invalid. cbn [fst].
    rewrite moveSearchRegion_exact by lia. cbn [r_x r_y r_width r_height].
    unfold Int.max_int in *.
    rewrite !Int_add_exact
      by (unfold Int.in_range, Int.min_int, Int.max_int; lia).
    rewrite Hc, Hr.
    replace (Z.max 0 (cvRound (d_x p) - GC_BOWTIE_TEMPLATE_DIM) <? 0) with false
      by (symmetry; apply Z.ltb_ge; lia).
    replace (Z.max 0 (cvRound (d_y p) - GC_BOWTIE_TEMPLATE_DIM) <? 0) with false
      by (symmetry; apply Z.ltb_ge; lia).
    cbn [orb].
    match goal with |- (if (?a <? ?b) || (?c <? ?d) then _ else _) = _ =>
      replace (a <? b) with false by (symmetry; apply Z.ltb_ge; lia);
      replace (c <? d) with false by (symmetry; apply Z.ltb_ge; lia)
    end.
    reflexivity.
  - unfold Mat_roi. rewrite Hin. eexists. split; [reflexivity|]. split; reflexivity.
Qed.

(** X7.  For a reference point at least [GC_BOWTIE_TEMPLATE_DIM] pixels from
    the left and the top border, the rectangle of [Calibrate] starts
    [GC_BOWTIE_TEMPLATE_DIM] pixels before the point, and it contains the
    point exactly when the point is more than [GC_BOWTIE_TEMPLATE_DIM] pixels
    from the right and the bottom border: the width is cut to the distance
    between the point and the border, not between the corner and the
    border. *)
Theorem moveSearchRegion_contains_point (p : Point2d) (imgSize : Size) :
  on_frame p imgSize ->
  0 < GC_BOWTIE_TEMPLATE_DIM <= cvRound (d_x p) ->
  GC_BOWTIE_TEMPLATE_DIM <= cvRound (d_y p) ->
  r_x (moveSearchRegion p imgSize) = cvRound (d_x p) - GC_BOWTIE_TEMPLATE_DIM
  /\ r_y (moveSearchRegion p imgSize) = cvRound (d_y p) - GC_BOWTIE_TEMPLATE_DIM
  /\ (Rect_contains (moveSearchRegion p imgSize) (cvRound (d_x p)) (cvRound (d_y p)) = true
      <-> GC_BOWTIE_TEMPLATE_DIM < width imgSize - cvRound (d_x p)
          /\ GC_BOWTIE_TEMPLATE_DIM < height imgSize - cvRound (d_y p)).
Proof.
  intros (HD & Hx & HW & Hy & HH) HDx HDy.
  rewrite moveSearchRegion_exact by lia. cbn [r_x r_y].
  split; [lia|]. split; [lia|].
  rewrite Rect_contains_iff. cbn [r_x r_y r_width r_height]. lia.
Qed.

(** X8.  For a rectangle of non-negative width and height the status of
    [SetMoveTargetROI] tells whether the rectangle can be cut out of the
    image, which is what [FindMoveTargets] does with it.  The rectangle is
    stored in either case. *)
Theorem SetMoveTargetROI_status_is_roi_check (g : FindCalibGrid) (img : Mat) (rect : Rect)
    (isLeft : bool) :
  0 <= r_width rect -> 0 <= r_height rect -> Rect_in_range rect ->
  (fst (SetMoveTargetROI g img rect isLeft) = GC_OK <-> Mat_roi img rect <> None)
  /\ (fst (SetMoveTargetROI g img rect isLeft) = GC_ERR <-> Mat_roi img rect = None)
  /\ (if isLeft then fst else snd)
       (GetMoveTargetROIs (snd (SetMoveTargetROI g img rect isLeft))) = rect.
Proof.
  intros Hw Hh [Rx Ry].
  assert (Hiff : SetMoveTargetROI_invalid img rect = negb (Rect_inside rect img)).
  { unfold SetMoveTargetROI_invalid, Rect_inside.
    rewrite !Int_add_exact by assumption.
    destruct (Z.ltb_spec (r_x rect) 0), (Z.ltb_spec (r_y rect) 0),
      (Z.ltb_spec (cols img) (r_x rect + r_width rect)),
      (Z.ltb_spec (rows img) (r_y rect + r_height rect)),
      (Z.leb_spec 0 (r_x rect)), (Z.leb_spec 0 (r_y rect)),
      (Z.leb_spec 0 (r_width rect)), (Z.leb_spec 0 (r_height rect)),
      (Z.leb_spec (r_x rect + r_width rect) (cols img)),
      (Z.leb_spec (r_y rect + r_height rect) (rows img)); try lia; reflexivity. }
  unfold SetMoveTargetROI, Mat_roi. cbn [fst snd]. rewrite Hiff.
  destruct (Rect_inside rect img); cbn [negb].
  - split; [split; [intros _; discriminate|intros _; reflexivity]|].
    split; [split; intros Hc; discriminate Hc|]. destruct isLeft; reflexivity.
  - split; [split; [intros Hc; discriminate Hc|intros Hc; exfalso; apply Hc; reflexivity]|].
    split; [split; intros _; reflexivity|]. destruct isLeft; reflexivity.
Qed.

(** X9.  When [SetMoveTargetROI] returns [GC_ERR] the object keeps the
    rejected rectangle, and until it is replaced every search of that image
    for the move targets ends in [GC_EXCEPT], with nothing found and the
    two points untouched, and [DrawMoveROIs] returns [GC_ERR] without
    drawing. *)
Theorem rejected_move_roi_blocks_search (g g' : FindCalibGrid) (img : Mat) (rect : Rect)
    (isLeft : bool) :
  SetMoveTargetROI g img rect isLeft = (GC_ERR, g') ->
  Rect_in_range rect ->
  (if isLeft then fst else snd) (GetMoveTargetROIs g') = rect
  /\ (m_templates g <> [] -> Mat_empty img = false ->
      forall ptLeft ptRight,
        FindMoveTargets g' img ptLeft ptRight = Some (GC_EXCEPT, g', ptLeft, ptRight))
  /\ DrawMoveROIs g' img = (GC_ERR, img).
Proof.
  intros H [Rx Ry]. unfold SetMoveTargetROI in H.
  destruct (SetMoveTargetROI_invalid img rect) eqn:Hinv; [|discriminate].
  injection H as <-.
  assert (Hroi : Mat_roi img rect = None).
  { unfold Mat_roi.
    replace (Rect_inside rect img) with false; [reflexivity|].
    symmetry. unfold SetMoveTargetROI_invalid in Hinv.
    rewrite !Int_add_exact in Hinv by assumption. unfold Rect_inside.
    destruct (Z.ltb_spec (r_x rect) 0), (Z.ltb_spec (r_y rect) 0),
      (Z.ltb_spec (cols img) (r_x rect + r_width rect)),
      (Z.ltb_spec (rows img) (r_y rect + r_height rect)),
      (Z.leb_spec 0 (r_x rect)), (Z.leb_spec 0 (r_y rect)),
      (Z.leb_spec 0 (r_width rect)), (Z.leb_spec 0 (r_height rect)),
      (Z.leb_spec (r_x rect + r_width rect) (cols img)),
      (Z.leb_spec (r_y rect + r_height rect) (rows img));
      try lia; try reflexivity; discriminate. }
  split; [destruct isLeft; reflexivity|]. split.
  - intros Hne Hemp ptLeft ptRight. unfold FindMoveTargets.
    assert (Ht : isnil (m_templates (if isLeft then with_rectLeft g rect
                                     else with_rectRight g rect)) = false).
    { destruct isLeft; cbn [m_templates with_rectLeft with_rectRight];
        (destruct (m_templates g); [congruence|reflexivity]). }
    rewrite Ht, Hemp.
    assert (Hs : FindMoveTargets_scratch
                   (if isLeft then with_rectLeft g rect else with_rectRight g rect) img
                 = None).
    { unfold FindMoveTargets_scratch.
      destruct isLeft; cbn [m_rectLeftMoveSearch m_rectRightMoveSearch
                            with_rectLeft with_rectRight].
      - rewrite Hroi. reflexivity.
      - destruct (Mat_roi img (m_rectLeftMoveSearch g)); [|reflexivity].
        rewrite Hroi. reflexivity. }
    rewrite Hs. reflexivity.
  - unfold DrawMoveROIs. destruct (depth_is_8U img); cbn [negb]; [|reflexivity].
    assert (Ho : Rect_outside img rect = true) by exact Hinv.
    destruct isLeft; cbn [m_rectLeftMoveSearch m_rectRightMoveSearch
                          with_rectLeft with_rectRight]; rewrite Ho.
    + reflexivity.
    + rewrite orb_true_r. reflexivity.
Qed.

End MoveRegionGeometry.

Lemma moveSearchRegion_accepted_witness :
  has_size demo_frame demo_imgSize
  /\ on_frame (P2 130 100) demo_imgSize
  /\ SetMoveTargetROI FindCalibGrid_new demo_frame
       (MoveSearchROI demo_calib false) false
     = (GC_OK, with_rectRight FindCalibGrid_new (mkRect 74 44 112 112)).
Proof.
  assert (H1 : has_size demo_frame demo_imgSize) by (split; reflexivity).
  assert (H2 : on_frame (P2 130 100) demo_imgSize).
  { unfold on_frame. vm_compute. intuition discriminate. }
  split; [exact H1|]. split; [exact H2|].
  pose proof (proj1 (moveSearchRegion_accepted FindCalibGrid_new demo_frame demo_imgSize
                       (P2 130 100) false H1 H2)) as H.
  change (MoveSearchROI demo_calib false) with (moveSearchRegion (P2 130 100) demo_imgSize).
  unfold SetMoveTargetROI in *. cbn [fst] in H. rewrite H. reflexivity.
Defined.

Lemma moveSearchRegion_contains_point_witness :
  on_frame (P2 600 100) demo_imgSize
  /\ 0 < GC_BOWTIE_TEMPLATE_DIM <= cvRound (d_x (P2 600 100))
  /\ GC_BOWTIE_TEMPLATE_DIM <= cvRound (d_y (P2 600 100))
  /\ moveSearchRegion (P2 600 100) demo_imgSize = mkRect 544 44 40 112
  /\ Rect_contains (moveSearchRegion (P2 600 100) demo_imgSize) 600 100 = false.
Proof.
  assert (H1 : on_frame (P2 600 100) demo_imgSize).
  { unfold on_frame. vm_compute. intuition discriminate. }
  assert (H2 : 0 < GC_BOWTIE_TEMPLATE_DIM <= cvRound (d_x (P2 600 100)))
    by (vm_compute; intuition discriminate).
  assert (H3 : GC_BOWTIE_TEMPLATE_DIM <= cvRound (d_y (P2 600 100)))
    by (vm_compute; discriminate).
  split; [exact H1|]. split; [exact H2|]. split; [exact H3|].
  split; [reflexivity|].
  destruct (moveSearchRegion_contains_point (P2 600 100) demo_imgSize H1 H2 H3)
    as (_ & _ & Hiff).
  destruct (Rect_contains (moveSearchRegion (P2 600 100) demo_imgSize)
              (cvRound (d_x (P2 600 100))) (cvRound (d_y (P2 600 100)))) eqn:E.
  - exfalso. destruct (proj1 Hiff eq_refl) as [Hc _]. vm_compute in Hc. discriminate Hc.
  - exact E.
Defined.

Lemma SetMoveTargetROI_status_is_roi_check_witness :
  0 <= r_width (mkRect 40 20 20 20) /\ 0 <= r_height (mkRect 40 20 20 20)
  /\ Rect_in_range (mkRect 40 20 20 20)
  /\ fst (SetMoveTargetROI demo_grid demo_img (mkRect 40 20 20 20) true) = GC_ERR
  /\ Mat_roi demo_img (mkRect 40 20 20 20) = None.
Proof.
  assert (H1 : 0 <= r_width (mkRect 40 20 20 20)) by (vm_compute; discriminate).
  assert (H2 : 0 <= r_height (mkRect 40 20 20 20)) by (vm_compute; discriminate).
  assert (H3 : Rect_in_range (mkRect 40 20 20 20)).
  { unfold Rect_in_range, Int.in_range. vm_compute. intuition discriminate. }
  split; [exact H1|]. split; [exact H2|]. split; [exact H3|].
  destruct (SetMoveTargetROI_status_is_roi_check demo_grid demo_img (mkRect 40 20 20 20)
              true H1 H2 H3) as (_ & Herr & _).
  split; [reflexivity|]. apply Herr. reflexivity.
Defined.

Lemma rejected_move_roi_blocks_search_witness :
  SetMoveTargetROI demo_grid demo_img (mkRect 40 20 20 20) true
  = (GC_ERR, with_rectLeft demo_grid (mkRect 40 20 20 20))
  /\ Rect_in_range (mkRect 40 20 20 20)
  /\ FindMoveTargets (with_rectLeft demo_grid (mkRect 40 20 20 20)) demo_img
       (P2 0 0) (P2 0 0)
     = Some (GC_EXCEPT, with_rectLeft demo_grid (mkRect 40 20 20 20), P2 0 0, P2 0 0)
  /\ DrawMoveROIs (with_rectLeft demo_grid (mkRect 40 20 20 20)) demo_img
     = (GC_ERR, demo_img).
Proof.
  assert (H1 : SetMoveTargetROI demo_grid demo_img (mkRect 40 20 20 20) true
               = (GC_ERR, with_rectLeft demo_grid (mkRect 40 20 20 20)))
    by reflexivity.
  assert (H2 : Rect_in_range (mkRect 40 20 20 20)).
  { unfold Rect_in_range, Int.in_range. vm_compute. intuition discriminate. }
  split; [exact H1|]. split; [exact H2|].
  destruct (rejected_move_roi_blocks_search demo_grid _ demo_img (mkRect 40 20 20 20)
              true H1 H2) as (_ & Hfind & Hdraw).
  split; [|exact Hdraw].
  apply Hfind; [discriminate|reflexivity].
Defined.

(** ** Load *)

Section LoadOutcome.
Context {cv : OpenCV} {gc : GcTypes} {ov : CalibOverlay}.

Lemma Load_moveSearch_keeps (l : list (string * JsonRect)) :
  forall m,
    pixelPoints (Load_moveSearch l m) = pixelPoints m
    /\ worldPoints (Load_moveSearch l m) = worldPoints m
    /\ gridSize (Load_moveSearch l m) = gridSize m
    /\ searchLines (Load_moveSearch l m) = searchLines m.
Proof.
  induction l as [|[key r] l IH]; intros m; cbn [Load_moveSearch].
  - repeat split.
  - destruct (String.eqb key "Left"); [exact (IH _)|].
    destruct (String.eqb key "Right"); exact (IH _).
Qed.

(** A complete file: [Load] is the [Calibrate] of what it read. *)
Lemma Load_complete (fs : FileSystem) (c : Calib) (path : string) (j : JsonCalib)
    (pw : JsonPixelToWorld) (nodes : list JsonPoint) :
  files fs path = Some (Json j) ->
  PixelToWorld j = Some pw -> points pw = Some nodes ->
  MoveSearchRegions j <> None -> SearchLines j <> None ->
  SizeT.mul (get (columns pw) 2) (get (j_rows pw) 4) = vsize nodes ->
  exists c0,
    Load fs c path
    = ('(retVal, c', _) <-
         Calibrate c0 (map Load_point_pixel nodes) (map Load_point_world nodes)
           (mkSize (int_of_size (get (columns pw) 2)) (int_of_size (get (j_rows pw) 4)))
           (mkSize (get (imageWidth j) 0) (get (imageHeight j) 0))
           Mat_new Mat_new false false false ;;
       Some (retVal, c')).
Proof.
  intros Hf Hpw Hn Hms Hls Hcnt. unfold Load. rewrite Hf, Hpw, Hn.
  destruct (MoveSearchRegions j) as [ms|]; [|congruence].
  destruct (SearchLines j) as [ls|]; [|congruence].
  cbn [m_model with_model pixelPoints worldPoints set_points set_searchLines
       set_gridSize gridSize m_imgSize with_imgSize width height].
  match goal with |- context [pixelPoints (Load_moveSearch ?l ?m)] =>
    destruct (Load_moveSearch_keeps l m) as (Epp & Ewp & _ & _);
    cbn [pixelPoints worldPoints set_points] in Epp, Ewp
  end.
  rewrite Epp, Ewp. unfold vsize in *. rewrite length_map.
  rewrite Hcnt, Z.eqb_refl. cbn [negb]. eexists. reflexivity.
Qed.

Lemma Load_ok_form (fs : FileSystem) (c c' : Calib) (path : string) :
  Load fs c path = Some (GC_OK, c') ->
  exists j pw nodes c0 out,
    files fs path = Some (Json j)
    /\ PixelToWorld j = Some pw /\ points pw = Some nodes
    /\ MoveSearchRegions j <> None /\ SearchLines j <> None
    /\ SizeT.mul (get (columns pw) 2) (get (j_rows pw) 4) = vsize nodes
    /\ Calibrate c0 (map Load_point_pixel nodes) (map Load_point_world nodes)
         (mkSize (int_of_size (get (columns pw) 2)) (int_of_size (get (j_rows pw) 4)))
         (mkSize (get (imageWidth j) 0) (get (imageHeight j) 0))
         Mat_new Mat_new false false false = Some (GC_OK, c', out).
Proof.
  intros H. pose proof H as H0. unfold Load in H.
  destruct (files fs path) as [[|j]|] eqn:Hf; try discriminate.
  destruct (PixelToWorld j) as [pw|] eqn:Hpw; [|discriminate].
  destruct (points pw) as [nodes|] eqn:Hn; [|discriminate].
  destruct (MoveSearchRegions j) as [ms|] eqn:Hms; [|discriminate].
  destruct (SearchLines j) as [ls|] eqn:Hls; [|discriminate].
  destruct (Z.eq_dec (SizeT.mul (get (columns pw) 2) (get (j_rows pw) 4)) (vsize nodes))
    as [Hcnt|Hcnt].
  - clear H.
    assert (Hms' : MoveSearchRegions j <> None) by congruence.
    assert (Hls' : SearchLines j <> None) by congruence.
    destruct (Load_complete fs c path j pw nodes Hf Hpw Hn Hms' Hls' Hcnt) as [c0 Hrun].
    rewrite Hrun in H0.
    destruct (Calibrate c0 _ _ _ _ _ _ _ _ _) as [[[st c1] out]|] eqn:Hcal;
      [|discriminate].
    cbn [bind] in H0. injection H0 as -> ->.
    exists j, pw, nodes, c0, out.
    split; [reflexivity|]. split; [exact Hpw|]. split; [exact Hn|].
    split; [exact Hms'|]. split; [exact Hls'|]. split; [exact Hcnt|exact Hcal].
  - exfalso. clear H0.
    cbn [m_model with_model pixelPoints set_points set_searchLines] in H.
    match type of H with context [pixelPoints (Load_moveSearch ?l ?m)] =>
      destruct (Load_moveSearch_keeps l m) as (Epp & _);
      cbn [pixelPoints set_points] in Epp
    end.
    rewrite Epp in H. unfold vsize in *. rewrite length_map in H.
    apply Z.eqb_neq in Hcnt. rewrite Hcnt in H. discriminate.
Qed.

(** X10.  A [Load] that returns [GC_OK] has used nothing of the file but
    the image size, the grid size and the points, and nothing of the object
    it was called on: a file with the same three, whatever it holds as
    move-search regions and search lines, loads into any object with the
    same result.  The two children have to be there all the same. *)
Theorem Load_ok_ignores_regions_and_lines (fs1 fs2 : FileSystem) (c1 c2 c' : Calib)
    (path1 path2 : string) (j1 j2 : JsonCalib) :
  files fs1 path1 = Some (Json j1) ->
  files fs2 path2 = Some (Json j2) ->
  imageWidth j2 = imageWidth j1 -> imageHeight j2 = imageHeight j1 ->
  PixelToWorld j2 = PixelToWorld j1 ->
  MoveSearchRegions j2 <> None -> SearchLines j2 <> None ->
  Load fs1 c1 path1 = Some (GC_OK, c') ->
  Load fs2 c2 path2 = Some (GC_OK, c').
Proof.
  intros Hf1 Hf2 Ew Eh Epw Hms Hls H.
  destruct (Load_ok_form _ _ _ _ H)
    as (j & pw & nodes & c0 & out & Hf & Hpw & Hn & _ & _ & Hcnt & Hcal).
  rewrite Hf1 in Hf. injection Hf as <-.
  rewrite <- Epw in Hpw.
  destruct (Load_complete fs2 c2 path2 j2 pw nodes Hf2 Hpw Hn Hms Hls Hcnt) as [c3 Hrun].
  rewrite Hrun, Ew, Eh.
  rewrite (Calibrate_ok_any_object c0 c3 _ _ _ _ _ _ _ _ _ _ _ Hcal).
  reflexivity.
Qed.

(** X11.  After a [Load] that returned [GC_OK] the object holds the points
    and the image size of the file, the grid size of the file (2 x 4 where
    the file names none), and what [Calibrate] derives from them: the
    move-search regions around the two reference points and the derived
    search lines. *)
Theorem Load_ok_recomputes_model (fs : FileSystem) (c c' : Calib) (path : string) :
  Load fs c path = Some (GC_OK, c') ->
  exists j pw nodes ptLeft ptRight,
    files fs path = Some (Json j)
    /\ PixelToWorld j = Some pw /\ points pw = Some nodes
    /\ pixelPoints (m_model c') = map Load_point_pixel nodes
    /\ worldPoints (m_model c') = map Load_point_world nodes
    /\ gridSize (m_model c')
       = mkSize (int_of_size (get (columns pw) 2)) (int_of_size (get (j_rows pw) 4))
    /\ m_imgSize c' = mkSize (get (imageWidth j) 0) (get (imageHeight j) 0)
    /\ vat (pixelPoints (m_model c')) 0 = Some ptLeft
    /\ vat (pixelPoints (m_model c'))
         (size_of_int (Int.sub (width (gridSize (m_model c'))) 1)) = Some ptRight
    /\ MoveSearchROI c' true = moveSearchRegion ptLeft (m_imgSize c')
    /\ MoveSearchROI c' false = moveSearchRegion ptRight (m_imgSize c')
    /\ derived_searchLines c' = Some (searchLines (m_model c')).
Proof.
  intros H.
  destruct (Load_ok_form _ _ _ _ H)
    as (j & pw & nodes & c0 & out & Hf & Hpw & Hn & _ & _ & _ & Hcal).
  destruct (Calibrate_ok_form _ _ _ _ _ _ _ _ _ _ _ _ Hcal)
    as (h1 & h2 & geo & ptLeft & ptRight & _ & _ & _ & _ & Hgeo & Hl & Hr & E & _).
  exists j, pw, nodes, ptLeft, ptRight.
  split; [exact Hf|]. split; [exact Hpw|]. split; [exact Hn|].
  unfold derived_searchLines. rewrite Hgeo. rewrite E.
  cbn [Calib_of m_model pixelPoints worldPoints gridSize m_imgSize searchLines
       MoveSearchROI moveSearchRegionLft moveSearchRegionRgt bind width].
  split; [reflexivity|]. split; [reflexivity|]. split; [reflexivity|].
  split; [reflexivity|]. split; [exact Hl|]. split; [exact Hr|].
  split; [reflexivity|]. split; reflexivity.
Qed.

(** X12.  A file that parses but lacks a child that [Load] asks for, or
    whose point count is not [columns * rows], is refused with [GC_EXCEPT],
    respectively [GC_ERR], after the object has been written to: it then
    holds the image size of the file and, where the file has the calibration
    node, the points of the file in place of its own, next to the grid size
    and the homographies it had. *)
Theorem Load_incomplete_file_partial_update (fs : FileSystem) (c : Calib) (path : string)
    (j : JsonCalib) :
  files fs path = Some (Json j) ->
  ~ file_complete j ->
  exists st c',
    Load fs c path = Some (st, c')
    /\ (st = GC_EXCEPT \/ st = GC_ERR)
    /\ (st = GC_ERR <->
        exists pw, PixelToWorld j = Some pw /\ points pw <> None
                   /\ MoveSearchRegions j <> None /\ SearchLines j <> None)
    /\ m_imgSize c' = mkSize (get (imageWidth j) 0) (get (imageHeight j) 0)
    /\ gridSize (m_model c') = gridSize (m_model c)
    /\ m_matHomogPixToWorld c' = m_matHomogPixToWorld c
    /\ m_matHomogWorldToPix c' = m_matHomogWorldToPix c
    /\ (forall pw, PixelToWorld j = Some pw ->
                   pixelPoints (m_model c') = map Load_point_pixel (file_points pw)
                   /\ worldPoints (m_model c') = map Load_point_world (file_points pw)).
Proof.
  intros Hf Hinc. unfold Load. rewrite Hf.
  destruct (PixelToWorld j) as [pw|] eqn:Hpw.
  2:{ eexists _, _. split; [reflexivity|]. split; [left; reflexivity|].
      split; [split; [discriminate|intros (pw & Hc & _); discriminate]|].
      split; [reflexivity|]. split; [reflexivity|]. split; [reflexivity|].
      split; [reflexivity|]. intros pw Hc. discriminate. }
  unfold file_points.
  destruct (points pw) as [nodes|] eqn:Hn.
  2:{ eexists _, _. split; [reflexivity|]. split; [left; reflexivity|].
      split; [split; [discriminate|intros (pw' & Hc & Hp & _)]|].
      { injection Hc as <-. congruence. }
      split; [reflexivity|]. split; [reflexivity|]. split; [reflexivity|].
      split; [reflexivity|]. intros pw' Hc. injection Hc as <-. rewrite Hn.
      split; reflexivity. }
  destruct (MoveSearchRegions j) as [ms|] eqn:Hms.
  2:{ eexists _, _. split; [reflexivity|]. split; [left; reflexivity|].
      split; [split; [discriminate|intros (pw' & _ & _ & Hc & _); congruence]|].
      split; [reflexivity|]. split; [reflexivity|]. split; [reflexivity|].
      split; [reflexivity|]. intros pw' Hc. injection Hc as <-. rewrite Hn.
      split; reflexivity. }
  cbn [m_model with_model].
  match goal with |- context [Load_moveSearch ?l ?m] =>
    destruct (Load_moveSearch_keeps l m) as (Epp & Ewp & Egs & _);
    cbn [pixelPoints worldPoints gridSize set_points] in Epp, Ewp, Egs;
    set (m1 := Load_moveSearch l m) in *
  end.
  destruct (SearchLines j) as [ls|] eqn:Hls.
  2:{ eexists _, _. split; [reflexivity|]. split; [left; reflexivity|].
      split; [split; [discriminate|intros (pw' & _ & _ & _ & Hc); congruence]|].
      cbn [m_model m_imgSize with_imgSize with_model gridSize pixelPoints worldPoints
           set_searchLines m_matHomogPixToWorld m_matHomogWorldToPix width height].
      split; [reflexivity|]. split; [exact Egs|]. split; [reflexivity|].
      split; [reflexivity|]. intros pw' Hc. injection Hc as <-. rewrite Hn.
      split; assumption. }
  cbn [m_model with_model pixelPoints set_searchLines].
  rewrite Epp.
  destruct (Z.eqb_spec (SizeT.mul (get (columns pw) 2) (get (j_rows pw) 4))
              (vsize (map Load_point_pixel nodes))) as [Hcnt|Hcnt].
  { exfalso. apply Hinc. exists pw, nodes.
    split; [exact Hpw|]. split; [exact Hn|].
    split; [congruence|]. split; [congruence|].
    rewrite Hcnt. unfold vsize. rewrite length_map. reflexivity. }
  cbn [negb]. eexists _, _. split; [reflexivity|]. split; [right; reflexivity|].
  split.
  { split; [intros _|reflexivity]. exists pw.
    split; [reflexivity|]. split; [congruence|]. split; congruence. }
  cbn [m_model m_imgSize with_imgSize with_model gridSize pixelPoints worldPoints
       set_searchLines m_matHomogPixToWorld m_matHomogWorldToPix width height].
  split; [reflexivity|]. split; [exact Egs|]. split; [reflexivity|].
  split; [reflexivity|]. intros pw' Hc. injection Hc as <-. rewrite Hn.
  split; assumption.
Qed.

End LoadOutcome.

Lemma Load_ok_ignores_regions_and_lines_witness :
  files demo_fs_saved "cal.json" = Some (Json (Save_json demo_calib))
  /\ files demo_fs_scrambled "other.json" = Some (Json demo_json_scrambled)
  /\ MoveSearchRegions demo_json_scrambled <> MoveSearchRegions (Save_json demo_calib)
  /\ SearchLines demo_json_scrambled <> SearchLines (Save_json demo_calib)
  /\ Load demo_fs_saved Calib_new "cal.json" = Some (GC_OK, demo_calib_loaded)
  /\ Load demo_fs_scrambled mirrored_calib "other.json" = Some (GC_OK, demo_calib_loaded).
Proof.
  assert (H1 : files demo_fs_saved "cal.json" = Some (Json (Save_json demo_calib)))
    by reflexivity.
  assert (H2 : files demo_fs_scrambled "other.json" = Some (Json demo_json_scrambled))
    by reflexivity.
  assert (H3 : imageWidth demo_json_scrambled = imageWidth (Save_json demo_calib))
    by reflexivity.
  assert (H4 : imageHeight demo_json_scrambled = imageHeight (Save_json demo_calib))
    by reflexivity.
  assert (H5 : PixelToWorld demo_json_scrambled = PixelToWorld (Save_json demo_calib))
    by reflexivity.
  assert (H6 : MoveSearchRegions demo_json_scrambled <> None) by discriminate.
  assert (H7 : SearchLines demo_json_scrambled <> None) by discriminate.
  assert (H8 : Load demo_fs_saved Calib_new "cal.json" = Some (GC_OK, demo_calib_loaded))
    by (vm_compute; reflexivity).
  split; [exact H1|]. split; [exact H2|].
  split; [vm_compute; discriminate|]. split; [vm_compute; discriminate|].
  split; [exact H8|].
  exact (Load_ok_ignores_regions_and_lines demo_fs_saved demo_fs_scrambled Calib_new
           mirrored_calib demo_calib_loaded "cal.json" "other.json" _ _
           H1 H2 H3 H4 H5 H6 H7 H8).
Defined.

Lemma Load_ok_recomputes_model_witness :
  Load demo_fs_scrambled Calib_new "other.json" = Some (GC_OK, demo_calib_loaded)
  /\ MoveSearchROI demo_calib_loaded true = mkRect 44 44 112 112
  /\ searchLines (m_model demo_calib_loaded) = demo_lines.
Proof.
  assert (H : Load demo_fs_scrambled Calib_new "other.json"
              = Some (GC_OK, demo_calib_loaded)) by (vm_compute; reflexivity).
  split; [exact H|].
  destruct (Load_ok_recomputes_model _ _ _ _ H)
    as (j & pw & nodes & ptLeft & ptRight & _ & _ & _ & _ & _ & _ & _ & Hl & _ & Hroi
        & _ & Hlines).
  vm_compute in Hl. injection Hl as <-.
  split; [rewrite Hroi; vm_compute; reflexivity|].
  vm_compute. reflexivity.
Defined.

Lemma Load_incomplete_file_partial_update_witness :
  files demo_fs_no_lines "cal.json" = Some (Json demo_json_no_lines)
  /\ ~ file_complete demo_json_no_lines
  /\ exists c',
       Load demo_fs_no_lines mirrored_calib "cal.json" = Some (GC_EXCEPT, c')
       /\ pixelPoints (m_model c') = map fixed3_point demo_pixelPts
       /\ m_matHomogPixToWorld c' = m_matHomogPixToWorld mirrored_calib.
Proof.
  assert (H1 : files demo_fs_no_lines "cal.json" = Some (Json demo_json_no_lines))
    by reflexivity.
  assert (H2 : ~ file_complete demo_json_no_lines).
  { intros (pw & nodes & _ & _ & _ & Hc & _). apply Hc. reflexivity. }
  split; [exact H1|]. split; [exact H2|].
  destruct (Load_incomplete_file_partial_update demo_fs_no_lines mirrored_calib "cal.json"
              demo_json_no_lines H1 H2)
    as (st & c' & Hrun & Hst & Herr & _ & _ & Hh & _ & Hpts).
  exists c'.
  assert (Est : st = GC_EXCEPT).
  { destruct Hst as [E|E]; [exact E|]. exfalso.
    destruct (proj1 Herr E) as (pw & _ & _ & _ & Hc). apply Hc. reflexivity. }
  subst st. split; [exact Hrun|]. split; [|exact Hh].
  destruct (Hpts _ eq_refl) as [Hpp _]. rewrite Hpp. vm_compute. reflexivity.
Defined.

(** ** The grid of found points *)

Section FoundGrid.
Context {cv : OpenCV} {gc : GcTypes} {cvm : OpenCVMore}.

(** What a [SortPoints] that returned [GC_OK] has done. *)
Lemma SortPoints_ok_form (g g' : FindCalibGrid) (sizeSearchImage : Size) :
  SortPoints g sizeSearchImage = Some (GC_OK, g') ->
  let n := (CALIB_POINT_ROW_COUNT * CALIB_POINT_COL_COUNT)%nat in
  let ys := std_sort by_y (firstn n (std_sort by_score (firstn n (m_matchItems g)))) in
  (n <= List.length (m_matchItems g))%nat
  /\ m_matchItems g' = ys
  /\ m_itemArray g' = SortPoints_rows ys
  /\ m_templates g' = m_templates g
  /\ exists row0 first0 last0,
       nth_error (SortPoints_rows ys) 0 = Some row0
       /\ nth_error row0 0 = Some first0
       /\ nth_error row0 (CALIB_POINT_COL_COUNT - 1) = Some last0
       /\ r_width (m_rectLeftMoveSearch g') = cvRound (d_y (pt last0) - d_y (pt first0))
       /\ r_height (m_rectLeftMoveSearch g') = cvRound (d_y (pt last0) - d_y (pt first0))
       /\ r_height (m_rectRightMoveSearch g') = cvRound (d_y (pt last0) - d_y (pt first0)).
Proof.
  intros H. cbv zeta. unfold SortPoints in H.
  destruct (Nat.ltb_spec (List.length (m_matchItems g))
              (CALIB_POINT_ROW_COUNT * CALIB_POINT_COL_COUNT)) as [Hlt|Hge];
    [discriminate|].
  cbn [m_matchItems with_matchItems with_itemArray] in H.
  set (ys := std_sort by_y _) in *.
  unfold SortPoints_rects in H. cbn [m_itemArray with_itemArray] in H.
  destruct (nth_error (SortPoints_rows ys) 0) as [row0|] eqn:Hrow0; [|discriminate].
  cbn [bind] in H.
  destruct (nth_error row0 (CALIB_POINT_COL_COUNT - 1)) as [last0|] eqn:Hlast;
    [|discriminate].
  cbn [bind] in H.
  destruct (nth_error row0 0) as [first0|] eqn:Hfirst; [|discriminate].
  cbn [bind] in H. injection H as <-.
  split; [exact Hge|]. split; [reflexivity|]. split; [reflexivity|].
  split; [reflexivity|].
  exists row0, first0, last0. repeat split; assumption || reflexivity.
Qed.

Lemma SortPoints_sorted_perm (items : list TemplateBowtieItem) (n : nat) :
  (n <= List.length items)%nat ->
  let ys := std_sort by_y (firstn n (std_sort by_score (firstn n items))) in
  Permutation ys (firstn n items) /\ List.length ys = n.
Proof.
  intros Hn. cbv zeta.
  assert (Hlen : List.length (std_sort by_score (firstn n items)) = n).
  { rewrite std_sort_length, length_firstn. lia. }
  split.
  - etransitivity; [apply std_sort_perm|].
    rewrite firstn_all2 by lia. apply std_sort_perm.
  - rewrite std_sort_length, firstn_all2 by lia. exact Hlen.
Qed.

(** [GetFoundPoints] on an object whose grid is the rows of [ys]. *)
Lemma GetFoundPoints_of_rows (g' : FindCalibGrid) (ys row0 : list TemplateBowtieItem)
    (pts : list (list Point2d)) :
  List.length ys = (CALIB_POINT_ROW_COUNT * CALIB_POINT_COL_COUNT)%nat ->
  nth_error (SortPoints_rows ys) 0 = Some row0 ->
  m_itemArray g' = SortPoints_rows ys ->
  GetFoundPoints g' pts = Some (GC_OK, map (map pt) (SortPoints_rows ys))
  /\ List.length (SortPoints_rows ys) = CALIB_POINT_ROW_COUNT
  /\ Forall (fun row => List.length row = CALIB_POINT_COL_COUNT) (SortPoints_rows ys)
  /\ Permutation (List.concat (map (map pt) (SortPoints_rows ys))) (map pt ys).
Proof.
  intros Hlen Hrow0 Harr.
  assert (Hrows : List.length (SortPoints_rows ys) = CALIB_POINT_ROW_COUNT).
  { unfold SortPoints_rows. rewrite length_map, length_seq. reflexivity. }
  assert (Hrowlen : forall i row, nth_error (SortPoints_rows ys) i = Some row ->
                                  List.length row = CALIB_POINT_COL_COUNT).
  { intros i row Hi. apply SortPoints_rows_nth in Hi. destruct Hi as [Hi ->].
    apply SortPoints_row_length; assumption. }
  split.
  { unfold GetFoundPoints. rewrite Harr, Hrow0.
    assert (Hnil : isnil (SortPoints_rows ys) = false).
    { destruct (SortPoints_rows ys); [discriminate|reflexivity]. }
    rewrite Hnil. cbn [bind]. rewrite (Hrowlen _ _ Hrow0), Hrows, Nat.eqb_refl.
    reflexivity. }
  split; [exact Hrows|]. split.
  { rewrite Forall_forall. intros row Hin.
    apply In_nth_error in Hin. destruct Hin as [i Hi]. apply (Hrowlen i), Hi. }
  rewrite <- concat_map. apply Permutation_map, SortPoints_rows_perm, Hlen.
Qed.

(** X13.  After a [SortPoints] that returned [GC_OK], [GetFoundPoints]
    returns [GC_OK] with [CALIB_POINT_ROW_COUNT] rows of
    [CALIB_POINT_COL_COUNT] points, and these are the points of the first
    rows x columns candidates of the list that [SortPoints] was given: a
    candidate further down the list is dropped, whatever its score.  The
    candidate list the object holds afterwards is those candidates by
    ascending y. *)
Theorem SortPoints_then_GetFoundPoints (g g' : FindCalibGrid) (sizeSearchImage : Size)
    (pts : list (list Point2d)) :
  SortPoints g sizeSearchImage = Some (GC_OK, g') ->
  let n := (CALIB_POINT_ROW_COUNT * CALIB_POINT_COL_COUNT)%nat in
  exists grid,
    GetFoundPoints g' pts = Some (GC_OK, grid)
    /\ List.length grid = CALIB_POINT_ROW_COUNT
    /\ Forall (fun row => List.length row = CALIB_POINT_COL_COUNT) grid
    /\ Permutation (List.concat grid) (map pt (firstn n (m_matchItems g)))
    /\ Permutation (m_matchItems g') (firstn n (m_matchItems g))
    /\ StronglySorted y_le (m_matchItems g').
Proof.
  intros H. cbv zeta.
  destruct (SortPoints_ok_form _ _ _ H)
    as (Hn & Hitems & Harr & _ & row0 & first0 & last0 & Hrow0 & _).
  cbv zeta in Hitems, Harr, Hrow0.
  set (n := (CALIB_POINT_ROW_COUNT * CALIB_POINT_COL_COUNT)%nat) in *.
  destruct (SortPoints_sorted_perm (m_matchItems g) n Hn) as [Hperm Hlen].
  cbv zeta in Hperm, Hlen.
  set (ys := std_sort by_y _) in *.
  destruct (GetFoundPoints_of_rows g' ys row0 pts Hlen Hrow0 Harr)
    as (Hget & Hrows & Hcols & Hpts).
  exists (map (map pt) (SortPoints_rows ys)).
  split; [exact Hget|]. split; [rewrite length_map; exact Hrows|].
  split.
  { rewrite Forall_forall. intros row Hin. apply in_map_iff in Hin.
    destruct Hin as (r & <- & Hr). rewrite length_map.
    rewrite Forall_forall in Hcols. apply Hcols, Hr. }
  split.
  { etransitivity; [exact Hpts|]. apply Permutation_map, Hperm. }
  rewrite Hitems. split; [exact Hperm|].
  apply (std_sort_sorted (fun a => d_y (pt a))).
Qed.

Lemma cvRound_negative (q : Q) : (q < - (1 # 2))%Q -> cvRound q < 0.
Proof.
  intros Hq. unfold cvRound.
  destruct ((Int.min_int <=? round_half_even q) && (round_half_even q <=? Int.max_int));
    [|reflexivity].
  pose proof (round_half_even_close q) as H. apply Qabs_Qle_condition in H.
  destruct H as [_ H].
  assert (Hr : (inject_Z (round_half_even q) < inject_Z 0)%Q).
  { change (inject_Z 0) with 0%Q. lra. }
  rewrite <- Zlt_Qlt in Hr. exact Hr.
Qed.

(** X14.  [SortPoints] sizes the two move-search rectangles by the
    difference in height between the two ends of the first grid row,
    [cvRound( m_itemArray[ 0 ][ COLS - 1 ].pt.y - m_itemArray[ 0 ][ 0 ].pt.y )].
    When the right end is more than half a pixel above the left end the
    rectangles have a negative width and height, and every later
    [FindMoveTargets] on the object ends in [GC_EXCEPT]. *)
Theorem SortPoints_sizes_move_roi_by_row_slope (g g' : FindCalibGrid)
    (sizeSearchImage : Size) :
  SortPoints g sizeSearchImage = Some (GC_OK, g') ->
  exists row0 first0 last0,
    nth_error (m_itemArray g') 0 = Some row0
    /\ nth_error row0 0 = Some first0
    /\ nth_error row0 (CALIB_POINT_COL_COUNT - 1) = Some last0
    /\ r_width (m_rectLeftMoveSearch g') = cvRound (d_y (pt last0) - d_y (pt first0))
    /\ r_height (m_rectLeftMoveSearch g') = cvRound (d_y (pt last0) - d_y (pt first0))
    /\ r_height (m_rectRightMoveSearch g') = cvRound (d_y (pt last0) - d_y (pt first0))
    /\ ((d_y (pt last0) - d_y (pt first0) < - (1 # 2))%Q ->
        forall img ptLeft ptRight,
          m_templates g <> [] -> Mat_empty img = false ->
          FindMoveTargets g' img ptLeft ptRight = Some (GC_EXCEPT, g', ptLeft, ptRight)).
Proof.
  intros H.
  destruct (SortPoints_ok_form _ _ _ H)
    as (_ & _ & Harr & Ht & row0 & first0 & last0 & Hrow0 & Hfirst & Hlast
        & Hw & Hh & Hh').
  cbv zeta in Harr, Hrow0.
  exists row0, first0, last0. rewrite Harr.
  split; [exact Hrow0|]. split; [exact Hfirst|]. split; [exact Hlast|].
  split; [exact Hw|]. split; [exact Hh|]. split; [exact Hh'|].
  intros Hslope img ptLeft ptRight Hne Hemp.
  apply cvRound_negative in Hslope.
  unfold FindMoveTargets. rewrite Ht.
  assert (Hnil : isnil (m_templates g) = false).
  { destruct (m_templates g); [congruence|reflexivity]. }
  rewrite Hnil, Hemp.
  assert (Hs : FindMoveTargets_scratch g' img = None).
  { unfold FindMoveTargets_scratch, Mat_roi.
    assert (Hin : Rect_inside (m_rectLeftMoveSearch g') img = false).
    { unfold Rect_inside.
      replace (0 <=? r_width (m_rectLeftMoveSearch g')) with false
        by (symmetry; apply Z.leb_gt; lia).
      rewrite andb_false_r. reflexivity. }
    rewrite Hin. reflexivity. }
  rewrite Hs. reflexivity.
Qed.

End FoundGrid.

Lemma SortPoints_then_GetFoundPoints_witness :
  SortPoints (demo_grid_with demo_candidates_9) (Mat_size demo_img)
  = Some (GC_OK, demo_sorted_9)
  /\ score (item_at 20 41 (9 # 10)) = (9 # 10)%Q
  /\ In (item_at 20 41 (9 # 10)) demo_candidates_9
  /\ exists grid,
       GetFoundPoints demo_sorted_9 [] = Some (GC_OK, grid)
       /\ List.length grid = 4%nat
       /\ ~ In (P2 20 41) (List.concat grid).
Proof.
  assert (H : SortPoints (demo_grid_with demo_candidates_9) (Mat_size demo_img)
              = Some (GC_OK, demo_sorted_9)) by (vm_compute; reflexivity).
  split; [exact H|]. split; [reflexivity|].
  split; [vm_compute; tauto|].
  destruct (SortPoints_then_GetFoundPoints _ _ _ [] H)
    as (grid & Hget & Hlen & _ & Hperm & _).
  exists grid. split; [exact Hget|]. split; [exact Hlen|].
  intros Hin. apply (Permutation_in _ Hperm) in Hin.
  vm_compute in Hin.
  repeat (destruct Hin as [Hin|Hin]; [discriminate Hin|]). exact Hin.
Defined.

Lemma SortPoints_sizes_move_roi_by_row_slope_witness :
  SortPoints (demo_grid_with demo_candidates_rising) (Mat_size demo_img)
  = Some (GC_OK, demo_sorted_rising)
  /\ m_rectLeftMoveSearch demo_sorted_rising = mkRect 21 43 (-2) (-2)
  /\ FindMoveTargets demo_sorted_rising demo_img (P2 0 0) (P2 0 0)
     = Some (GC_EXCEPT, demo_sorted_rising, P2 0 0, P2 0 0).
Proof.
  assert (H : SortPoints (demo_grid_with demo_candidates_rising) (Mat_size demo_img)
              = Some (GC_OK, demo_sorted_rising)) by (vm_compute; reflexivity).
  split; [exact H|]. split; [reflexivity|].
  destruct (SortPoints_sizes_move_roi_by_row_slope _ _ _ H)
    as (row0 & first0 & last0 & Hrow0 & Hfirst & Hlast & _ & _ & _ & Hfind).
  vm_compute in Hrow0. injection Hrow0 as <-.
  vm_compute in Hfirst. injection Hfirst as <-.
  vm_compute in Hlast. injection Hlast as <-.
  apply Hfind; [reflexivity|discriminate|reflexivity].
Defined.

(** ** The window of MatchRefine *)

Section RefineWindow.
Context {cv : OpenCV} {gc : GcTypes}.

Lemma Int_shr_div (a n : Z) : 0 <= n -> Int.shr a n = a / 2 ^ n.
Proof. intros Hn. unfold Int.shr. apply Z.shiftr_div_pow2, Hn. Qed.

Lemma MatchRefine_rect_exact (img templ0 : Mat) (item : TemplateBowtieItem) :
  refine_in_range img templ0 item ->
  let w := cols templ0 + cols templ0 / 2 in
  let h := rows templ0 + rows templ0 / 2 in
  let x0 := Z.max 0 (cvRound (d_x (pt item)) - cols templ0 / 2 - cols templ0 / 4) in
  let y0 := Z.max 0 (cvRound (d_y (pt item)) - rows templ0 / 2 - rows templ0 / 4) in
  MatchRefine_rect img templ0 item
  = mkRect (if cols img <=? x0 + w then cols img - w else x0)
           (if rows img <=? y0 + h then rows img - h else y0) w h.
Proof.
  intros (Hw & Hh & Hc & Hr & Hx & Hy). cbv zeta. unfold MatchRefine_rect.
  rewrite !Int_shr_div by lia. change (2 ^ 1) with 2. change (2 ^ 2) with 4.
  unfold Int.max_int in *.
  assert (Hw2 : 0 <= cols templ0 / 2 <= cols templ0)
    by (split; [apply Z.div_pos; lia|apply Z.div_le_upper_bound; lia]).
  assert (Hw4 : 0 <= cols templ0 / 4 <= cols templ0)
    by (split; [apply Z.div_pos; lia|apply Z.div_le_upper_bound; lia]).
  assert (Hh2 : 0 <= rows templ0 / 2 <= rows templ0)
    by (split; [apply Z.div_pos; lia|apply Z.div_le_upper_bound; lia]).
  assert (Hh4 : 0 <= rows templ0 / 4 <= rows templ0)
    by (split; [apply Z.div_pos; lia|apply Z.div_le_upper_bound; lia]).
  set (w2 := cols templ0 / 2) in *. set (w4 := cols templ0 / 4) in *.
  set (h2 := rows templ0 / 2) in *. set (h4 := rows templ0 / 4) in *.
  assert (P : 2 ^ 29 = 536870912) by reflexivity.
  assert (P' : 2 ^ 30 = 1073741824) by reflexivity.
  assert (P'' : 2 ^ 31 = 2147483648) by reflexivity.
  rewrite P in *. rewrite P' in *. rewrite P'' in *.
  assert (R : forall z, - 2147483648 <= z <= 2147483647 -> Int.wrap z = z).
  { intros z Hz. apply Int_wrap_in_range.
    unfold Int.in_range, Int.min_int, Int.max_int. lia. }
  unfold Int.sub, Int.add.
  rewrite (R (cvRound (d_x (pt item)) - w2)) by lia.
  rewrite (R (cvRound (d_x (pt item)) - w2 - w4)) by lia.
  rewrite (R (cvRound (d_y (pt item)) - h2)) by lia.
  rewrite (R (cvRound (d_y (pt item)) - h2 - h4)) by lia.
  rewrite (R (cols templ0 + w2)) by lia.
  rewrite (R (rows templ0 + h2)) by lia.
  rewrite (R (Z.max 0 (cvRound (d_x (pt item)) - w2 - w4) + (cols templ0 + w2))) by lia.
  rewrite (R (Z.max 0 (cvRound (d_y (pt item)) - h2 - h4) + (rows templ0 + h2))) by lia.
  rewrite (R (cols img - (cols templ0 + w2))) by lia.
  rewrite (R (rows img - (rows templ0 + h2))) by lia.
  reflexivity.
Qed.

(** X15.  The window that [MatchRefine] cuts around a candidate is one and
    a half templates wide and high, and it lies inside the image exactly
    when the image is at least that large: a window that would cross the
    right or the bottom border is moved back, one that starts before the
    left or the top border starts at zero.  On a smaller image
    [MatchRefine] returns [GC_EXCEPT] once the correlation over the whole
    image has been computed, and the candidate stays as it was. *)
Theorem MatchRefine_window_inside_image (g : FindCalibGrid) (index : Z) (img templ templ0 : Mat)
    (minScore : Q) (numToFind : Z) (item : TemplateBowtieItem) :
  refine_in_range img templ0 item ->
  let rect := MatchRefine_rect img templ0 item in
  r_width rect = cols templ0 + cols templ0 / 2
  /\ r_height rect = rows templ0 + rows templ0 / 2
  /\ (Mat_roi img rect <> None <->
      r_width rect <= cols img /\ r_height rect <= rows img)
  /\ (index_invalid index = false -> minScore_invalid minScore = false ->
      numToFind_invalid numToFind = false ->
      vat (m_templates g) (size_of_int index) = Some templ ->
      vat (m_templates g) 0 = Some templ0 ->
      matchTemplate img templ <> None ->
      cols img < r_width rect \/ rows img < r_height rect ->
      exists g', MatchRefine g index img minScore numToFind item
                 = Some (GC_EXCEPT, g', item)
                 /\ m_templates g' = m_templates g
                 /\ m_matchItems g' = m_matchItems g).
Proof.
  intros Hrange. cbv zeta.
  pose proof (MatchRefine_rect_exact img templ0 item Hrange) as E. cbv zeta in E.
  destruct Hrange as (Hw & Hh & Hc & Hr & Hx & Hy).
  assert (Hw2 : 0 <= cols templ0 / 2) by (apply Z.div_pos; lia).
  assert (Hh2 : 0 <= rows templ0 / 2) by (apply Z.div_pos; lia).
  assert (Hroi : Mat_roi img (MatchRefine_rect img templ0 item) <> None <->
                 r_width (MatchRefine_rect img templ0 item) <= cols img
                 /\ r_height (MatchRefine_rect img templ0 item) <= rows img).
  { unfold Mat_roi. rewrite E. unfold Rect_inside. cbn [r_x r_y r_width r_height].
    set (w := cols templ0 + cols templ0 / 2) in *.
    set (h := rows templ0 + rows templ0 / 2) in *.
    set (x0 := Z.max 0 _). set (y0 := Z.max 0 _).
    assert (0 <= x0) by (unfold x0; lia). assert (0 <= y0) by (unfold y0; lia).
    destruct (Z.leb_spec (cols img) (x0 + w)), (Z.leb_spec (rows img) (y0 + h)).
    - destruct (Z.leb_spec 0 (cols img - w)), (Z.leb_spec 0 w),
        (Z.leb_spec (cols img - w + w) (cols img)), (Z.leb_spec 0 (rows img - h)),
        (Z.leb_spec 0 h), (Z.leb_spec (rows img - h + h) (rows img));
        cbn [andb]; split; try lia; try discriminate; try congruence;
        intros; exfalso; lia.
    - destruct (Z.leb_spec 0 (cols img - w)), (Z.leb_spec 0 w),
        (Z.leb_spec (cols img - w + w) (cols img)), (Z.leb_spec 0 y0),
        (Z.leb_spec 0 h), (Z.leb_spec (y0 + h) (rows img));
        cbn [andb]; split; try lia; try discriminate; try congruence;
        intros; exfalso; lia.
    - destruct (Z.leb_spec 0 x0), (Z.leb_spec 0 w),
        (Z.leb_spec (x0 + w) (cols img)), (Z.leb_spec 0 (rows img - h)),
        (Z.leb_spec 0 h), (Z.leb_spec (rows img - h + h) (rows img));
        cbn [andb]; split; try lia; try discriminate; try congruence;
        intros; exfalso; lia.
    - destruct (Z.leb_spec 0 x0), (Z.leb_spec 0 w),
        (Z.leb_spec (x0 + w) (cols img)), (Z.leb_spec 0 y0),
        (Z.leb_spec 0 h), (Z.leb_spec (y0 + h) (rows img));
        cbn [andb]; split; try lia; try discriminate; try congruence;
        intros; exfalso; lia. }
  split; [rewrite E; reflexivity|]. split; [rewrite E; reflexivity|].
  split; [exact Hroi|].
  intros Hidx Hms Hnum Ht Ht0 Hmatch Hsmall.
  unfold MatchRefine. rewrite Hidx, Hms, Hnum.
  cbn [m_templates with_matchSpace]. rewrite Ht. cbn [bind].
  destruct (matchTemplate img templ) as [result|]; [|congruence].
  rewrite Ht0. cbn [bind].
  destruct (Mat_roi img (MatchRefine_rect img templ0 item)) as [roi|] eqn:Hcut.
  - exfalso. assert (Hin : Some roi <> None) by discriminate.
    apply Hroi in Hin. lia.
  - eexists. split; [reflexivity|]. split; reflexivity.
Qed.

End RefineWindow.

Lemma MatchRefine_window_inside_image_witness :
  refine_in_range demo_img_small demo_template demo_item
  /\ MatchRefine_rect demo_img_small demo_template demo_item = mkRect (-1) (-1) 6 6
  /\ exists g', MatchRefine demo_grid 1 demo_img_small (1 # 2) 1 demo_item
                = Some (GC_EXCEPT, g', demo_item).
Proof.
  assert (H : refine_in_range demo_img_small demo_template demo_item).
  { unfold refine_in_range. vm_compute. intuition discriminate. }
  split; [exact H|]. split; [reflexivity|].
  destruct (MatchRefine_window_inside_image demo_grid 1 demo_img_small demo_template
              demo_template (1 # 2) 1 demo_item H) as (_ & _ & _ & Hrun).
  destruct Hrun as (g' & Hg' & _).
  - reflexivity.
  - reflexivity.
  - reflexivity.
  - reflexivity.
  - reflexivity.
  - discriminate.
  - left. vm_compute. reflexivity.
  - exists g'. exact Hg'.
Defined.

(** ** The two searches *)

Section Searches.
Context {cv : OpenCV} {gc : GcTypes} {cvm : OpenCVMore}.

(** [MatchRefine] writes the two match spaces and the candidate it is
    given, and never lowers the score of the candidate. *)
Lemma MatchRefine_keeps (g g' : FindCalibGrid) (index : Z) (img : Mat) (minScore : Q)
    (numToFind : Z) (item item' : TemplateBowtieItem) (st : GC_STATUS) :
  MatchRefine g index img minScore numToFind item = Some (st, g', item') ->
  m_matchItems g' = m_matchItems g /\ m_templates g' = m_templates g
  /\ (score item <= score item')%Q.
Proof.
  unfold MatchRefine.
  destruct (index_invalid index).
  { intros E. injection E as <- <- <-. repeat split; apply Qle_refl. }
  destruct (minScore_invalid minScore).
  { intros E. injection E as <- <- <-. repeat split; apply Qle_refl. }
  destruct (numToFind_invalid numToFind).
  { intros E. injection E as <- <- <-. repeat split; apply Qle_refl. }
  cbn [m_templates with_matchSpace].
  destruct (vat (m_templates g) (size_of_int index)) as [templ|]; [|discriminate].
  cbn [bind].
  destruct (matchTemplate img templ) as [result|].
  2:{ intros E. injection E as <- <- <-. repeat split; apply Qle_refl. }
  destruct (vat (m_templates g) 0) as [templ0|]; [|discriminate]. cbn [bind].
  destruct (Mat_roi img (MatchRefine_rect img templ0 item)) as [roi|].
  2:{ intros E. injection E as <- <- <-. repeat split; apply Qle_refl. }
  destruct (matchTemplate roi templ) as [small|].
  2:{ intros E. injection E as <- <- <-. repeat split; apply Qle_refl. }
  cbn [m_matchSpaceSmall with_matchSpaceSmall].
  destruct (minMaxLoc small) as [[[dMin maxScore] ptMin] ptMax].
  destruct (Qlt_bool (score item) maxScore) eqn:Hlt.
  2:{ intros E. injection E as <- <- <-. repeat split; apply Qle_refl. }
  destruct (SubpixelPointRefine small ptMax (mkPoint2d 0 0)) as [[r ptFinal]|];
    [|discriminate].
  cbn [bind]. destruct (GC_STATUS_eqb GC_OK r).
  - intros E. injection E as <- <- <-. split; [reflexivity|]. split; [reflexivity|].
    cbn [score]. apply Qlt_le_weak, Qlt_bool_iff, Hlt.
  - intros E. injection E as <- <- <-. repeat split; apply Qle_refl.
Qed.

Lemma refine_templates_keeps (img : Mat) (minScore : Q) (n : nat) :
  forall (j : Z) (g g' : FindCalibGrid) (item item' : TemplateBowtieItem) (st : GC_STATUS),
    refine_templates n j g img minScore item = Some (st, g', item') ->
    m_matchItems g' = m_matchItems g /\ m_templates g' = m_templates g
    /\ (score item <= score item')%Q.
Proof.
  induction n as [|n IH]; intros j g g' item item' st; cbn [refine_templates].
  - intros E. injection E as <- <- <-. repeat split; apply Qle_refl.
  - destruct (MatchRefine g j img minScore 1 item) as [[[r g1] item1]|] eqn:Hrun;
      [|discriminate].
    cbn [bind]. destruct (MatchRefine_keeps _ _ _ _ _ _ _ _ _ Hrun) as (E1 & E2 & E3).
    destruct (GC_STATUS_eqb GC_OK r).
    + intros H. destruct (IH _ _ _ _ _ _ H) as (F1 & F2 & F3).
      split; [congruence|]. split; [congruence|]. eapply Qle_trans; eassumption.
    + intros E. injection E as <- <- <-. repeat split; assumption.
Qed.

Lemma refine_items_scores (img : Mat) (minScore lo : Q)
    (tempItems : list TemplateBowtieItem) :
  Forall (fun it => (lo <= score it)%Q) tempItems ->
  forall (g g' : FindCalibGrid) (st : GC_STATUS),
    Forall (fun it => (lo <= score it)%Q) (m_matchItems g) ->
    refine_items tempItems g img minScore = Some (st, g') ->
    Forall (fun it => (lo <= score it)%Q) (m_matchItems g')
    /\ m_templates g' = m_templates g.
Proof.
  induction 1 as [|item rest Hitem Hrest IH]; intros g g' st Hg; cbn [refine_items].
  - intros E. injection E as <- <-. split; [exact Hg|reflexivity].
  - destruct (refine_templates (Z.to_nat TEMPLATE_COUNT) 0 g img minScore item)
      as [[[r g1] item1]|] eqn:Hrun; [|discriminate].
    cbn [bind]. destruct (refine_templates_keeps _ _ _ _ _ _ _ _ _ Hrun) as (E1 & E2 & E3).
    destruct (GC_STATUS_eqb GC_OK r).
    + intros H. apply IH in H.
      * destruct H as [F1 F2]. split; [exact F1|]. rewrite F2. exact E2.
      * cbn [m_matchItems with_matchItems]. rewrite E1. apply Forall_app.
        split; [exact Hg|]. constructor; [|constructor].
        eapply Qle_trans; eassumption.
    + intros E. injection E as <- <-. split; [rewrite E1; exact Hg|exact E2].
Qed.

(** A [MatchTemplate] that returned [GC_OK]. *)
Lemma MatchTemplate_ok_scores (g g' : FindCalibGrid) (index : Z) (img : Mat)
    (minScore : Q) (numToFind : Z) :
  MatchTemplate g index img minScore numToFind = Some (GC_OK, g') ->
  minScore_invalid minScore = false
  /\ Forall (fun it => (minScore <= score it)%Q) (m_matchItems g')
  /\ m_templates g' = m_templates g.
Proof.
  unfold MatchTemplate.
  destruct (index_invalid index); [discriminate|].
  destruct (minScore_invalid minScore); [discriminate|].
  destruct (numToFind_invalid numToFind); [discriminate|].
  cbn [m_templates with_matchSpace with_matchItems m_matchSpace m_matchItems].
  destruct (vat (m_templates g) (size_of_int index)) as [templ|]; [|discriminate].
  cbn [bind]. destruct (matchTemplate img templ) as [result|]; [|discriminate].
  destruct (vat (m_templates g) 0) as [templ0|]; [|discriminate]. cbn [bind].
  pose proof (MatchTemplate_loop_scores img templ0 minScore (Z.to_nat numToFind)
                result [] (Forall_nil _)) as Hs.
  destruct (MatchTemplate_loop (Z.to_nat numToFind) img templ0 minScore result [])
    as [matchSpace items].
  cbn [snd] in Hs. cbn [m_matchItems with_matchItems].
  destruct (isnil items); [discriminate|].
  intros E. injection E as <-. split; [reflexivity|]. split; [exact Hs|reflexivity].
Qed.

Lemma SortPoints_returns (g : FindCalibGrid) (sizeSearchImage : Size) :
  (0 < CALIB_POINT_ROW_COUNT)%nat -> (0 < CALIB_POINT_COL_COUNT)%nat ->
  exists st g', SortPoints g sizeSearchImage = Some (st, g')
                /\ m_templates g' = m_templates g.
Proof.
  intros HR HC. unfold SortPoints.
  destruct (Nat.ltb_spec (List.length (m_matchItems g))
              (CALIB_POINT_ROW_COUNT * CALIB_POINT_COL_COUNT)) as [Hlt|Hge].
  { eexists _, _. split; reflexivity. }
  cbn [m_matchItems with_matchItems with_itemArray].
  set (n := (CALIB_POINT_ROW_COUNT * CALIB_POINT_COL_COUNT)%nat) in *.
  destruct (SortPoints_sorted_perm (m_matchItems g) n Hge) as [_ Hlen].
  cbv zeta in Hlen. set (ys := std_sort by_y _) in *.
  unfold SortPoints_rects. cbn [m_itemArray with_itemArray].
  destruct (nth_error (SortPoints_rows ys) 0) as [row0|] eqn:Hrow0.
  2:{ apply nth_error_None in Hrow0. unfold SortPoints_rows in Hrow0.
      rewrite length_map, length_seq in Hrow0. lia. }
  assert (Hlen0 : List.length row0 = CALIB_POINT_COL_COUNT).
  { apply SortPoints_rows_nth in Hrow0. destruct Hrow0 as [Hi ->].
    apply SortPoints_row_length; assumption. }
  cbn [bind].
  destruct (nth_error row0 (CALIB_POINT_COL_COUNT - 1)) as [last0|] eqn:Hlast.
  2:{ apply nth_error_None in Hlast. lia. }
  destruct (nth_error row0 0) as [first0|] eqn:Hfirst.
  2:{ apply nth_error_None in Hfirst. lia. }
  cbn [bind]. eexists _, _. split; reflexivity.
Qed.

(** X16.  [FindTargets] tests [minScore] against 0.01, but the coarse match
    it starts with refuses every score below 0.05: for a [minScore] below
    0.05 or above 1 the call returns [GC_ERR] and the object is as it
    was. *)
Theorem FindTargets_score_bounds (g : FindCalibGrid) (img : Mat) (minScore : Q)
    (resultFilepath : string) :
  (minScore < 5 # 100)%Q \/ (1 < minScore)%Q ->
  FindTargets g img minScore resultFilepath = Some (Returned GC_ERR g).
Proof.
  intros Hbad. unfold FindTargets.
  destruct (Qlt_bool minScore (1 # 100) || Qlt_bool 1 minScore); [reflexivity|].
  assert (Hinv : minScore_invalid minScore = true).
  { unfold minScore_invalid. apply orb_true_iff.
    destruct Hbad as [H|H]; [left|right]; apply Qlt_bool_iff, H. }
  unfold MatchTemplate. rewrite Hinv.
  destruct (index_invalid (Int.shr TEMPLATE_COUNT 1)); reflexivity.
Qed.

(** X17.  The test of [FindTargets] for an object without templates sets a
    status that the next statement overwrites: with an accepted [minScore]
    the call goes on to [MatchTemplate], which reads
    [m_templates[ TEMPLATE_COUNT >> 1 ]] of the empty vector. *)
Theorem FindTargets_without_templates_reads_past_end (g : FindCalibGrid) (img : Mat)
    (minScore : Q) (resultFilepath : string) :
  m_templates g = [] ->
  (5 # 100 <= minScore <= 1)%Q ->
  index_invalid (Int.shr TEMPLATE_COUNT 1) = false ->
  numToFind_invalid (Int.mul TARGET_COUNT 2) = false ->
  FindTargets g img minScore resultFilepath = None
  /\ exists retVal, FindMoveTargets g img (mkPoint2d 0 0) (mkPoint2d 0 0)
                    = Some (retVal, g, mkPoint2d 0 0, mkPoint2d 0 0)
                    /\ retVal = GC_ERR.
Proof.
  intros Ht [Hlo Hhi] Hidx Hnum. split.
  - unfold FindTargets.
    assert (H1 : Qlt_bool minScore (1 # 100) = false).
    { apply Qlt_bool_false_iff. eapply Qle_trans; [|exact Hlo]. discriminate. }
    assert (H2 : Qlt_bool 1 minScore = false) by (apply Qlt_bool_false_iff, Hhi).
    rewrite H1, H2. cbn [orb]. unfold MatchTemplate. rewrite Hidx, Hnum.
    assert (H3 : minScore_invalid minScore = false).
    { unfold minScore_invalid. rewrite H2.
      replace (Qlt_bool minScore (5 # 100)) with false; [reflexivity|].
      symmetry. apply Qlt_bool_false_iff, Hlo. }
    rewrite H3. cbn [m_templates with_matchSpace with_matchItems]. rewrite Ht.
    unfold vat. destruct (0 <=? size_of_int (Int.shr TEMPLATE_COUNT 1)); [|reflexivity].
    destruct (Z.to_nat (size_of_int (Int.shr TEMPLATE_COUNT 1))); reflexivity.
  - exists GC_ERR. unfold FindMoveTargets. rewrite Ht. split; reflexivity.
Qed.

(** X18.  A [FindTargets] that returns [GC_OK] leaves rows x columns
    candidates in the object, every one with a score of at least
    [minScore], which itself lies between 0.05 and 1; [GetFoundPoints] then
    returns [GC_OK] with their points as [CALIB_POINT_ROW_COUNT] rows of
    [CALIB_POINT_COL_COUNT]. *)
Theorem FindTargets_ok_grid (g g' : FindCalibGrid) (img : Mat) (minScore : Q)
    (resultFilepath : string) (pts : list (list Point2d)) :
  FindTargets g img minScore resultFilepath = Some (Returned GC_OK g') ->
  (5 # 100 <= minScore <= 1)%Q
  /\ m_templates g' = m_templates g
  /\ List.length (m_matchItems g')
     = (CALIB_POINT_ROW_COUNT * CALIB_POINT_COL_COUNT)%nat
  /\ Forall (fun it => (minScore <= score it)%Q) (m_matchItems g')
  /\ exists grid,
       GetFoundPoints g' pts = Some (GC_OK, grid)
       /\ List.length grid = CALIB_POINT_ROW_COUNT
       /\ Forall (fun row => List.length row = CALIB_POINT_COL_COUNT) grid
       /\ Permutation (List.concat grid) (map pt (m_matchItems g')).
Proof.
  unfold FindTargets.
  destruct (Qlt_bool minScore (1 # 100) || Qlt_bool 1 minScore); [discriminate|].
  destruct (MatchTemplate g (Int.shr TEMPLATE_COUNT 1) img minScore
              (Int.mul TARGET_COUNT 2)) as [[st1 g1]|] eqn:Hmatch; [|discriminate].
  cbn [bind].
  destruct (GC_STATUS_eqb GC_OK st1) eqn:Hst1.
  2:{ intros E. injection E as -> _. discriminate. }
  apply GC_STATUS_eqb_eq in Hst1. subst st1.
  destruct (MatchTemplate_ok_scores _ _ _ _ _ _ Hmatch) as (Hms & Hsc1 & Ht1).
  destruct (refine_items (m_matchItems g1) (with_matchItems g1 []) img minScore)
    as [[st2 g2]|] eqn:Hrefine; [|discriminate].
  cbn [bind].
  destruct (refine_items_scores img minScore minScore (m_matchItems g1) Hsc1
              (with_matchItems g1 []) g2 st2 (Forall_nil _) Hrefine) as [Hsc2 Ht2].
  destruct (SortPoints g2 (Mat_size img)) as [[st3 g3]|] eqn:Hsort; [|discriminate].
  cbn [bind]. intros Hret.
  assert (E : st3 = GC_OK /\ g3 = g').
  { destruct (String.eqb resultFilepath "").
    - injection Hret as -> ->. split; reflexivity.
    - destruct (writeTargets img (m_matchItems g3) resultFilepath) as [isOK|];
        [|discriminate].
      destruct isOK; injection Hret as Hs ->; [|discriminate].
      split; [exact Hs|reflexivity]. }
  destruct E as [-> ->]. clear Hret.
  destruct (SortPoints_ok_form _ _ _ Hsort)
    as (Hn & Eitems & Harr & Ht3 & row0 & first0 & last0 & Hrow0 & _).
  cbv zeta in Eitems, Harr, Hrow0.
  destruct (SortPoints_sorted_perm (m_matchItems g2) _ Hn) as [Hitems Hylen].
  cbv zeta in Hitems, Hylen.
  set (ys := std_sort by_y _) in *.
  destruct (GetFoundPoints_of_rows g' ys row0 pts Hylen Hrow0 Harr)
    as (Hget & Hlen & Hrows & Hperm).
  split.
  { unfold minScore_invalid in Hms. apply orb_false_iff in Hms.
    destruct Hms as [Hlo Hhi]. apply Qlt_bool_false_iff in Hlo, Hhi.
    split; assumption. }
  split; [rewrite Ht3, Ht2; exact Ht1|].
  rewrite Eitems.
  split; [exact Hylen|].
  split.
  { rewrite Forall_forall. intros it Hin.
    apply (Permutation_in _ Hitems) in Hin.
    rewrite Forall_forall in Hsc2. apply Hsc2.
    match type of Hin with In _ (firstn ?k ?l) =>
      rewrite <- (firstn_skipn k l) end.
    apply in_or_app. left. exact Hin. }
  exists (map (map pt) (SortPoints_rows ys)).
  split; [exact Hget|]. split; [rewrite length_map; exact Hlen|].
  split; [|exact Hperm].
  rewrite Forall_forall. intros row Hin. apply in_map_iff in Hin.
  destruct Hin as (r & <- & Hr). rewrite length_map.
  rewrite Forall_forall in Hrows. apply Hrows, Hr.
Qed.

(** X19.  When [FindMoveTargets] returns [GC_OK] the object holds exactly
    two candidates, the two points are theirs, and both have a score of at
    least [TEMPLATE_MATCH_MIN_SCORE], which lies between 0.05 and 1:
    refinement can raise a score and never lowers it. *)
Theorem FindMoveTargets_ok_scores (g g' : FindCalibGrid) (img : Mat)
    (ptLeft ptRight ptLeft' ptRight' : Point2d) :
  FindMoveTargets g img ptLeft ptRight = Some (GC_OK, g', ptLeft', ptRight') ->
  (5 # 100 <= TEMPLATE_MATCH_MIN_SCORE <= 1)%Q
  /\ m_templates g' = m_templates g
  /\ exists item0 item1,
       m_matchItems g' = [ item0; item1 ]
       /\ (TEMPLATE_MATCH_MIN_SCORE <= score item0)%Q
       /\ (TEMPLATE_MATCH_MIN_SCORE <= score item1)%Q
       /\ ((ptLeft' = pt item0 /\ ptRight' = pt item1)
           \/ (ptLeft' = pt item1 /\ ptRight' = pt item0)).
Proof.
  unfold FindMoveTargets.
  destruct (isnil (m_templates g)); [discriminate|].
  destruct (Mat_empty img); [discriminate|].
  destruct (FindMoveTargets_scratch g img) as [scratch|]; [|discriminate].
  destruct (MatchTemplate (with_matchItems g []) (Int.shr TEMPLATE_COUNT 1) scratch
              TEMPLATE_MATCH_MIN_SCORE 2) as [[st1 g1]|] eqn:Hmatch; [|discriminate].
  cbn [bind].
  destruct (GC_STATUS_eqb GC_OK st1) eqn:Hst1.
  2:{ cbn [bind]. intros H.
      destruct (m_matchItems g1) as [|i0 [|i1 [|i2 rest]]]; try discriminate.
      destruct (Qlt_bool (d_x (pt i0)) (d_x (pt i1)));
        injection H as -> _ _ _; discriminate. }
  apply GC_STATUS_eqb_eq in Hst1. subst st1.
  destruct (MatchTemplate_ok_scores _ _ _ _ _ _ Hmatch) as (Hms & Hsc1 & Ht1).
  destruct (refine_items (m_matchItems g1) (with_matchItems g1 []) scratch (1 # 2))
    as [[st2 g2]|] eqn:Hrefine; [|discriminate].
  cbn [bind].
  destruct (refine_items_scores scratch (1 # 2) TEMPLATE_MATCH_MIN_SCORE
              (m_matchItems g1) Hsc1 (with_matchItems g1 []) g2 st2
              (Forall_nil _) Hrefine) as [Hsc2 Ht2].
  intros H.
  split.
  { unfold minScore_invalid in Hms. apply orb_false_iff in Hms.
    destruct Hms as [Hlo Hhi]. apply Qlt_bool_false_iff in Hlo, Hhi.
    split; assumption. }
  destruct (m_matchItems g2) as [|i0 [|i1 [|i2 rest]]] eqn:Hitems; try discriminate.
  inversion Hsc2 as [|? ? Hs0 Hs']; subst. inversion Hs' as [|? ? Hs1 _]; subst.
  destruct (Qlt_bool (d_x (pt i0)) (d_x (pt i1))); injection H as -> <- <- <-.
  - split; [rewrite Ht2; exact Ht1|]. exists i0, i1.
    split; [exact Hitems|]. split; [exact Hs0|]. split; [exact Hs1|]. left. split; reflexivity.
  - split; [rewrite Ht2; exact Ht1|]. exists i0, i1.
    split; [exact Hitems|]. split; [exact Hs0|]. split; [exact Hs1|]. right. split; reflexivity.
Qed.

End Searches.

Lemma FindTargets_score_bounds_witness :
  ((2 # 100 < 5 # 100)%Q \/ (1 < 2 # 100)%Q)
  /\ Qlt_bool (2 # 100) (1 # 100) || Qlt_bool 1 (2 # 100) = false
  /\ FindTargets demo_grid demo_img (2 # 100) "" = Some (Returned GC_ERR demo_grid).
Proof.
  assert (H : (2 # 100 < 5 # 100)%Q \/ (1 < 2 # 100)%Q) by (left; reflexivity).
  split; [exact H|]. split; [reflexivity|].
  exact (FindTargets_score_bounds demo_grid demo_img (2 # 100) "" H).
Defined.

Lemma FindTargets_without_templates_reads_past_end_witness :
  m_templates demo_grid_bare = []
  /\ (5 # 100 <= 1 # 2 <= 1)%Q
  /\ index_invalid (Int.shr TEMPLATE_COUNT 1) = false
  /\ numToFind_invalid (Int.mul TARGET_COUNT 2) = false
  /\ FindTargets demo_grid_bare demo_img (1 # 2) "" = None.
Proof.
  assert (H1 : m_templates demo_grid_bare = []) by reflexivity.
  assert (H2 : (5 # 100 <= 1 # 2 <= 1)%Q) by (split; discriminate).
  assert (H3 : index_invalid (Int.shr TEMPLATE_COUNT 1) = false) by reflexivity.
  assert (H4 : numToFind_invalid (Int.mul TARGET_COUNT 2) = false) by reflexivity.
  split; [exact H1|]. split; [exact H2|]. split; [exact H3|]. split; [exact H4|].
  exact (proj1 (FindTargets_without_templates_reads_past_end demo_grid_bare demo_img
                  (1 # 2) "" H1 H2 H3 H4)).
Defined.

Lemma FindTargets_ok_grid_witness :
  FindTargets demo_grid_8 demo_img_grid (1 # 2) "" = Some (Returned GC_OK demo_found_8)
  /\ exists grid,
       GetFoundPoints demo_found_8 [] = Some (GC_OK, grid)
       /\ List.length grid = 4%nat
       /\ nth_error grid 0
          = Some [ mkPoint2d (14 # 2) (12 # 2); mkPoint2d (52 # 2) (14 # 2) ].
Proof.
  assert (H : FindTargets demo_grid_8 demo_img_grid (1 # 2) ""
              = Some (Returned GC_OK demo_found_8)) by (vm_compute; reflexivity).
  split; [exact H|].
  destruct (FindTargets_ok_grid _ _ _ _ _ [] H) as (_ & _ & _ & _ & grid & Hget & Hlen & _).
  exists grid. split; [exact Hget|]. split; [exact Hlen|].
  vm_compute in Hget. injection Hget as <-. reflexivity.
Defined.

Lemma FindMoveTargets_ok_scores_witness :
  FindMoveTargets demo_grid demo_img (P2 0 0) (P2 0 0)
  = Some (GC_OK, fst (fst demo_moved), snd (fst demo_moved), snd demo_moved)
  /\ exists item0 item1,
       m_matchItems (fst (fst demo_moved)) = [ item0; item1 ]
       /\ (1 # 10 <= score item0)%Q /\ (1 # 10 <= score item1)%Q.
Proof.
  assert (H : FindMoveTargets demo_grid demo_img (P2 0 0) (P2 0 0)
              = Some (GC_OK, fst (fst demo_moved), snd (fst demo_moved), snd demo_moved))
    by (vm_compute; reflexivity).
  split; [exact H|].
  destruct (FindMoveTargets_ok_scores _ _ _ _ _ _ _ H)
    as (_ & _ & item0 & item1 & Hitems & Hs0 & Hs1 & _).
  exists item0, item1. split; [exact Hitems|]. split; [exact Hs0|exact Hs1].
Defined.

(** ** InitBowtieTemplate *)

Section BowtieBank.
Context {cv : OpenCV} {gc : GcTypes} {cvm : OpenCVMore}.

Lemma vset_spec {A} (v v' : list A) (i : Z) (a : A) :
  vset v i a = Some v' ->
  0 <= i < vsize v
  /\ List.length v' = List.length v
  /\ nth_error v' (Z.to_nat i) = Some a
  /\ forall k, k <> Z.to_nat i -> nth_error v' k = nth_error v k.
Proof.
  unfold vset, vsize.
  destruct (Z.leb_spec 0 i) as [H0|H0]; [|discriminate].
  destruct (Z.ltb_spec i (Z.of_nat (List.length v))) as [H1|H1]; [|discriminate].
  cbn [andb]. intros E.
  assert (E' : v' = firstn (Z.to_nat i) v ++ a :: skipn (S (Z.to_nat i)) v)
    by (injection E as <-; reflexivity).
  clear E. subst v'. set (n := Z.to_nat i). assert (Hn : (n < List.length v)%nat) by lia.
  assert (Hf : List.length (firstn n v) = n) by (rewrite length_firstn; lia).
  split; [lia|]. split.
  { rewrite length_app, Hf.
    change (List.length (a :: skipn (S n) v)) with (S (List.length (skipn (S n) v))).
    rewrite length_skipn. lia. }
  split.
  { rewrite nth_error_app2 by lia. rewrite Hf, Nat.sub_diag. reflexivity. }
  intros k Hk. destruct (Nat.lt_ge_cases k n) as [Hlt|Hge].
  - rewrite nth_error_app1 by lia. rewrite nth_error_firstn.
    destruct (Nat.ltb_spec k n); [reflexivity|lia].
  - rewrite nth_error_app2 by lia. rewrite Hf.
    destruct (k - n)%nat as [|d] eqn:Hd; [lia|]. cbn [nth_error].
    rewrite nth_error_skipn. f_equal. lia.
Qed.

Lemma vset_in_range {A} (v : list A) (i : Z) (a : A) :
  0 <= i < vsize v -> exists v', vset v i a = Some v'.
Proof.
  intros [H0 H1]. unfold vset.
  destruct (Z.leb_spec 0 i); [|lia]. destruct (Z.ltb_spec i (vsize v)); [|lia].
  eexists. reflexivity.
Qed.

Lemma length_cells (h w : Z) :
  List.length (cells h w) = (Z.to_nat h * Z.to_nat w)%nat.
Proof.
  unfold cells. rewrite (flat_map_constant_length (c := Z.to_nat w)).
  - rewrite length_seq. reflexivity.
  - intros r _. rewrite length_map, length_seq. reflexivity.
Qed.

Lemma Mat_roi_wf (m roi : Mat) (r : Rect) :
  Mat_roi m r = Some roi ->
  rows roi = r_height r /\ cols roi = r_width r /\ mtype roi = mtype m /\ Mat_wf roi.
Proof.
  unfold Mat_roi. destruct (Rect_inside r m) eqn:Hin; [|discriminate].
  intros E. injection E as <-. cbn [rows cols mtype].
  split; [reflexivity|]. split; [reflexivity|]. split; [reflexivity|].
  unfold Rect_inside in Hin.
  repeat (apply andb_true_iff in Hin; destruct Hin as [Hin ?]).
  repeat match goal with H : (_ <=? _) = true |- _ => apply Z.leb_le in H end.
  unfold Mat_wf, vsize. cbn [rows cols elems].
  rewrite length_map, length_cells. lia.
Qed.


Lemma Mat_create_header (m m' : Mat) (s : Size) (t : MatType) :
  Mat_create m s t = Some m' ->
  rows m' = height s /\ cols m' = width s /\ mtype m' = t.
Proof.
  unfold Mat_create.
  destruct ((width s <? 0) || (height s <? 0)); [discriminate|].
  destruct ((rows m =? height s) && (cols m =? width s) && MatType_eqb (mtype m) t
            && negb (isnil (elems m))) eqn:Hsame; intros E; injection E as <-.
  - apply andb_true_iff in Hsame. destruct Hsame as [Hsame _].
    apply andb_true_iff in Hsame. destruct Hsame as [Hsame Ht].
    apply andb_true_iff in Hsame. destruct Hsame as [Hr Hc].
    apply Z.eqb_eq in Hr, Hc. apply MatType_eqb_eq in Ht. auto.
  - repeat split.
Qed.

Lemma Mat_create_returns (m : Mat) (s : Size) (t : MatType) :
  0 <= width s -> 0 <= height s -> exists m', Mat_create m s t = Some m'.
Proof.
  intros Hw Hh. unfold Mat_create.
  destruct (Z.ltb_spec (width s) 0); [lia|]. destruct (Z.ltb_spec (height s) 0); [lia|].
  cbn [orb]. destruct (_ && _); eexists; reflexivity.
Qed.

Section Rotations.
Variables (even center : Z).
Hypothesis Heven : 0 <= even.
Hypothesis Hworks : rotation_works even.

Let drawing : Mat := bowtie_drawing (2 * even).
Let roi : Rect := mkRect (even / 2) (even / 2) even even.

Lemma bowtie_drawing_header (d : Z) :
  rows (bowtie_drawing d) = d /\ cols (bowtie_drawing d) = d
  /\ mtype (bowtie_drawing d) = CV_8UC1.
Proof. repeat split. Qed.

Lemma RotateImage_works (dst : Mat) (angle : Z) :
  rows dst = 2 * even -> cols dst = 2 * even ->
  RotateImage drawing dst (inject_Z angle) = (GC_OK, rotated_bowtie even angle).
Proof.
  intros Hr Hc. unfold rotated_bowtie, RotateImage, Mat_size, drawing.
  cbn [rows cols Mat_alloc]. rewrite Hr, Hc.
  rewrite (Hworks (inject_Z angle)). reflexivity.
Qed.

Lemma rotated_bowtie_header (angle : Z) :
  rows (rotated_bowtie even angle) = 2 * even
  /\ cols (rotated_bowtie even angle) = 2 * even
  /\ mtype (rotated_bowtie even angle) = CV_8UC1.
Proof.
  unfold rotated_bowtie, RotateImage, Mat_size. cbn [rows cols Mat_alloc].
  rewrite (Hworks (inject_Z angle)). repeat split.
Qed.

Lemma bowtie_template_built (angle : Z) :
  exists t, bowtie_template even angle = Some t
            /\ rows t = even /\ cols t = even /\ mtype t = CV_8UC1 /\ Mat_wf t.
Proof.
  assert (Hhalf : 0 <= even / 2 <= even).
  { split; [apply Z.div_pos; lia|apply Z.div_le_upper_bound; lia]. }
  assert (Hin : forall m, rows m = 2 * even -> cols m = 2 * even ->
                          Rect_inside (mkRect (even / 2) (even / 2) even even) m = true).
  { intros m Hr Hc. unfold Rect_inside. cbn [r_x r_y r_width r_height]. rewrite Hr, Hc.
    repeat (apply andb_true_iff; split); apply Z.leb_le; lia. }
  unfold bowtie_template.
  set (src := if angle =? 0 then _ else _).
  assert (Hsrc : rows src = 2 * even /\ cols src = 2 * even /\ mtype src = CV_8UC1).
  { unfold src. destruct (angle =? 0);
      [apply bowtie_drawing_header|apply rotated_bowtie_header]. }
  destruct Hsrc as (Hr & Hc & Ht).
  destruct (Mat_roi src (mkRect (even / 2) (even / 2) even even)) as [t|] eqn:Hroi.
  - destruct (Mat_roi_wf _ _ _ Hroi) as (E1 & E2 & E3 & E4).
    exists t. cbn [r_height r_width] in E1, E2. rewrite E3, Ht. auto.
  - unfold Mat_roi in Hroi. rewrite (Hin src Hr Hc) in Hroi. discriminate.
Qed.

Lemma rotations_run (n : nat) :
  forall (i : Z) (dst : Mat) (templates : list Mat),
    rows dst = 2 * even -> cols dst = 2 * even ->
    0 <= i -> i + Z.of_nat n = center ->
    2 * center < vsize templates -> vsize templates <= Int.max_int ->
    exists templates',
      InitBowtieTemplate_rotations n i center drawing dst roi templates
      = Some (Ran GC_OK, templates')
      /\ List.length templates' = List.length templates
      /\ (forall k, i <= k < center \/ center + i < k <= 2 * center ->
                    nth_error templates' (Z.to_nat k) = bowtie_template even (k - center))
      /\ (forall k : nat,
            ~ (i <= Z.of_nat k < center \/ center + i < Z.of_nat k <= 2 * center) ->
            nth_error templates' k = nth_error templates k).
Proof.
  induction n as [|n IH]; intros i dst templates Hr Hc Hi Hn Hlen Hmax;
    cbn [InitBowtieTemplate_rotations].
  - exists templates. split; [reflexivity|]. split; [reflexivity|].
    split; [intros k Hk; lia|reflexivity].
  - assert (Hic : i < center) by lia.
    unfold Int.max_int in Hmax.
    assert (R : forall z, - 2 ^ 31 <= z <= 2 ^ 31 - 1 -> Int.wrap z = z).
    { intros z Hz. apply Int_wrap_in_range.
      unfold Int.in_range, Int.min_int, Int.max_int. lia. }
    unfold Int.sub, Int.add. rewrite (R (i - center)) by lia.
    rewrite (R (i + 1)) by lia. rewrite (R (center + i)) by lia.
    rewrite (R (center + i + 1)) by lia.
    rewrite !size_of_int_exact by (unfold Int.max_int; lia).
    rewrite (RotateImage_works dst (i - center) Hr Hc). cbn [GC_STATUS_eqb negb].
    destruct (bowtie_template_built (i - center)) as (t1 & Ht1 & _).
    destruct (bowtie_template_built (i + 1)) as (t2 & Ht2 & _).
    assert (E1 : Mat_roi (rotated_bowtie even (i - center)) roi = Some t1).
    { unfold bowtie_template in Ht1.
      destruct (Z.eqb_spec (i - center) 0); [lia|exact Ht1]. }
    assert (E2 : Mat_roi (rotated_bowtie even (i + 1)) roi = Some t2).
    { unfold bowtie_template in Ht2.
      destruct (Z.eqb_spec (i + 1) 0); [lia|exact Ht2]. }
    rewrite E1.
    destruct (vset_in_range templates i t1) as [T1 HT1]; [lia|].
    rewrite HT1. cbn [bind].
    destruct (vset_spec _ _ _ _ HT1) as (_ & L1 & N1 & O1).
    destruct (rotated_bowtie_header (i - center)) as (Hr1 & Hc1 & _).
    rewrite (RotateImage_works _ (i + 1) Hr1 Hc1). cbn [GC_STATUS_eqb negb].
    rewrite E2.
    destruct (vset_in_range T1 (center + i + 1) t2) as [T2 HT2].
    { unfold vsize in *. lia. }
    rewrite HT2. cbn [bind].
    destruct (vset_spec _ _ _ _ HT2) as (_ & L2 & N2 & O2).
    destruct (rotated_bowtie_header (i + 1)) as (Hr2 & Hc2 & _).
    destruct (IH (i + 1) (rotated_bowtie even (i + 1)) T2 Hr2 Hc2) as (T' & Hrun & L' & N' & O').
    { lia. } { lia. } { unfold vsize in *. lia. }
    { unfold vsize, Int.max_int in *. lia. }
    exists T'. split; [exact Hrun|]. split; [congruence|]. split.
    + intros k Hk.
      destruct (Z.eq_dec k i) as [->|Hki].
      { rewrite O' by lia. rewrite O2 by lia. rewrite N1. symmetry. exact Ht1. }
      destruct (Z.eq_dec k (center + i + 1)) as [->|Hkc].
      { rewrite O' by lia. rewrite N2.
        replace (center + i + 1 - center) with (i + 1) by lia. symmetry. exact Ht2. }
      apply N'. lia.
    + intros k Hk. rewrite O' by lia. rewrite O2 by lia. apply O1. lia.
Qed.

End Rotations.

Lemma rotations_length (n : nat) :
  forall (i center : Z) (matTemp dst : Mat) (r : Rect) (templates templates' : list Mat)
         (e : LoopEnd),
    InitBowtieTemplate_rotations n i center matTemp dst r templates = Some (e, templates') ->
    List.length templates' = List.length templates.
Proof.
  induction n as [|n IH]; intros i center matTemp dst r templates templates' e;
    cbn [InitBowtieTemplate_rotations].
  - intros E. injection E as _ <-. reflexivity.
  - destruct (RotateImage matTemp dst (inject_Z (Int.sub i center))) as [st1 dst1].
    destruct (negb (GC_STATUS_eqb GC_OK st1)).
    { intros E. injection E as _ <-. reflexivity. }
    destruct (Mat_roi dst1 r) as [t1|].
    2:{ intros E. injection E as _ <-. reflexivity. }
    destruct (vset templates (size_of_int i) t1) as [T1|] eqn:HT1; [|discriminate].
    cbn [bind]. destruct (vset_spec _ _ _ _ HT1) as (_ & L1 & _).
    destruct (RotateImage matTemp dst1 (inject_Z (Int.add i 1))) as [st2 dst2].
    destruct (negb (GC_STATUS_eqb GC_OK st2)).
    { intros E. injection E as _ <-. exact L1. }
    destruct (Mat_roi dst2 r) as [t2|].
    2:{ intros E. injection E as _ <-. exact L1. }
    destruct (vset T1 (size_of_int (Int.add (Int.add center i) 1)) t2) as [T2|] eqn:HT2;
      [|discriminate].
    cbn [bind]. destruct (vset_spec _ _ _ _ HT2) as (_ & L2 & _).
    intros H. apply IH in H. congruence.
Qed.

(** X20.  For a template dimension between 20 and 1000, an odd
    [TEMPLATE_COUNT] and a search image no smaller than the template,
    [InitBowtieTemplate] returns [GC_OK] when no rotation throws, and the
    object then holds [TEMPLATE_COUNT] templates of [templateDimEven] x
    [templateDimEven] 8-bit pixels, [templateDimEven] being [templateDim]
    made even: template [k] is the middle of the bowtie drawing turned by
    [k - TEMPLATE_COUNT / 2] degrees, the one in the middle being the
    drawing itself.  The match space has one cell per placement of a
    template on the search image, the small one is [templateDimEven / 2 + 1]
    square, both of 32-bit floats; candidates, grid and move-search
    rectangles are as they were. *)
Theorem InitBowtieTemplate_builds_bank (g : FindCalibGrid) (templateDim : Z)
    (searchImgSize : Size) :
  20 <= templateDim <= 1000 ->
  Z.odd TEMPLATE_COUNT = true -> 0 < TEMPLATE_COUNT <= Int.max_int ->
  rotation_works (even_dim templateDim) ->
  even_dim templateDim - 1 <= width searchImgSize <= Int.max_int ->
  even_dim templateDim - 1 <= height searchImgSize <= Int.max_int ->
  exists g',
    InitBowtieTemplate g templateDim searchImgSize = Some (GC_OK, g')
    /\ vsize (m_templates g') = TEMPLATE_COUNT
    /\ (forall k, 0 <= k < TEMPLATE_COUNT ->
          exists t, vat (m_templates g') k = Some t
                    /\ bowtie_template (even_dim templateDim) (k - TEMPLATE_COUNT / 2)
                       = Some t
                    /\ rows t = even_dim templateDim /\ cols t = even_dim templateDim
                    /\ mtype t = CV_8UC1 /\ Mat_wf t)
    /\ Mat_size (m_matchSpace g')
       = mkSize (width searchImgSize - even_dim templateDim + 1)
                (height searchImgSize - even_dim templateDim + 1)
    /\ Mat_size (m_matchSpaceSmall g')
       = mkSize (even_dim templateDim / 2 + 1) (even_dim templateDim / 2 + 1)
    /\ mtype (m_matchSpace g') = CV_32FC1 /\ mtype (m_matchSpaceSmall g') = CV_32FC1
    /\ m_matchItems g' = m_matchItems g /\ m_itemArray g' = m_itemArray g
    /\ GetMoveTargetROIs g' = GetMoveTargetROIs g.
Proof.
  intros Hdim Hodd HTC Hworks HW HH.
  set (even := even_dim templateDim) in *.
  assert (Hmod : 0 <= templateDim mod 2 < 2) by (apply Z.mod_pos_bound; lia).
  assert (Heven : 20 <= even <= 1001) by (unfold even, even_dim; lia).
  assert (Hrem : Z.rem templateDim 2 = templateDim mod 2) by (apply Z.rem_mod_nonneg; lia).
  assert (Hcq : Z.quot TEMPLATE_COUNT 2 = TEMPLATE_COUNT / 2)
    by (apply Z.quot_div_nonneg; lia).
  set (center := TEMPLATE_COUNT / 2) in *.
  assert (HTC2 : TEMPLATE_COUNT = 2 * center + 1).
  { rewrite (Z.div_mod TEMPLATE_COUNT 2) at 1 by lia. fold center.
    rewrite <- Z.bit0_mod, Z.bit0_odd, Hodd. reflexivity. }
  assert (Hc0 : 0 <= center) by lia.
  unfold Int.max_int in *.
  assert (R : forall z, - 2 ^ 31 <= z <= 2 ^ 31 - 1 -> Int.wrap z = z).
  { intros z Hz. apply Int_wrap_in_range.
    unfold Int.in_range, Int.min_int, Int.max_int. lia. }
  unfold InitBowtieTemplate.
  destruct (Z.ltb_spec templateDim 20); [lia|].
  destruct (Z.ltb_spec 1000 templateDim); [lia|]. cbn [orb].
  rewrite Hrem, Hcq. unfold Int.add, Int.sub.
  rewrite (R (templateDim + templateDim mod 2)) by lia.
  change (templateDim + templateDim mod 2) with even.
  rewrite Z.shiftl_mul_pow2 by lia. change (2 ^ 1) with 2.
  replace (even * 2) with (2 * even) by lia.
  rewrite Int_shr_div by lia. change (2 ^ 1) with 2.
  cbn [m_templates with_templates m_matchSpace m_matchSpaceSmall with_matchSpace].
  destruct (bowtie_template_built even ltac:(lia) Hworks 0) as (t0 & Ht0 & _).
  unfold bowtie_template in Ht0. cbn [Z.eqb] in Ht0. rewrite Ht0.
  set (T := repeat (Mat_alloc even even CV_8UC1) (Z.to_nat TEMPLATE_COUNT)).
  assert (LT : vsize T = TEMPLATE_COUNT).
  { unfold vsize, T. rewrite repeat_length. lia. }
  rewrite size_of_int_exact by (unfold Int.max_int; lia).
  destruct (vset_in_range T center t0) as [T0 HT0]; [lia|].
  rewrite HT0. cbn [bind].
  destruct (vset_spec _ _ _ _ HT0) as (_ & L0 & N0 & O0).
  destruct (rotations_run even center ltac:(lia) Hworks (Z.to_nat center) 0
              (Mat_alloc (2 * even) (2 * even) CV_8UC1) T0)
    as (T' & Hrun & L' & N' & O'); try reflexivity; try lia.
  { unfold vsize in *. lia. } { unfold vsize in *. unfold Int.max_int. lia. }
  rewrite Hrun. cbn [bind].
  rewrite (R (width searchImgSize - even)) by lia.
  rewrite (R (width searchImgSize - even + 1)) by lia.
  rewrite (R (height searchImgSize - even)) by lia.
  rewrite (R (height searchImgSize - even + 1)) by lia.
  assert (Hhalf : 0 <= even / 2 <= even).
  { split; [apply Z.div_pos; lia|apply Z.div_le_upper_bound; lia]. }
  rewrite (R (even / 2 + 1)) by lia.
  destruct (Mat_create_returns (m_matchSpace g)
              (mkSize (width searchImgSize - even + 1) (height searchImgSize - even + 1))
              CV_32FC1) as [ms Hms]; [cbn; lia|cbn; lia|].
  rewrite Hms.
  destruct (Mat_create_returns (m_matchSpaceSmall g)
              (mkSize (even / 2 + 1) (even / 2 + 1)) CV_32FC1) as [mss Hmss];
    [cbn; lia|cbn; lia|].
  rewrite Hmss.
  destruct (Mat_create_header _ _ _ _ Hms) as (A1 & A2 & A3).
  destruct (Mat_create_header _ _ _ _ Hmss) as (B1 & B2 & B3).
  cbn [width height] in A1, A2, B1, B2.
  eexists. split; [reflexivity|].
  cbn [m_templates m_matchSpace m_matchSpaceSmall m_matchItems m_itemArray
       with_templates with_matchSpace with_matchSpaceSmall GetMoveTargetROIs
       m_rectLeftMoveSearch m_rectRightMoveSearch].
  split; [unfold vsize in *; lia|].
  split.
  { intros k Hk.
    destruct (bowtie_template_built even ltac:(lia) Hworks (k - center))
      as (t & Ht & P1 & P2 & P3 & P4).
    exists t. rewrite vat_nth_error by lia.
    split; [|split; [exact Ht|auto]].
    destruct (Z.eq_dec k center) as [->|Hkc].
    - rewrite O' by lia. rewrite N0. rewrite Z.sub_diag in Ht.
      unfold bowtie_template in Ht. cbn [Z.eqb] in Ht. congruence.
    - rewrite N' by lia. exact Ht. }
  unfold Mat_size. rewrite A1, A2, B1, B2, A3, B3.
  repeat split.
Qed.

End BowtieBank.

Section InitThenSearch.
Context {cv : OpenCV} {gc : GcTypes} {cvm : OpenCVMore}.

Lemma InitBowtieTemplate_ok_templates (g g' : FindCalibGrid) (templateDim : Z)
    (searchImgSize : Size) :
  InitBowtieTemplate g templateDim searchImgSize = Some (GC_OK, g') ->
  vsize (m_templates g') = TEMPLATE_COUNT.
Proof.
  unfold InitBowtieTemplate.
  destruct ((templateDim <? 20) || (1000 <? templateDim)); [discriminate|].
  cbn [m_templates with_templates m_matchSpace m_matchSpaceSmall with_matchSpace].
  destruct (Mat_roi _ _) as [t0|]; [|discriminate].
  set (T := repeat _ (Z.to_nat TEMPLATE_COUNT)).
  destruct (vset T (size_of_int (Z.quot TEMPLATE_COUNT 2)) t0) as [T0|] eqn:HT0;
    [|discriminate].
  cbn [bind]. destruct (vset_spec _ _ _ _ HT0) as (Hin & L0 & _).
  destruct (InitBowtieTemplate_rotations _ _ _ _ _ _ T0) as [[e T']|] eqn:Hrun;
    [|discriminate].
  cbn [bind]. apply rotations_length in Hrun.
  assert (HT : List.length T' = Z.to_nat TEMPLATE_COUNT).
  { rewrite Hrun, L0. unfold T. apply repeat_length. }
  assert (Hpos : 0 < TEMPLATE_COUNT).
  { unfold vsize, T in Hin. rewrite repeat_length in Hin. lia. }
  destruct e as [st|]; [|discriminate].
  destruct (Mat_create _ _ _) as [ms|]; [|discriminate].
  destruct (Mat_create _ _ _) as [mss|]; [|discriminate].
  intros E. injection E as _ <-.
  cbn [m_templates with_templates with_matchSpace with_matchSpaceSmall].
  unfold vsize. rewrite HT. lia.
Qed.

Lemma FindTargets_returns (g : FindCalibGrid) (img : Mat) (minScore : Q)
    (resultFilepath : string) :
  templates_built g -> matchTemplate_maps_wf ->
  (0 < CALIB_POINT_ROW_COUNT)%nat -> (0 < CALIB_POINT_COL_COUNT)%nat ->
  exists outcome, FindTargets g img minScore resultFilepath = Some outcome.
Proof.
  intros Hb Hwf HR HC. unfold FindTargets.
  destruct (Qlt_bool minScore (1 # 100) || Qlt_bool 1 minScore); [eauto|].
  destruct (MatchTemplate_returns g (Int.shr TEMPLATE_COUNT 1) img minScore
              (Int.mul TARGET_COUNT 2) Hb) as (st1 & g1 & Hrun1 & Ht1).
  rewrite Hrun1. cbn [bind]. destruct (GC_STATUS_eqb GC_OK st1); [|eauto].
  destruct (refine_items_returns img minScore (m_matchItems g1) Hwf (with_matchItems g1 []))
    as [[st2 g2] Hrun2].
  { apply (templates_built_same g); [exact Ht1|exact Hb]. }
  rewrite Hrun2. cbn [bind].
  destruct (SortPoints_returns g2 (Mat_size img) HR HC) as (st3 & g3 & Hrun3 & _).
  rewrite Hrun3. cbn [bind].
  destruct (String.eqb resultFilepath ""); [eauto|].
  destruct (writeTargets img (m_matchItems g3) resultFilepath); eauto.
Qed.

(** X21.  On an object that [InitBowtieTemplate] has initialised, neither
    search reads outside the template vector or a match space: whatever the
    image, the score and the move-search rectangles, [FindMoveTargets]
    returns a status, and [FindTargets] returns one unless an exception
    leaves it while it writes the result image. *)
Theorem InitBowtieTemplate_then_searches_return (g g' : FindCalibGrid) (templateDim : Z)
    (searchImgSize : Size) :
  InitBowtieTemplate g templateDim searchImgSize = Some (GC_OK, g') ->
  TEMPLATE_COUNT <= Int.max_int ->
  matchTemplate_maps_wf ->
  (0 < CALIB_POINT_ROW_COUNT)%nat -> (0 < CALIB_POINT_COL_COUNT)%nat ->
  templates_built g'
  /\ (forall img minScore resultFilepath,
        exists outcome, FindTargets g' img minScore resultFilepath = Some outcome)
  /\ (forall img ptLeft ptRight,
        exists result, FindMoveTargets g' img ptLeft ptRight = Some result).
Proof.
  intros Hinit Hmax Hwf HR HC.
  assert (Hb : templates_built g').
  { split; [exact (InitBowtieTemplate_ok_templates _ _ _ _ Hinit)|exact Hmax]. }
  split; [exact Hb|]. split.
  - intros img minScore resultFilepath. apply FindTargets_returns; assumption.
  - intros img ptLeft ptRight. apply FindMoveTargets_returns; assumption.
Qed.

End InitThenSearch.

Lemma demo_matchTemplate_wf : @matchTemplate_maps_wf cv_demo.
Proof.
  intros img templ result H. cbn [matchTemplate cv_demo] in H.
  unfold demo_matchTemplate in H.
  destruct ((cols templ <=? cols img) && (rows templ <=? rows img)) eqn:Hfit;
    [|discriminate].
  injection H as <-. apply andb_true_iff in Hfit. destruct Hfit as [Hc Hr].
  apply Z.leb_le in Hc, Hr.
  unfold Mat_wf, demo_scores, vsize. cbn [rows cols elems].
  rewrite length_map, length_cells. lia.
Qed.

Lemma demo_rotation_works : rotation_works (even_dim 20).
Proof. intros angle. reflexivity. Qed.

Lemma InitBowtieTemplate_builds_bank_witness :
  20 <= 20 <= 1000
  /\ Z.odd TEMPLATE_COUNT = true
  /\ exists g',
       InitBowtieTemplate FindCalibGrid_new 20 (mkSize 48 24) = Some (GC_OK, g')
       /\ vsize (m_templates g') = 3
       /\ Mat_size (m_matchSpace g') = mkSize 29 5
       /\ Mat_size (m_matchSpaceSmall g') = mkSize 11 11.
Proof.
  assert (H1 : 20 <= 20 <= 1000) by lia.
  assert (H2 : Z.odd TEMPLATE_COUNT = true) by reflexivity.
  assert (H3 : 0 < TEMPLATE_COUNT <= Int.max_int) by (vm_compute; intuition discriminate).
  assert (H4 : even_dim 20 - 1 <= width (mkSize 48 24) <= Int.max_int)
    by (vm_compute; intuition discriminate).
  assert (H5 : even_dim 20 - 1 <= height (mkSize 48 24) <= Int.max_int)
    by (vm_compute; intuition discriminate).
  split; [exact H1|]. split; [exact H2|].
  destruct (InitBowtieTemplate_builds_bank FindCalibGrid_new 20 (mkSize 48 24)
              H1 H2 H3 demo_rotation_works H4 H5)
    as (g' & Hrun & Hn & _ & Hms & Hmss & _).
  exists g'. split; [exact Hrun|]. split; [exact Hn|]. split; [exact Hms|exact Hmss].
Defined.

Lemma InitBowtieTemplate_then_searches_return_witness :
  InitBowtieTemplate FindCalibGrid_new 20 (mkSize 48 24) = Some (GC_OK, demo_grid_init)
  /\ TEMPLATE_COUNT <= Int.max_int
  /\ (0 < CALIB_POINT_ROW_COUNT)%nat /\ (0 < CALIB_POINT_COL_COUNT)%nat
  /\ templates_built demo_grid_init
  /\ exists result,
       FindMoveTargets demo_grid_init demo_img (P2 0 0) (P2 0 0) = Some result.
Proof.
  assert (H1 : InitBowtieTemplate FindCalibGrid_new 20 (mkSize 48 24)
               = Some (GC_OK, demo_grid_init)) by (vm_compute; reflexivity).
  assert (H2 : TEMPLATE_COUNT <= Int.max_int) by (vm_compute; discriminate).
  assert (H3 : (0 < CALIB_POINT_ROW_COUNT)%nat) by (vm_compute; lia).
  assert (H4 : (0 < CALIB_POINT_COL_COUNT)%nat) by (vm_compute; lia).
  split; [exact H1|]. split; [exact H2|]. split; [exact H3|]. split; [exact H4|].
  destruct (InitBowtieTemplate_then_searches_return _ _ _ _ H1 H2
              demo_matchTemplate_wf H3 H4) as (Hb & _ & Hmove).
  split; [exact Hb|]. apply Hmove.
Defined.

(** ** DrawMoveROIs *)

Section DrawROIs.
Context {cv : OpenCV} {gc : GcTypes} {cvm : OpenCVMore}.

(** X22.  [DrawMoveROIs] refuses an image that is not 8-bit and the
    rectangles that [SetMoveTargetROI] reports for that image, and no
    others; a refused call leaves the image as it was.  A call that returns
    [GC_OK] has drawn the left rectangle and then the right one, each from
    its corner [(x, y)] to [(x + width, y + height)]; when the second
    drawing throws, the image keeps the first. *)
Theorem DrawMoveROIs_refuses_what_SetMoveTargetROI_reports (g : FindCalibGrid) (img : Mat) :
  let corner (r : Rect) := mkPoint (r_x r) (r_y r) in
  let opposite (r : Rect) :=
    mkPoint (Int.add (r_x r) (r_width r)) (Int.add (r_y r) (r_height r)) in
  (fst (DrawMoveROIs g img) = GC_ERR <->
   depth_is_8U img = false
   \/ fst (SetMoveTargetROI g img (m_rectLeftMoveSearch g) true) = GC_ERR
   \/ fst (SetMoveTargetROI g img (m_rectRightMoveSearch g) false) = GC_ERR)
  /\ (fst (DrawMoveROIs g img) = GC_ERR -> snd (DrawMoveROIs g img) = img)
  /\ (fst (DrawMoveROIs g img) = GC_OK <->
      exists img1,
        depth_is_8U img = true
        /\ fst (SetMoveTargetROI g img (m_rectLeftMoveSearch g) true) = GC_OK
        /\ fst (SetMoveTargetROI g img (m_rectRightMoveSearch g) false) = GC_OK
        /\ rectangle img (corner (m_rectLeftMoveSearch g))
             (opposite (m_rectLeftMoveSearch g)) = Some img1
        /\ rectangle img1 (corner (m_rectRightMoveSearch g))
             (opposite (m_rectRightMoveSearch g)) = Some (snd (DrawMoveROIs g img)))
  /\ (forall img1,
        fst (DrawMoveROIs g img) = GC_EXCEPT ->
        rectangle img (corner (m_rectLeftMoveSearch g))
          (opposite (m_rectLeftMoveSearch g)) = Some img1 ->
        snd (DrawMoveROIs g img) = img1).
Proof.
  cbv zeta. unfold DrawMoveROIs, SetMoveTargetROI. cbn [fst].
  change (SetMoveTargetROI_invalid img (m_rectLeftMoveSearch g))
    with (Rect_outside img (m_rectLeftMoveSearch g)).
  change (SetMoveTargetROI_invalid img (m_rectRightMoveSearch g))
    with (Rect_outside img (m_rectRightMoveSearch g)).
  destruct (depth_is_8U img); cbn [negb fst snd].
  2:{ split; [split; [auto|reflexivity]|]. split; [reflexivity|].
      split; [split; [discriminate|intros (img1 & Hc & _); discriminate]|].
      intros img1 Hc. discriminate. }
  destruct (Rect_outside img (m_rectLeftMoveSearch g));
    destruct (Rect_outside img (m_rectRightMoveSearch g)); cbn [orb fst snd].
  1-3: (split; [split; [auto|reflexivity]|]; split; [reflexivity|];
        split; [split; [discriminate|intros (img1 & _ & H1 & H2 & _); discriminate]|];
        intros img1 Hc; discriminate).
  destruct (rectangle img _ _) as [img1|] eqn:H1; cbn [fst snd].
  2:{ split; [split; [discriminate|intros [H|[H|H]]; discriminate]|].
      split; [discriminate|].
      split; [split; [discriminate|intros (img1 & _ & _ & _ & Hc & _); discriminate]|].
      intros img1 _ Hc. discriminate. }
  destruct (rectangle img1 _ _) as [img2|] eqn:H2; cbn [fst snd].
  - split; [split; [discriminate|intros [H|[H|H]]; discriminate]|].
    split; [discriminate|].
    split; [|intros img0 Hc; discriminate].
    split; [intros _|reflexivity].
    exists img1. repeat split. exact H2.
  - split; [split; [discriminate|intros [H|[H|H]]; discriminate]|].
    split; [discriminate|].
    split; [split; [discriminate|]|].
    + intros (img0 & _ & _ & _ & Hc & Hd). injection Hc as <-. congruence.
    + intros img0 _ Hc. injection Hc as <-. reflexivity.
Qed.

End DrawROIs.

Lemma DrawMoveROIs_refuses_what_SetMoveTargetROI_reports_witness :
  fst (SetMoveTargetROI demo_grid demo_img (mkRect 40 20 20 20) true) = GC_ERR
  /\ DrawMoveROIs (with_rectLeft demo_grid (mkRect 40 20 20 20)) demo_img
     = (GC_ERR, demo_img)
  /\ fst (DrawMoveROIs demo_grid demo_img) = GC_OK.
Proof.
  split; [reflexivity|].
  destruct (DrawMoveROIs_refuses_what_SetMoveTargetROI_reports
              (with_rectLeft demo_grid (mkRect 40 20 20 20)) demo_img)
    as (Herr & Hkeep & _).
  assert (H : fst (DrawMoveROIs (with_rectLeft demo_grid (mkRect 40 20 20 20)) demo_img)
              = GC_ERR).
  { apply Herr. right. left. reflexivity. }
  split.
  - rewrite (surjective_pairing (DrawMoveROIs _ demo_img)). rewrite H, (Hkeep H).
    reflexivity.
  - destruct (DrawMoveROIs_refuses_what_SetMoveTargetROI_reports demo_grid demo_img)
      as (_ & _ & Hok & _).
    apply Hok. exists demo_img. repeat split.
Defined.

(** ** A calibration that has been through its file *)

Section SecondGeneration.
Context {cv : OpenCV} {gc : GcTypes} {ov : CalibOverlay}.

Lemma round_half_even_Z (z : Z) : round_half_even (inject_Z z) = z.
Proof.
  unfold round_half_even. rewrite Qfloor_Z.
  destruct (Qcompare_spec (inject_Z z - inject_Z z) (1 # 2)) as [He|Hl|Hg];
    [exfalso; lra|reflexivity|exfalso; lra].
Qed.

Lemma fixed3_idempotent (q : Q) : fixed3 (fixed3 q) = fixed3 q.
Proof.
  unfold fixed3 at 1.
  assert (H : round_half_even (fixed3 q * 1000) = round_half_even (q * 1000)).
  { transitivity (round_half_even (inject_Z (round_half_even (q * 1000))));
      [|apply round_half_even_Z].
    apply round_half_even_comp. unfold fixed3. field. }
  rewrite H. reflexivity.
Qed.

Lemma fixed3_point_idempotent (l : list Point2d) :
  map fixed3_point (map fixed3_point l) = map fixed3_point l.
Proof.
  rewrite map_map. apply map_ext. intros p. unfold fixed3_point. cbn [d_x d_y].
  rewrite !fixed3_idempotent. reflexivity.
Qed.

(** [Load] of a file that [Save] wrote is the [Calibrate] of the rounded
    points. *)
Lemma Load_saved (fs fs' : FileSystem) (c c0 : Calib) (path : string) :
  Save fs c path = (GC_OK, fs') ->
  grid_sized (m_model c) ->
  exists c1,
    Load fs' c0 path
    = ('(retVal, c', _) <-
         Calibrate c1 (map fixed3_point (pixelPoints (m_model c)))
           (map fixed3_point (worldPoints (m_model c)))
           (gridSize (m_model c)) (m_imgSize c) Mat_new Mat_new false false false ;;
       Some (retVal, c')).
Proof.
  intros Hsave Hg. destruct (Save_ok _ _ _ _ Hsave) as [Hinv Hfile].
  pose proof Hg as (Hne & Hsz & Hw0 & Hmax).
  pose proof (grid_sized_height_pos _ Hg) as [Hh0 Hwle].
  unfold Save_invalid in Hinv.
  repeat (apply orb_false_iff in Hinv; destruct Hinv as [Hinv ?]).
  match goal with H : negb _ = false |- _ =>
    apply negb_false_iff, Z.eqb_eq in H; rename H into Hwp end.
  set (pp := pixelPoints (m_model c)) in *. set (wp := worldPoints (m_model c)) in *.
  assert (Hlen : List.length pp = List.length wp) by (unfold vsize in Hwp; lia).
  set (nodes := map (fun pw => json_of_point (fst pw) (snd pw)) (combine pp wp)).
  assert (Hpix : map Load_point_pixel nodes = map fixed3_point pp).
  { unfold nodes. rewrite map_map. apply (map_combine_fst fixed3_point pp wp Hlen). }
  assert (Hwld : map Load_point_world nodes = map fixed3_point wp).
  { unfold nodes. rewrite map_map. apply (map_combine_snd fixed3_point pp wp Hlen). }
  assert (Hhle : height (gridSize (m_model c)) <= vsize pp).
  { rewrite Hsz.
    assert (1 * height (gridSize (m_model c))
            <= width (gridSize (m_model c)) * height (gridSize (m_model c)))
      by (apply Z.mul_le_mono_nonneg_r; lia). lia. }
  destruct (Load_complete fs' c0 path (Save_json c)
              (mkJsonPixelToWorld (Some (width (gridSize (m_model c))))
                 (Some (height (gridSize (m_model c)))) (Some nodes)) nodes)
    as [c1 Hrun]; try reflexivity; try discriminate; try exact Hfile.
  { cbn [columns j_rows get]. unfold SizeT.mul, SizeT.wrap.
    assert (Hn : vsize nodes = vsize pp).
    { pose proof (f_equal (@List.length _) Hpix) as HL. rewrite !length_map in HL.
      unfold vsize. rewrite HL. reflexivity. }
    rewrite Hn, <- Hsz. apply Z.mod_small. unfold Int.max_int in Hmax.
    unfold vsize in *. lia. }
  exists c1. rewrite Hrun, Hpix, Hwld.
  cbn [columns j_rows get Save_json imageWidth imageHeight].
  rewrite !int_of_size_exact by lia.
  destruct (gridSize (m_model c)) as [w h]. destruct (m_imgSize c) as [W H'].
  reflexivity.
Qed.

(** X23.  A calibration that [Load] has read from a file written by [Save]
    is stable: saved again and loaded again, into whatever object, it comes
    back as the same object.  (The first passage through the file rounds the
    points to three decimals and recomputes regions and lines; the second
    finds nothing left to change.) *)
Theorem Save_Load_second_generation_is_stable
    (fs fs1 fs' fs2 : FileSystem) (c c0 c0' c1 : Calib) (path path' : string) :
  Save fs c path = (GC_OK, fs1) ->
  grid_sized (m_model c) ->
  Load fs1 c0 path = Some (GC_OK, c1) ->
  Save fs' c1 path' = (GC_OK, fs2) ->
  Load fs2 c0' path' = Some (GC_OK, c1).
Proof.
  intros Hsave Hg Hload Hsave2.
  destruct (Load_saved fs fs1 c c0 path Hsave Hg) as [cX Hrun].
  rewrite Hrun in Hload.
  destruct (Calibrate cX _ _ _ _ _ _ _ _ _) as [[[st c'] out]|] eqn:Hcal;
    [|discriminate].
  cbn [bind] in Hload. injection Hload as -> ->.
  destruct (Calibrate_ok_form _ _ _ _ _ _ _ _ _ _ _ _ Hcal)
    as (h1 & h2 & geo & ptLeft & ptRight & _ & _ & _ & _ & _ & _ & _ & E & _).
  assert (Epp : pixelPoints (m_model c1) = map fixed3_point (pixelPoints (m_model c)))
    by (rewrite E; reflexivity).
  assert (Ewp : worldPoints (m_model c1) = map fixed3_point (worldPoints (m_model c)))
    by (rewrite E; reflexivity).
  assert (Egs : gridSize (m_model c1) = gridSize (m_model c)) by (rewrite E; reflexivity).
  assert (Eis : m_imgSize c1 = m_imgSize c) by (rewrite E; reflexivity).
  assert (Hg1 : grid_sized (m_model c1)).
  { destruct Hg as (Hne & Hsz & Hw0 & Hmax). unfold grid_sized.
    rewrite Epp, Egs. unfold vsize in *. rewrite length_map.
    split; [|split; [exact Hsz|split; [exact Hw0|exact Hmax]]].
    destruct (pixelPoints (m_model c)); [contradiction|discriminate]. }
  destruct (Load_saved fs' fs2 c1 c0' path' Hsave2 Hg1) as [cY Hrun2].
  rewrite Hrun2, Epp, Ewp, Egs, Eis, !fixed3_point_idempotent.
  rewrite (Calibrate_ok_any_object cX cY _ _ _ _ _ _ _ _ _ _ _ Hcal).
  reflexivity.
Qed.

End SecondGeneration.

Lemma Save_Load_second_generation_is_stable_witness :
  Save fs_empty roundtrip_calib "cal.json" = (GC_OK, roundtrip_fs)
  /\ grid_sized (m_model roundtrip_calib)
  /\ Load roundtrip_fs Calib_new "cal.json" = Some (GC_OK, roundtrip_loaded)
  /\ roundtrip_loaded <> roundtrip_calib
  /\ Save fs_empty roundtrip_loaded "cal2.json" = (GC_OK, roundtrip_fs_2)
  /\ Load roundtrip_fs_2 demo_calib "cal2.json" = Some (GC_OK, roundtrip_loaded).
Proof.
  assert (H1 : Save fs_empty roundtrip_calib "cal.json" = (GC_OK, roundtrip_fs))
    by reflexivity.
  assert (H2 : grid_sized (m_model roundtrip_calib)).
  { unfold grid_sized. repeat split; vm_compute; congruence. }
  assert (H3 : Load roundtrip_fs Calib_new "cal.json" = Some (GC_OK, roundtrip_loaded))
    by (vm_compute; reflexivity).
  assert (H4 : Save fs_empty roundtrip_loaded "cal2.json" = (GC_OK, roundtrip_fs_2))
    by reflexivity.
  split; [exact H1|]. split; [exact H2|]. split; [exact H3|].
  split.
  { intros Hc. apply (f_equal (fun c => pixelPoints (m_model c))) in Hc.
    vm_compute in Hc. discriminate Hc. }
  split; [exact H4|].
  exact (Save_Load_second_generation_is_stable fs_empty roundtrip_fs fs_empty roundtrip_fs_2
           roundtrip_calib Calib_new demo_calib roundtrip_loaded "cal.json" "cal2.json"
           H1 H2 H3 H4).
Defined.

(** ** Calibrate and its overlay *)

Section CalibrateOverlay.
Context {cv : OpenCV} {gc : GcTypes} {ov : CalibOverlay}.

(** X24.  What [Calibrate] leaves in the object does not depend on the
    overlay it is asked for: it is what the same call without image and
    without drawing leaves.  The status is that of the call without drawing
    unless that is [GC_OK], in which case it is what the drawing makes of
    it: for a non-empty image that is neither [CV_8UC1] nor [CV_8UC3] the
    call returns [GC_ERR] with the calibration complete and stored, and
    with the output image untouched. *)
Theorem Calibrate_overlay_does_not_touch_object (c c' : Calib)
    (pixelPts worldPts : list Point2d) (grid imgSize : Size) (img imgOut out' : Mat)
    (dc dm ds : bool) (st : GC_STATUS) :
  Calibrate c pixelPts worldPts grid imgSize img imgOut dc dm ds = Some (st, c', out') ->
  exists st0,
    Calibrate c pixelPts worldPts grid imgSize Mat_new imgOut false false false
    = Some (st0, c', imgOut)
    /\ (st0 <> GC_OK -> st = st0)
    /\ ((dc || dm || ds) && negb (Mat_empty img) = false -> st = st0 /\ out' = imgOut)
    /\ (st0 = GC_OK -> (dc || dm || ds) && negb (Mat_empty img) = true ->
        mtype img = CV_32FC1 \/ mtype img = CV_64FC1 ->
        st = GC_ERR /\ out' = imgOut).
Proof.
  unfold Calibrate.
  destruct (Calibrate_invalid pixelPts worldPts grid).
  { intros E. injection E as <- <- <-. exists GC_ERR. split; [reflexivity|].
    split; [reflexivity|]. split; [split; reflexivity|]. discriminate. }
  destruct (findHomography _ _) as [h1|].
  2:{ intros E. injection E as <- <- <-. exists GC_EXCEPT. split; [reflexivity|].
      split; [reflexivity|]. split; [split; reflexivity|]. discriminate. }
  destruct (findHomography _ _) as [h2|].
  2:{ intros E. injection E as <- <- <-. exists GC_EXCEPT. split; [reflexivity|].
      split; [reflexivity|]. split; [split; reflexivity|]. discriminate. }
  destruct (CalcSearchSwaths _) as [[st1 c1]|] eqn:Hsw; [|discriminate].
  cbn [bind].
  destruct (if GC_STATUS_eqb GC_OK st1 then Calibrate_moveRegions c1 imgSize else Some c1)
    as [c2|]; [|discriminate].
  cbn [bind].
  destruct (Calibrate_draw c2 st1 img imgOut dc dm ds) as [r o] eqn:Hd.
  intros E. injection E as <- <- <-.
  exists st1. split.
  { unfold Calibrate_draw. cbn [orb andb]. reflexivity. }
  assert (Hst1 : st1 = GC_OK \/ st1 = GC_ERR).
  { destruct (CalcSearchSwaths_status _ _ _ Hsw) as [(-> & _)|(-> & _)]; auto. }
  unfold Calibrate_draw in Hd.
  destruct ((dc || dm || ds) && negb (Mat_empty img)).
  - split.
    { intros Hne. destruct Hst1 as [Hs|Hs]; subst st1; [congruence|].
      destruct (mtype img); cbn [GC_STATUS_eqb] in Hd; injection Hd as <- _;
        reflexivity. }
    split; [discriminate|].
    intros -> _ Ht.
    destruct Ht as [Ht|Ht]; rewrite Ht in Hd; cbn [GC_STATUS_eqb] in Hd;
      injection Hd as <- <-; split; reflexivity.
  - injection Hd as <- <-. split; [reflexivity|]. split; [split; reflexivity|].
    discriminate.
Qed.

End CalibrateOverlay.

Lemma Calibrate_overlay_does_not_touch_object_witness :
  Calibrate Calib_new demo_pixelPts demo_worldPts (mkSize 2 4) demo_imgSize
    demo_peak Mat_new true false false = Some (GC_ERR, demo_calib, Mat_new)
  /\ Calibrate Calib_new demo_pixelPts demo_worldPts (mkSize 2 4) demo_imgSize
       Mat_new Mat_new false false false = Some (GC_OK, demo_calib, Mat_new).
Proof.
  assert (H : Calibrate Calib_new demo_pixelPts demo_worldPts (mkSize 2 4) demo_imgSize
                demo_peak Mat_new true false false = Some (GC_ERR, demo_calib, Mat_new))
    by (vm_compute; reflexivity).
  split; [exact H|].
  destruct (Calibrate_overlay_does_not_touch_object _ _ _ _ _ _ _ _ _ _ _ _ _ H)
    as (st0 & Hrun & _ & _ & _).
  rewrite Hrun. f_equal. f_equal. f_equal.
  vm_compute in Hrun. injection Hrun as <-. reflexivity.
Defined.

(** ** InitBowtieTemplate and the parity of TEMPLATE_COUNT *)

Section EvenBank.
Context {cv : OpenCV} {gc : GcTypes} {cvm : OpenCVMore}.

Lemma rotations_overrun (even center : Z) (n : nat) :
  0 <= even -> rotation_works even ->
  forall (i : Z) (dst : Mat) (templates : list Mat),
    rows dst = 2 * even -> cols dst = 2 * even ->
    0 <= i -> i + Z.of_nat (S n) = center ->
    vsize templates = 2 * center -> vsize templates <= Int.max_int ->
    InitBowtieTemplate_rotations (S n) i center (bowtie_drawing (2 * even)) dst
      (mkRect (even / 2) (even / 2) even even) templates = None.
Proof.
  intros Heven Hworks.
  induction n as [|n IH]; intros i dst templates Hr Hc Hi Hn Hlen Hmax.
  - cbn [InitBowtieTemplate_rotations].
    unfold Int.max_int in Hmax.
    assert (R : forall z, - 2 ^ 31 <= z <= 2 ^ 31 - 1 -> Int.wrap z = z).
    { intros z Hz. apply Int_wrap_in_range.
      unfold Int.in_range, Int.min_int, Int.max_int. lia. }
    unfold Int.sub, Int.add. rewrite (R (i - center)) by lia.
    rewrite (R (i + 1)) by lia. rewrite (R (center + i)) by lia.
    rewrite (R (center + i + 1)) by lia.
    rewrite !size_of_int_exact by (unfold Int.max_int; lia).
    rewrite (RotateImage_works even Hworks dst (i - center) Hr Hc).
    cbn [GC_STATUS_eqb negb].
    destruct (bowtie_template_built even Heven Hworks (i - center)) as (t1 & Ht1 & _).
    destruct (bowtie_template_built even Heven Hworks (i + 1)) as (t2 & Ht2 & _).
    unfold bowtie_template in Ht1, Ht2.
    destruct (Z.eqb_spec (i - center) 0); [lia|].
    destruct (Z.eqb_spec (i + 1) 0); [lia|].
    rewrite Ht1.
    destruct (vset_in_range templates i t1) as [T1 HT1]; [lia|].
    rewrite HT1. cbn [bind].
    destruct (vset_spec _ _ _ _ HT1) as (_ & L1 & _).
    destruct (rotated_bowtie_header even Hworks (i - center)) as (Hr1 & Hc1 & _).
    rewrite (RotateImage_works even Hworks _ (i + 1) Hr1 Hc1).
    cbn [GC_STATUS_eqb negb]. rewrite Ht2.
    unfold vset.
    replace (center + i + 1 <? vsize T1) with false; [rewrite andb_false_r; reflexivity|].
    symmetry. apply Z.ltb_ge. unfold vsize in *. lia.
  - remember (S n) as m eqn:Em. cbn [InitBowtieTemplate_rotations].
    unfold Int.max_int in Hmax.
    assert (R : forall z, - 2 ^ 31 <= z <= 2 ^ 31 - 1 -> Int.wrap z = z).
    { intros z Hz. apply Int_wrap_in_range.
      unfold Int.in_range, Int.min_int, Int.max_int. lia. }
    unfold Int.sub, Int.add. rewrite (R (i - center)) by lia.
    rewrite (R (i + 1)) by lia. rewrite (R (center + i)) by lia.
    rewrite (R (center + i + 1)) by lia.
    rewrite !size_of_int_exact by (unfold Int.max_int; lia).
    rewrite (RotateImage_works even Hworks dst (i - center) Hr Hc).
    cbn [GC_STATUS_eqb negb].
    destruct (bowtie_template_built even Heven Hworks (i - center)) as (t1 & Ht1 & _).
    destruct (bowtie_template_built even Heven Hworks (i + 1)) as (t2 & Ht2 & _).
    unfold bowtie_template in Ht1, Ht2.
    destruct (Z.eqb_spec (i - center) 0); [lia|].
    destruct (Z.eqb_spec (i + 1) 0); [lia|].
    rewrite Ht1.
    destruct (vset_in_range templates i t1) as [T1 HT1]; [lia|].
    rewrite HT1. cbn [bind].
    destruct (vset_spec _ _ _ _ HT1) as (_ & L1 & _).
    destruct (rotated_bowtie_header even Hworks (i - center)) as (Hr1 & Hc1 & _).
    rewrite (RotateImage_works even Hworks _ (i + 1) Hr1 Hc1).
    cbn [GC_STATUS_eqb negb]. rewrite Ht2.
    destruct (vset_in_range T1 (center + i + 1) t2) as [T2 HT2].
    { unfold vsize in *. lia. }
    rewrite HT2. cbn [bind].
    destruct (vset_spec _ _ _ _ HT2) as (_ & L2 & _).
    destruct (rotated_bowtie_header even Hworks (i + 1)) as (Hr2 & Hc2 & _).
    subst m. apply IH; try assumption; try lia.
    + unfold vsize in *. lia.
    + unfold vsize, Int.max_int in *. lia.
Qed.

(** X25.  [InitBowtieTemplate] is written for an odd [TEMPLATE_COUNT]: with
    an even one (and a valid template dimension, no rotation throwing) the
    last turn of the rotation loop copies its second template to
    [m_templates[ TEMPLATE_COUNT ]], one past the end of the vector. *)
Theorem InitBowtieTemplate_even_count_overruns (g : FindCalibGrid) (templateDim : Z)
    (searchImgSize : Size) :
  20 <= templateDim <= 1000 ->
  Z.even TEMPLATE_COUNT = true -> 2 <= TEMPLATE_COUNT <= Int.max_int ->
  rotation_works (even_dim templateDim) ->
  InitBowtieTemplate g templateDim searchImgSize = None.
Proof.
  intros Hdim Hev HTC Hworks.
  set (even := even_dim templateDim) in *.
  assert (Hmod : 0 <= templateDim mod 2 < 2) by (apply Z.mod_pos_bound; lia).
  assert (Heven : 20 <= even <= 1001) by (unfold even, even_dim; lia).
  assert (Hrem : Z.rem templateDim 2 = templateDim mod 2) by (apply Z.rem_mod_nonneg; lia).
  assert (Hcq : Z.quot TEMPLATE_COUNT 2 = TEMPLATE_COUNT / 2)
    by (apply Z.quot_div_nonneg; lia).
  set (center := TEMPLATE_COUNT / 2) in *.
  assert (HTC2 : TEMPLATE_COUNT = 2 * center).
  { rewrite (Z.div_mod TEMPLATE_COUNT 2) at 1 by lia. fold center.
    rewrite <- Z.bit0_mod, Z.bit0_odd, <- Z.negb_even, Hev. cbn. lia. }
  assert (Hc1 : 1 <= center) by lia.
  unfold Int.max_int in *.
  assert (R : forall z, - 2 ^ 31 <= z <= 2 ^ 31 - 1 -> Int.wrap z = z).
  { intros z Hz. apply Int_wrap_in_range.
    unfold Int.in_range, Int.min_int, Int.max_int. lia. }
  unfold InitBowtieTemplate.
  destruct (Z.ltb_spec templateDim 20); [lia|].
  destruct (Z.ltb_spec 1000 templateDim); [lia|]. cbn [orb].
  rewrite Hrem, Hcq. unfold Int.add.
  rewrite (R (templateDim + templateDim mod 2)) by lia.
  change (templateDim + templateDim mod 2) with even.
  rewrite Z.shiftl_mul_pow2 by lia. change (2 ^ 1) with 2.
  replace (even * 2) with (2 * even) by lia.
  rewrite Int_shr_div by lia. change (2 ^ 1) with 2.
  cbn [m_templates with_templates].
  destruct (bowtie_template_built even ltac:(lia) Hworks 0) as (t0 & Ht0 & _).
  unfold bowtie_template in Ht0. cbn [Z.eqb] in Ht0. rewrite Ht0.
  set (T := repeat (Mat_alloc even even CV_8UC1) (Z.to_nat TEMPLATE_COUNT)).
  assert (LT : vsize T = TEMPLATE_COUNT).
  { unfold vsize, T. rewrite repeat_length. lia. }
  rewrite size_of_int_exact by (unfold Int.max_int; lia).
  destruct (vset_in_range T center t0) as [T0 HT0]; [lia|].
  rewrite HT0. cbn [bind].
  destruct (vset_spec _ _ _ _ HT0) as (_ & L0 & _).
  destruct (Z.to_nat center) as [|n] eqn:Hn; [lia|].
  rewrite (rotations_overrun even center n ltac:(lia) Hworks 0
             (Mat_alloc (2 * even) (2 * even) CV_8UC1) T0); try reflexivity; try lia.
  - unfold vsize in *. lia.
  - unfold vsize, Int.max_int in *. lia.
Qed.

End EvenBank.

Lemma InitBowtieTemplate_even_count_overruns_witness :
  20 <= 20 <= 1000
  /\ Z.even (@TEMPLATE_COUNT gc_even) = true
  /\ @InitBowtieTemplate gc_even cvm_demo FindCalibGrid_new 20 (mkSize 48 24) = None
  /\ exists g', InitBowtieTemplate FindCalibGrid_new 20 (mkSize 48 24) = Some (GC_OK, g').
Proof.
  assert (H1 : 20 <= 20 <= 1000) by lia.
  assert (H2 : Z.even (@TEMPLATE_COUNT gc_even) = true) by reflexivity.
  assert (H3 : 2 <= @TEMPLATE_COUNT gc_even <= Int.max_int)
    by (vm_compute; intuition discriminate).
  split; [exact H1|]. split; [exact H2|].
  split.
  - exact (@InitBowtieTemplate_even_count_overruns gc_even cvm_demo FindCalibGrid_new 20
             (mkSize 48 24) H1 H2 H3 demo_rotation_works).
  - exists demo_grid_init. vm_compute. reflexivity.
Defined.
